(** * charidotella: the render script (render.py)

    A shallow embedding of the timecode codec, the generator expansion,
    the parameter comparison and the [run] command of render.py, with the
    properties of its specification stated and settled on it.

    Python strings are modelled as [string], one [ascii] per code point, so
    the model covers the code points U+0000..U+00FF.  Python integers are
    [Z].  Floating-point values are not part of the value universe. *)

From Stdlib Require Import ZArith List String Ascii Bool Lia Arith.
From Stdlib Require Import Sorting.Permutation Sorting.Sorted.
Import ListNotations.

Open Scope string_scope.
Open Scope Z_scope.

(** ** Python strings *)

Module PyStr.

Definition code (c : ascii) : Z := Z.of_nat (nat_of_ascii c).

(** ASCII decimal digits: what [\d] matches among U+0000..U+00FF. *)
Definition is_ascii_digit (c : ascii) : bool :=
  (48 <=? code c) && (code c <=? 57).

(** [str.isdigit] on one character: the decimal digits and the superscript
    digits U+00B2, U+00B3 and U+00B9. *)
Definition isdigit_char (c : ascii) : bool :=
  is_ascii_digit c || (code c =? 178) || (code c =? 179) || (code c =? 185).

Fixpoint forallb_str (p : ascii -> bool) (s : string) : bool :=
  match s with
  | EmptyString => true
  | String c r => p c && forallb_str p r
  end.

(** [value.isdigit()]: false on the empty string. *)
Definition isdigit (s : string) : bool :=
  match s with
  | EmptyString => false
  | _ => forallb_str isdigit_char s
  end.

Definition digit_char (d : Z) : ascii := ascii_of_nat (Z.to_nat (48 + d)).
Definition digit_val (c : ascii) : Z := code c - 48.

(** Decimal digits of a non-negative integer, most significant first, put in
    front of [acc]. *)
Fixpoint decimal_acc (fuel : nat) (n : Z) (acc : string) : string :=
  let acc' := String (digit_char (n mod 10)) acc in
  match fuel with
  | O => acc'
  | S f => if n <? 10 then acc' else decimal_acc f (n / 10) acc'
  end.

Definition decimal (n : Z) : string :=
  decimal_acc (Z.to_nat (Z.log2 n)) n EmptyString.

(** [str(n)] for an integer. *)
Definition str_of_int (n : Z) : string :=
  if n <? 0 then String "-" (decimal (- n)) else decimal n.

Fixpoint int_acc (s : string) (acc : Z) : option Z :=
  match s with
  | EmptyString => Some acc
  | String c r =>
      if is_ascii_digit c then int_acc r (acc * 10 + digit_val c) else None
  end.

(** [int(s)] on the strings that reach it in render.py: the strings that
    [isdigit] accepts and the groups of [\d+].  [None] is [ValueError]. *)
Definition int_of_digits (s : string) : option Z :=
  match s with
  | EmptyString => None
  | _ => int_acc s 0
  end.

Fixpoint repeat_char (c : ascii) (n : nat) : string :=
  match n with
  | O => EmptyString
  | S k => String c (repeat_char c k)
  end.

(** The format specification [0Wd]: sign-aware zero padding to width [W]. *)
Definition format_0d (width : nat) (n : Z) : string :=
  if n <? 0 then
    let d := decimal (- n) in
    String "-" (repeat_char "0" (width - 1 - length d) ++ d)
  else
    let d := decimal n in
    repeat_char "0" (width - length d) ++ d.

Fixpoint rev_acc (s acc : string) : string :=
  match s with
  | EmptyString => acc
  | String c r => rev_acc r (String c acc)
  end.

Definition rev (s : string) : string := rev_acc s EmptyString.

Fixpoint lstrip_char (c : ascii) (s : string) : string :=
  match s with
  | EmptyString => EmptyString
  | String a r => if Ascii.eqb a c then lstrip_char c r else s
  end.

(** [s.rstrip(c)] for a one-character argument. *)
Definition rstrip_char (c : ascii) (s : string) : string :=
  rev (lstrip_char c (rev s)).

Fixpoint drop (n : nat) (s : string) : string :=
  match n, s with
  | O, _ => s
  | S k, EmptyString => EmptyString
  | S k, String _ r => drop k r
  end.

(** The character [c] occurs in [s]. *)
Fixpoint has_char (c : ascii) (s : string) : bool :=
  match s with
  | EmptyString => false
  | String a r => Ascii.eqb c a || has_char c r
  end.

(** Occurrence test of [x] inside [s]. *)
Fixpoint contains (x s : string) : bool :=
  prefix x s ||
  match s with
  | EmptyString => false
  | String _ r => contains x r
  end.

Fixpoint replace_go (old new s : string) (skip : nat) : string :=
  match s with
  | EmptyString => EmptyString
  | String c r =>
      match skip with
      | S k => replace_go old new r k
      | O =>
          if prefix old s
          then new ++ replace_go old new r (length old - 1)
          else String c (replace_go old new r 0)
      end
  end.

Fixpoint interleave (new s : string) : string :=
  match s with
  | EmptyString => new
  | String c r => new ++ String c (interleave new r)
  end.

(** [s.replace(old, new)]: every non-overlapping occurrence, leftmost
    first; an empty [old] matches between the characters. *)
Definition replace (old new s : string) : string :=
  match old with
  | EmptyString => interleave new s
  | _ => replace_go old new s 0
  end.

Fixpoint join (sep : string) (l : list string) : string :=
  match l with
  | [] => EmptyString
  | [x] => x
  | x :: r => x ++ sep ++ join sep r
  end.

(** Longest prefix of ASCII digits and the rest. *)
Fixpoint span_digits (s : string) : string * string :=
  match s with
  | EmptyString => (EmptyString, EmptyString)
  | String c r =>
      if is_ascii_digit c
      then let (d, t) := span_digits r in (String c d, t)
      else (EmptyString, s)
  end.

End PyStr.

(** ** Exceptions *)

Inductive exn : Type :=
| KeyError (key : string)
| TypeError
| AttributeError (message : string)
| ValueError (message : string)
| IndexError
| AssertionError
| TomlDecodeError
| ArgumentTypeError (message : string)
| ReError (pattern : string)
| ValidationError
| FileNotFoundError (path : string)
| FilterError (name : string)
| TaskError (name : string)
| SystemExit (message : string).

(** ** Python values *)

(** The values a TOML document holds, floats and dates left out.  A [dict]
    keeps its items in insertion order; its keys are strings. *)
Unset Elimination Schemes.
Inductive value : Type :=
| VNone
| VBool (b : bool)
| VInt (n : Z)
| VStr (s : string)
| VList (l : list value)
| VDict (d : list (string * value)).
Set Elimination Schemes.

Definition items := list (string * value).

Fixpoint lookup (k : string) (d : items) : option value :=
  match d with
  | [] => None
  | (k', v) :: r => if String.eqb k k' then Some v else lookup k r
  end.

(** [d[k] = v]: an existing key keeps its place, a new one goes last. *)
Fixpoint set_item (k : string) (v : value) (d : items) : items :=
  match d with
  | [] => [(k, v)]
  | (k', v') :: r =>
      if String.eqb k k' then (k, v) :: r else (k', v') :: set_item k v r
  end.

(** [del d[k]] on a key that is present. *)
Fixpoint del_item (k : string) (d : items) : items :=
  match d with
  | [] => []
  | (k', v') :: r => if String.eqb k k' then r else (k', v') :: del_item k r
  end.

Definition keys (d : items) : list string := map fst d.

Module Py.

Definition hex_digit (n : Z) : ascii :=
  if n <? 10 then PyStr.digit_char n else ascii_of_nat (Z.to_nat (87 + n)).

Definition hex2 (c : ascii) : string :=
  String (hex_digit (PyStr.code c / 16))
    (String (hex_digit (PyStr.code c mod 16)) EmptyString).

(** Printable characters of U+0000..U+00FF, as [repr] sees them. *)
Definition isprintable (c : ascii) : bool :=
  let n := PyStr.code c in
  ((32 <=? n) && (n <=? 126)) || ((161 <=? n) && negb (n =? 173)).

Definition backslash : ascii := "\"%char.
Definition dquote : ascii := "034"%char.
Definition squote : ascii := "'"%char.

Definition esc (c : ascii) : string := String backslash (String c EmptyString).

Fixpoint repr_chars (quote : ascii) (s : string) : string :=
  match s with
  | EmptyString => EmptyString
  | String c r =>
      (if Ascii.eqb c quote || Ascii.eqb c backslash then esc c
       else if Ascii.eqb c "009" then esc "t"
       else if Ascii.eqb c "010" then esc "n"
       else if Ascii.eqb c "013" then esc "r"
       else if isprintable c then String c EmptyString
       else esc "x" ++ hex2 c) ++ repr_chars quote r
  end.

(** [repr(s)] of a string: single quotes, unless the string holds a single
    quote and no double quote. *)
Definition repr_str (s : string) : string :=
  let quote :=
    if PyStr.contains (String squote EmptyString) s
       && negb (PyStr.contains (String dquote EmptyString) s)
    then dquote else squote in
  String quote (repr_chars quote s ++ String quote EmptyString).

Fixpoint repr (v : value) : string :=
  match v with
  | VNone => "None"
  | VBool true => "True"
  | VBool false => "False"
  | VInt n => PyStr.str_of_int n
  | VStr s => repr_str s
  | VList l => "[" ++ PyStr.join ", " (map repr l) ++ "]"
  | VDict d =>
      "{" ++ PyStr.join ", "
               (map (fun kv : string * value => let (k, x) := kv in repr_str k ++ ": " ++ repr x) d)
          ++ "}"
  end.

(** [str(v)], also what an f-string puts for [{v}]. *)
Definition str (v : value) : string :=
  match v with
  | VStr s => s
  | _ => repr v
  end.

Definition int_of_bool (b : bool) : Z := if b then 1 else 0.

(** [a == b]: numbers by value (a [bool] is an [int]), sequences item by
    item, mappings key by key whatever the order. *)
Fixpoint eq (a b : value) {struct a} : bool :=
  match a, b with
  | VNone, VNone => true
  | VBool x, VBool y => Bool.eqb x y
  | VBool x, VInt y => int_of_bool x =? y
  | VInt x, VBool y => x =? int_of_bool y
  | VInt x, VInt y => x =? y
  | VStr x, VStr y => String.eqb x y
  | VList x, VList y =>
      (fix go (x : list value) (y : list value) {struct x} : bool :=
         match x, y with
         | [], [] => true
         | u :: x', w :: y' => eq u w && go x' y'
         | _, _ => false
         end) x y
  | VDict x, VDict y =>
      (List.length x =? List.length y)%nat
      && forallb (fun kv : string * value => let (k, u) := kv in
                            match lookup k y with
                            | Some w => eq u w
                            | None => false
                            end) x
  | _, _ => false
  end.

Definition index_of (k : value) : Z :=
  match k with
  | VInt i => i
  | VBool b => int_of_bool b
  | _ => 0
  end.

(** [v[k]] *)
Definition getitem (v k : value) : exn + value :=
  match v, k with
  | VDict d, VStr key =>
      match lookup key d with
      | Some x => inr x
      | None => inl (KeyError key)
      end
  | VDict d, (VNone | VBool _ | VInt _) => inl (KeyError (repr k))
  | VDict d, _ => inl TypeError
  | VList l, (VInt _ | VBool _) =>
      let i := index_of k in
      let i := if i <? 0 then i + Z.of_nat (List.length l) else i in
      if i <? 0 then inl IndexError
      else match nth_error l (Z.to_nat i) with
           | Some x => inr x
           | None => inl IndexError
           end
  | VStr s, (VInt _ | VBool _) =>
      let i := index_of k in
      let i := if i <? 0 then i + Z.of_nat (String.length s) else i in
      if i <? 0 then inl IndexError
      else match String.get (Z.to_nat i) s with
           | Some c => inr (VStr (String c EmptyString))
           | None => inl IndexError
           end
  | _, _ => inl TypeError
  end.

(** [x in c] *)
Definition contains (x c : value) : exn + bool :=
  match c with
  | VDict d =>
      match x with
      | VStr key => inr (existsb (String.eqb key) (keys d))
      | VNone | VBool _ | VInt _ => inr false
      | VList _ | VDict _ => inl TypeError
      end
  | VList l => inr (existsb (eq x) l)
  | VStr s =>
      match x with
      | VStr t => inr (PyStr.contains t s)
      | _ => inl TypeError
      end
  | _ => inl TypeError
  end.

Fixpoint chars (s : string) : list value :=
  match s with
  | EmptyString => []
  | String c r => VStr (String c EmptyString) :: chars r
  end.

(** The items a [for] loop (or [zip]) takes from [v]. *)
Definition iter (v : value) : exn + list value :=
  match v with
  | VList l => inr l
  | VDict d => inr (map VStr (keys d))
  | VStr s => inr (chars s)
  | _ => inl TypeError
  end.

(** [len(v)] *)
Definition len (v : value) : exn + Z :=
  match v with
  | VList l => inr (Z.of_nat (List.length l))
  | VDict d => inr (Z.of_nat (List.length d))
  | VStr s => inr (Z.of_nat (String.length s))
  | _ => inl TypeError
  end.

(** [v.items()] *)
Definition dict_items (v : value) : exn + items :=
  match v with
  | VDict d => inr d
  | _ => inl (AttributeError "object has no attribute 'items'")
  end.

Fixpoint insert_by {A} (le : A -> A -> bool) (x : A) (l : list A) : list A :=
  match l with
  | [] => [x]
  | y :: r => if le x y then x :: l else y :: insert_by le x r
  end.

(** [sorted]: a stable sort. *)
Definition sorted_by {A} (le : A -> A -> bool) (l : list A) : list A :=
  fold_right (insert_by le) [] l.

(** [zip] over the unpacked rows: the columns, as many as the shortest row has items. *)
Fixpoint zip_star (fuel : nat) (rows : list (list value)) : list (list value) :=
  match fuel with
  | O => []
  | S f =>
      if forallb (fun r => match r with [] => false | _ => true end) rows
      then map (fun r => hd VNone r) rows :: zip_star f (map (@tl value) rows)
      else []
  end.

End Py.

(** ** The error monad of the pure functions *)

Definition ebind {A B} (m : exn + A) (f : A -> exn + B) : exn + B :=
  match m with
  | inl e => inl e
  | inr a => f a
  end.

Notation "'let?' x ':=' m 'in' k" := (ebind m (fun x => k))
  (at level 10, x pattern, m at level 100, k at level 200).

Fixpoint emap {A B} (f : A -> exn + B) (l : list A) : exn + list B :=
  match l with
  | [] => inr []
  | x :: r => let? y := f x in let? ys := emap f r in inr (y :: ys)
  end.

Fixpoint efold {A S} (f : S -> A -> exn + S) (l : list A) (s : S) : exn + S :=
  match l with
  | [] => inr s
  | x :: r => let? s' := f s x in efold f r s'
  end.

(** [error(message)]: the message on the standard error, then [sys.exit(1)]. *)
Definition error {A} (message : string) : exn + A := inl (SystemExit message).

Definition get (v : value) (key : string) : exn + value :=
  Py.getitem v (VStr key).

(** ** Timecode codec *)

Section Timecode.

(** [round(float("0." + fraction_string) * 1e6)], the floating-point branch
    of [timecode], is left to its caller's arithmetic. *)
Variable round_fraction : string -> Z.

(** render.py, timestamp_to_timecode *)
Definition timestamp_to_timecode (timestamp : Z) : string :=
  let hours := timestamp / (60 * 60 * 1000000) in
  let timestamp := timestamp - hours * 60 * 60 * 1000000 in
  let minutes := timestamp / (60 * 1000000) in
  let timestamp := timestamp - minutes * 60 * 1000000 in
  let seconds := timestamp / 1000000 in
  let timestamp := timestamp - seconds * 1000000 in
  PyStr.format_0d 2 hours ++ ":" ++ PyStr.format_0d 2 minutes ++ ":"
    ++ PyStr.format_0d 2 seconds ++ "." ++ PyStr.format_0d 6 timestamp.

(** render.py, timestamp_to_short_timecode *)
Definition timestamp_to_short_timecode (timestamp : Z) : string :=
  let hours := timestamp / (60 * 60 * 1000000) in
  let timestamp := timestamp - hours * 60 * 60 * 1000000 in
  let minutes := timestamp / (60 * 1000000) in
  let timestamp := timestamp - minutes * 60 * 1000000 in
  let seconds := timestamp / 1000000 in
  let timestamp := timestamp - seconds * 1000000 in
  let timestamp_string :=
    if timestamp =? 0 then EmptyString
    else PyStr.rstrip_char "0" ("." ++ PyStr.format_0d 6 timestamp) in
  if hours >? 0 then
    PyStr.str_of_int hours ++ ":" ++ PyStr.format_0d 2 minutes ++ ":"
      ++ PyStr.format_0d 2 seconds ++ timestamp_string
  else if minutes >? 0 then
    PyStr.str_of_int minutes ++ ":" ++ PyStr.format_0d 2 seconds
      ++ timestamp_string
  else PyStr.str_of_int seconds ++ timestamp_string.

(** One group [(\d+)]: a non-empty run of digits, and what follows it. *)
Definition digits1 (s : string) : option (string * string) :=
  match PyStr.span_digits s with
  | (EmptyString, _) => None
  | (d, t) => Some (d, t)
  end.

Definition expect (c : ascii) (s : string) : option string :=
  match s with
  | String a r => if Ascii.eqb a c then Some r else None
  | EmptyString => None
  end.

(** [$] without MULTILINE: the end of the string, or just before a newline
    that ends the string. *)
Definition at_end (s : string) : bool :=
  match s with
  | EmptyString => true
  | String c EmptyString => Ascii.eqb c "010"
  | _ => false
  end.

(** [TIMECODE_PATTERN.match(value)] for
    [^(\d+):(\d+):(\d+)(?:\.(\d+))?$]: the groups 1 to 4, the last one
    [None] when the fraction did not take part in the match. *)
Definition TIMECODE_PATTERN_match (value : string)
  : option (string * string * string * option string) :=
  match digits1 value with
  | None => None
  | Some (g1, r1) =>
    match expect ":" r1 with
    | None => None
    | Some r1 =>
      match digits1 r1 with
      | None => None
      | Some (g2, r2) =>
        match expect ":" r2 with
        | None => None
        | Some r2 =>
          match digits1 r2 with
          | None => None
          | Some (g3, r3) =>
            let without_fraction :=
              if at_end r3 then Some (g1, g2, g3, None) else None in
            match expect "." r3 with
            | None => without_fraction
            | Some r4 =>
              match digits1 r4 with
              | None => without_fraction
              | Some (g4, r5) =>
                  if at_end r5 then Some (g1, g2, g3, Some g4)
                  else without_fraction
              end
            end
          end
        end
      end
    end
  end.

Definition int_or_raise (s : string) : exn + Z :=
  match PyStr.int_of_digits s with
  | Some n => inr n
  | None =>
      inl (ValueError
             ("invalid literal for int() with base 10: " ++ Py.repr_str s))
  end.

(** render.py, timecode (on a string) *)
Definition timecode_str (value : string) : exn + Z :=
  if PyStr.isdigit value then int_or_raise value
  else
    match TIMECODE_PATTERN_match value with
    | None =>
        inl (ArgumentTypeError
               ("expected an integer or a timecode (12:34:56.789000), got "
                  ++ value))
    | Some (m1, m2, m3, m4) =>
      match int_or_raise m1, int_or_raise m2, int_or_raise m3 with
      | inr h, inr m, inr s =>
          let result := h * 3600000000 + m * 60000000 + s * 1000000 in
          match m4 with
          | None => inr result
          | Some fraction_string =>
              if (length fraction_string =? 6)%nat then
                match int_or_raise fraction_string with
                | inr f => inr (result + f)
                | inl e => inl e
                end
              else if (length fraction_string <? 6)%nat then
                match int_or_raise
                        (fraction_string
                           ++ PyStr.repeat_char "0" (6 - length fraction_string))
                with
                | inr f => inr (result + f)
                | inl e => inl e
                end
              else inr (result + round_fraction fraction_string)
          end
      | inl e, _, _ => inl e
      | _, inl e, _ => inl e
      | _, _, inl e => inl e
      end
    end.

End Timecode.

(** ** Parameter comparison *)

Module Json.

(** What the encoder puts for one character: [ESCAPE_ASCII] and
    [ESCAPE_DCT] of json.encoder, with [ensure_ascii] left at [True]. *)
Definition escape_char (c : ascii) : string :=
  if Ascii.eqb c Py.dquote || Ascii.eqb c Py.backslash then Py.esc c
  else if Ascii.eqb c "010" then Py.esc "n"
  else if Ascii.eqb c "013" then Py.esc "r"
  else if Ascii.eqb c "009" then Py.esc "t"
  else if Ascii.eqb c "008" then Py.esc "b"
  else if Ascii.eqb c "012" then Py.esc "f"
  else if (32 <=? PyStr.code c) && (PyStr.code c <=? 126)
       then String c EmptyString
  else Py.esc "u" ++ "00" ++ Py.hex2 c.

Fixpoint escape (s : string) : string :=
  match s with
  | EmptyString => EmptyString
  | String c r => escape_char c ++ escape r
  end.

Definition dumps_str (s : string) : string :=
  String Py.dquote (escape s ++ String Py.dquote EmptyString).

Definition key_le (a b : string * string) : bool := String.leb (fst a) (fst b).

(** [json.dumps(v, sort_keys=True, separators=(",", ":"))].  The items of a
    mapping are sorted by key; their values are serialized before the sort,
    which does not look at them. *)
Fixpoint dumps (v : value) : string :=
  match v with
  | VNone => "null"
  | VBool true => "true"
  | VBool false => "false"
  | VInt n => PyStr.str_of_int n
  | VStr s => dumps_str s
  | VList l => "[" ++ PyStr.join "," (map dumps l) ++ "]"
  | VDict d =>
      "{" ++ PyStr.join ","
               (map (fun ks => dumps_str (fst ks) ++ ":" ++ snd ks)
                  (Py.sorted_by key_le
                     (map (fun kv : string * value => let (k, x) := kv in (k, dumps x)) d)))
          ++ "}"
  end.

End Json.

(** render.py, compare_parameters *)
Definition compare_parameters (a b : value) : bool :=
  String.eqb (Json.dumps a) (Json.dumps b).

(** ** Generator expansion *)

Definition q : string := String Py.dquote EmptyString.

Definition type_name (v : value) : string :=
  match v with
  | VNone => "NoneType"
  | VBool _ => "bool"
  | VInt _ => "int"
  | VStr _ => "str"
  | VList _ => "list"
  | VDict _ => "dict"
  end.

Definition no_attribute {A} (v : value) (attribute : string) : exn + A :=
  inl (AttributeError
         ("'" ++ type_name v ++ "' object has no attribute '" ++ attribute ++ "'")).

(** [v[key] = x] for a string key. *)
Definition setitem (v : value) (key : string) (x : value) : exn + value :=
  match v with
  | VDict d => inr (VDict (set_item key x d))
  | _ => inl TypeError
  end.

(** [del v[key]] for a string key. *)
Definition delitem (v : value) (key : string) : exn + value :=
  match v with
  | VDict d =>
      if existsb (String.eqb key) (keys d) then inr (VDict (del_item key d))
      else inl (KeyError key)
  | _ => inl TypeError
  end.

(** [v.append(x)] *)
Definition append (v x : value) : exn + value :=
  match v with
  | VList l => inr (VList (l ++ [x]))
  | _ => no_attribute v "append"
  end.

(** What [recursive_replace] does to one value of the template. *)
Fixpoint recursive_replace_value (parameter_name : string)
    (parameter_value : value) (v : value) {struct v} : value :=
  match v with
  | VStr s =>
      if String.eqb s ("@raw(" ++ parameter_name ++ ")") then parameter_value
      else VStr (PyStr.replace ("@" ++ parameter_name) (Py.str parameter_value) s)
  | VDict d =>
      VDict (map (fun kv : string * value =>
                    let (key, x) := kv in
                    (key, recursive_replace_value parameter_name parameter_value x))
               d)
  | _ => v
  end.

(** render.py, recursive_replace: the template after the call. *)
Definition recursive_replace (template : value) (parameter_name : string)
    (parameter_value : value) : exn + value :=
  match template with
  | VDict _ =>
      inr (recursive_replace_value parameter_name parameter_value template)
  | _ => no_attribute template "items"
  end.

Definition neg_len_le (a b : string * value) : bool :=
  - Z.of_nat (String.length (fst a)) <=? - Z.of_nat (String.length (fst b)).

(** [sorted(generator["parameters"].items(),
            key=lambda key_and_value: -len(key_and_value[0]))] *)
Definition parameters_names_and_values (parameters : items) : items :=
  Py.sorted_by neg_len_le parameters.

Definition zip_values (rows : list (list value)) : list (list value) :=
  match rows with
  | [] => []
  | r :: _ => Py.zip_star (List.length r) rows
  end.

(** The loop over [zip(names, parameters_values)] of run_generators. *)
Fixpoint apply_parameters (key : string) (names_and_values : list (string * value))
    (generated_entry_name generated_entry : value) : exn + (value * value) :=
  match names_and_values with
  | [] => inr (generated_entry_name, generated_entry)
  | (parameter_name, parameter_value) :: rest =>
      let? generated_entry_name :=
        if negb (String.eqb key "jobs") then
          match generated_entry_name with
          | VNone => inl AssertionError
          | VStr s =>
              inr (VStr (PyStr.replace ("@" ++ parameter_name)
                           (Py.str parameter_value) s))
          | _ => no_attribute generated_entry_name "replace"
          end
        else inr generated_entry_name in
      let? generated_entry :=
        recursive_replace generated_entry parameter_name parameter_value in
      apply_parameters key rest generated_entry_name generated_entry
  end.

Definition template_name (generator : value) : exn + string :=
  let? template := get generator "template" in
  let? name := get template "name" in
  inr (Py.str name).

(** The body of the loop over the zipped parameter values: one entry. *)
Definition generate_entry (key : string) (generator : value)
    (names : list string) (configuration : value)
    (parameters_values : list value) : exn + value :=
  let? template := get generator "template" in
  let generated_entry := template in
  let? (generated_entry_name, generated_entry) :=
    (if String.eqb key "jobs" then inr (VNone, generated_entry)
     else
       let? name := get generated_entry "name" in
       let? entry := delitem generated_entry "name" in
       inr (name, entry)) in
  let? (generated_entry_name, generated_entry) :=
    apply_parameters key (combine names parameters_values)
      generated_entry_name generated_entry in
  let? collection := get configuration key in
  if String.eqb key "jobs" then
    let? collection := append collection generated_entry in
    setitem configuration key collection
  else
    let? present := Py.contains generated_entry_name collection in
    if present then
      let? name := template_name generator in
      error ("the " ++ key ++ " generator " ++ q ++ name ++ q
               ++ " created an entry whose name (" ++ q
               ++ Py.str generated_entry_name ++ q ++ ") already exists")
    else
      match generated_entry_name with
      | VStr name =>
          let? collection := setitem collection name generated_entry in
          setitem configuration key collection
      | _ => inl TypeError
      end.

(** The body of the loop over the generators of one kind. *)
Definition run_generator (key : string) (configuration generator : value)
  : exn + value :=
  let? parameters := get generator "parameters" in
  let? parameters :=
    match parameters with
    | VDict d => inr d
    | _ => no_attribute parameters "values"
    end in
  let? values_counts := emap (fun kv => Py.len (snd kv)) parameters in
  let? _ :=
    (if (List.length values_counts =? 0)%nat then
       let? name := template_name generator in
       error (key ++ " generator " ++ q ++ name ++ q ++ " has no parameters")
     else inr tt) in
  let? _ :=
    (if negb (forallb (fun values_count => values_count =? hd 0 values_counts)
                values_counts) then
       let? name := template_name generator in
       error ("the parameters in " ++ key ++ " generator " ++ q ++ name ++ q
                ++ " have different numbers of values")
     else inr tt) in
  let names_and_values := parameters_names_and_values parameters in
  let? rows := emap (fun kv => Py.iter (snd kv)) names_and_values in
  efold (generate_entry key generator (map fst names_and_values))
    (zip_values rows) configuration.

Definition generator_kinds : list (string * string) :=
  [("filters", "filters-generators");
   ("tasks", "tasks-generators");
   ("jobs", "jobs-generators")].

(** render.py, run_generators: the configuration after the call. *)
Definition run_generators (configuration : value) : exn + value :=
  efold
    (fun configuration (kind : string * string) =>
       let (key, generator_key) := kind in
       let? present := Py.contains (VStr generator_key) configuration in
       if present then
         let? generators := get configuration generator_key in
         let? generators := Py.iter generators in
         let? configuration := efold (run_generator key) generators configuration in
         delitem configuration generator_key
       else inr configuration)
    generator_kinds configuration.

(** ** Files, collaborators and the monad of the run command *)

(** What a path holds: data nobody looks into, or a TOML document.  A
    document read back is the value that was dumped. *)
Inductive content : Type :=
| Data
| Document (v : value).

Definition files := list (string * content).

Fixpoint file_lookup (path : string) (fs : files) : option content :=
  match fs with
  | [] => None
  | (p, c) :: r => if String.eqb path p then Some c else file_lookup path r
  end.

Definition file_remove (path : string) (fs : files) : files :=
  filter (fun pc => negb (String.eqb path (fst pc))) fs.

Definition file_write (path : string) (c : content) (fs : files) : files :=
  (path, c) :: file_remove path fs.

(** What the script does to the outside, in order. *)
Inductive event : Type :=
| Info (icon message : string)
| Stdout (text : string)
| Mkdir (path : string)
| Copy (source target : string)
| Rename (source target : string)
| Dump (path : string) (document : value)
| ApplyFilter (type input output : string) (begin end_ : Z) (parameters : value)
| RunTask (type input output : string) (begin end_ : Z) (parameters : value).

Record world : Type := {
  fs : files;
  log : list event;
  fresh : nat
}.

(** A filter's [apply] or a task's [run]: whether the call returns, on the
    files it finds. *)
Definition collaborator : Type :=
  files -> string -> string -> Z -> Z -> value -> bool.

(** What render.py takes from outside its own text. *)
Record environment : Type := {
  round_fraction : string -> Z;
  re_valid : string -> bool;
  re_fullmatch : string -> string -> bool;
  schema_valid : value -> bool;
  resolve : string -> string;
  composite_name_to_icon : value -> string;
  ANSI_COLORS_ENABLED : bool;
  filters_default_apply : collaborator;
  filters_arbiter_saturation_apply : collaborator;
  tasks_colourtime_EXTENSION : string;
  tasks_colourtime_run : collaborator;
  tasks_event_rate_EXTENSION : string;
  tasks_event_rate_run : collaborator;
  tasks_video_EXTENSION : string;
  tasks_video_run : collaborator;
  mkdtemp : nat -> string -> string;
  uuid4 : nat -> string
}.

Definition M (A : Type) : Type := world -> (exn + A) * world.

Definition ret {A} (a : A) : M A := fun w => (inr a, w).

Definition bind {A B} (m : M A) (f : A -> M B) : M B :=
  fun w =>
    match m w with
    | (inl e, w') => (inl e, w')
    | (inr a, w') => f a w'
    end.

Definition lift {A} (r : exn + A) : M A := fun w => (r, w).

Definition raise {A} (e : exn) : M A := fun w => (inl e, w).

Notation "'do' x '<-' m ';;' k" := (bind m (fun x => k))
  (at level 10, x pattern, m at level 100, k at level 200).

Fixpoint mfold {A S} (f : S -> A -> M S) (l : list A) (s : S) : M S :=
  match l with
  | [] => ret s
  | x :: r => do s' <- f s x ;; mfold f r s'
  end.

Definition emit (e : event) : M unit :=
  fun w => (inr tt, {| fs := fs w; log := log w ++ [e]; fresh := fresh w |}).

Definition set_fs (f : files) : M unit :=
  fun w => (inr tt, {| fs := f; log := log w; fresh := fresh w |}).

Definition get_fs : M files := fun w => (inr (fs w), w).

Definition next_fresh : M nat :=
  fun w => (inr (fresh w), {| fs := fs w; log := log w; fresh := S (fresh w) |}).



(** [info(icon, message)] *)
Definition info (icon message : string) : M unit := emit (Info icon message).

(** [path.is_file()] *)
Definition is_file (path : string) : M bool :=
  do f <- get_fs ;;
  ret (match file_lookup path f with Some _ => true | None => false end).

(** [source.rename(target)] *)
Definition rename (source target : string) : M unit :=
  do f <- get_fs ;;
  match file_lookup source f with
  | None => raise (FileNotFoundError source)
  | Some c =>
      do _ <- emit (Rename source target) ;;
      set_fs (file_write target c (file_remove source f))
  end.

(** [shutil.copy2(source, target)] *)
Definition copy2 (source target : string) : M unit :=
  do f <- get_fs ;;
  match file_lookup source f with
  | None => raise (FileNotFoundError source)
  | Some c =>
      do _ <- emit (Copy source target) ;;
      set_fs (file_write target c f)
  end.

Module Path.

(** [a / b] *)
Definition div (a b : string) : string := a ++ "/" ++ b.

Fixpoint split_name (reversed : string) : string * string :=
  match reversed with
  | EmptyString => (EmptyString, EmptyString)
  | String c r =>
      if Ascii.eqb c "/" then (EmptyString, reversed)
      else let (n, p) := split_name r in (String c n, p)
  end.

Fixpoint find_dot (reversed_name : string) : option nat :=
  match reversed_name with
  | EmptyString => None
  | String c r =>
      if Ascii.eqb c "." then Some O
      else match find_dot r with Some j => Some (S j) | None => None end
  end.

(** The method [path.with_suffix(suffix)]: the suffix of the last component,
    if it has one, gives way to [suffix]. *)
Definition with_suffix (path suffix : string) : string :=
  let reversed := PyStr.rev path in
  let (reversed_name, _) := split_name reversed in
  match find_dot reversed_name with
  | Some j =>
      if ((0 <? j) && (S j <? String.length reversed_name))%nat
      then PyStr.rev (PyStr.drop (S j) reversed) ++ suffix
      else path ++ suffix
  | None => path ++ suffix
  end.

End Path.

(** render.py, with_suffix: [path.parent / f"{path.name}{suffix}"] *)
Definition with_suffix (path suffix : string) : string := path ++ suffix.

(** render.py, load_parameters *)
Definition load_parameters (path : string) : M (option value) :=
  do f <- get_fs ;;
  match file_lookup path f with
  | Some (Document v) => ret (Some v)
  | Some Data => raise TomlDecodeError
  | None => ret None
  end.

(** render.py, save_parameters *)
Definition save_parameters (path : string) (parameters : value) : M unit :=
  do f <- get_fs ;;
  do _ <- emit (Dump (Path.with_suffix path ".part") parameters) ;;
  do _ <- set_fs (file_write (Path.with_suffix path ".part") (Document parameters) f) ;;
  rename (Path.with_suffix path ".part") path.

(** A path component has to be a string. *)
Definition as_path (v : value) : exn + string :=
  match v with
  | VStr s => inr s
  | _ => inl TypeError
  end.

(** The lookup in the tables [FILTERS] and [TASKS]. *)
Definition table_get {A} (table : list (string * A)) (k : value) : exn + A :=
  match k with
  | VStr key =>
      match find (fun e => String.eqb key (fst e)) table with
      | Some e => inr (snd e)
      | None => inl (KeyError key)
      end
  | VList _ | VDict _ => inl TypeError
  | _ => inl (KeyError (Py.repr k))
  end.

(** ** The run command *)

(** [str(exception)] *)
Definition exn_str (e : exn) : string :=
  match e with
  | KeyError key => Py.repr_str key
  | AttributeError message => message
  | ValueError message => message
  | ArgumentTypeError message => message
  | ReError pattern => pattern
  | FileNotFoundError path => path
  | FilterError name => name
  | TaskError name => name
  | SystemExit message => message
  | _ => EmptyString
  end.

Section Run.

Variable E : environment.

(** render.py, FILTERS *)
Definition FILTERS : list (string * collaborator) :=
  [("default", filters_default_apply E);
   ("arbiter_saturation", filters_arbiter_saturation_apply E)].

(** render.py, TASKS *)
Definition TASKS : list (string * (string * collaborator)) :=
  [("colourtime", (tasks_colourtime_EXTENSION E, tasks_colourtime_run E));
   ("event_rate", (tasks_event_rate_EXTENSION E, tasks_event_rate_run E));
   ("video", (tasks_video_EXTENSION E, tasks_video_run E))].

Definition ESC : string := String "027"%char EmptyString.

(** render.py, format_bold *)
Definition format_bold (message : string) : string :=
  if ANSI_COLORS_ENABLED E
  then ESC ++ "[1m" ++ message ++ ESC ++ "[0m"
  else message.

(** render.py, timecode *)
Definition timecode (v : value) : exn + Z :=
  match v with
  | VStr s => timecode_str (round_fraction E) s
  | _ => no_attribute v "isdigit"
  end.

(** [jsonschema.validate(configuration, render_configuration_schema())] *)
Definition validate_schema (configuration : value) : exn + unit :=
  if schema_valid E configuration then inr tt else inl ValidationError.

(** The inner loop of the validation of one task pattern: the task names
    the pattern matches in full, and whether there was one. *)
Fixpoint match_task_names (task : string) (task_names : list string)
    (expanded_tasks : list value) (found : bool) : list value * bool :=
  match task_names with
  | [] => (expanded_tasks, found)
  | task_name :: rest =>
      if re_fullmatch E task task_name
      then match_task_names task rest (expanded_tasks ++ [VStr task_name]) true
      else match_task_names task rest expanded_tasks found
  end.

(** The body of the loop over [job["tasks"]] in the validation. *)
Definition validate_task (configuration job : value)
    (expanded_tasks : list value) (task : value) : exn + list value :=
  match task with
  | VStr pattern =>
      if re_valid E pattern then
        let? tasks := get configuration "tasks" in
        let? tasks :=
          match tasks with
          | VDict d => inr d
          | _ => no_attribute tasks "keys"
          end in
        let (expanded_tasks, found) :=
          match_task_names pattern (keys tasks) expanded_tasks false in
        let? tasks := get configuration "tasks" in
        let? present := Py.contains (VBool found) tasks in
        if negb present then
          let? name := get job "name" in
          error (q ++ Py.str task ++ q ++ " in " ++ q ++ Py.str name ++ q
                   ++ " did not match any task names")
        else inr expanded_tasks
      else inl (ReError pattern)
  | _ => inl TypeError
  end.

(** [try: timecode(job[field]) except Exception as exception: error(...)] *)
Definition validate_timecode (job : value) (field : string) : exn + unit :=
  match (let? v := get job field in timecode v) with
  | inr _ => inr tt
  | inl exception =>
      let? v := get job field in
      let? name := get job "name" in
      error ("parsing " ++ q ++ field ++ q ++ " (" ++ Py.str v ++ ") in "
               ++ q ++ Py.str name ++ q ++ " failed (" ++ exn_str exception ++ ")")
  end.

(** The body of the first loop over [configuration["jobs"]]. *)
Definition validate_job (configuration job : value) : exn + unit :=
  let? name := get job "name" in
  let? sources := get configuration "sources" in
  let? listed := Py.contains name sources in
  let? _ :=
    (if negb listed
     then error (q ++ Py.str name ++ q ++ " is not listed in sources")
     else inr tt) in
  let? job_filters := get job "filters" in
  let? job_filters := Py.iter job_filters in
  let? _ :=
    efold (fun _ filter =>
             let? filters := get configuration "filters" in
             let? known := Py.contains filter filters in
             if negb known then
               let? name := get job "name" in
               error ("unknown filter " ++ q ++ Py.str filter ++ q ++ " in "
                        ++ q ++ Py.str name ++ q)
             else inr tt)
      job_filters tt in
  let? has_tasks := Py.contains (VStr "tasks") job in
  let? _ :=
    (if has_tasks then
       let? tasks := get job "tasks" in
       let? tasks := Py.iter tasks in
       efold (validate_task configuration job) tasks []
     else inr []) in
  let? _ := validate_timecode job "begin" in
  validate_timecode job "end".

(** [len(targets) != len(set(targets))] *)
Fixpoint distinct (targets : list value) : exn + bool :=
  match targets with
  | [] => inr true
  | t :: r =>
      match t with
      | VList _ | VDict _ => inl TypeError
      | _ => let? d := distinct r in inr (negb (existsb (Py.eq t) r) && d)
      end
  end.

(** The body of the loop over [configuration["attachments"].items()]. *)
Definition validate_attachment (name_and_attachment : string * value)
  : exn + unit :=
  let (name, attachment) := name_and_attachment in
  let? files := Py.iter attachment in
  let? targets := emap (fun file => get file "target") files in
  let? ok := distinct targets in
  if negb ok then
    error ("two or more attachments share the same target in " ++ q ++ name ++ q)
  else inr tt.

Definition without (excluded : list string) (d : items) : items :=
  filter (fun kv => negb (existsb (String.eqb (fst kv)) excluded)) d.

(** The comprehension that rebuilds [configuration["filters"]]. *)
Definition split_filter (name_and_filter : string * value)
  : exn + (string * value) :=
  let (name, filter) := name_and_filter in
  let? type := get filter "type" in
  let? icon := get filter "icon" in
  let? suffix := get filter "suffix" in
  let? d := Py.dict_items filter in
  inr (name, VDict [("type", type); ("icon", icon); ("suffix", suffix);
                    ("parameters", VDict (without ["type"; "icon"; "suffix"] d))]).

(** The comprehension that rebuilds [configuration["tasks"]]. *)
Definition split_task (name_and_task : string * value) : exn + (string * value) :=
  let (name, task) := name_and_task in
  let? type := get task "type" in
  let? icon := get task "icon" in
  let? d := Py.dict_items task in
  inr (name, VDict [("type", type); ("icon", icon);
                    ("parameters", VDict (without ["type"; "icon"] d))]).

(** The name of a job's directory, first part: the job name and the short
    timecodes. *)
Definition directory_name (job : value) (begin end_ : Z) : exn + string :=
  let? job_name := get job "name" in
  inr (Py.str job_name ++ "-b" ++ timestamp_to_short_timecode begin
         ++ "-e" ++ timestamp_to_short_timecode end_).

(** The name of a job's directory, second part: the suffixes of the job's
    filters. *)
Definition add_suffixes (configuration job : value) (name : string)
  : exn + string :=
  let? has_filters := Py.contains (VStr "filters") job in
  if has_filters then
    let? job_filters := get job "filters" in
    let? n := Py.len job_filters in
    if n >? 0 then
      let? job_filters := Py.iter job_filters in
      efold (fun name filter_name =>
               let? filters := get configuration "filters" in
               let? filter := Py.getitem filters filter_name in
               let? suffix := get filter "suffix" in
               let? n := Py.len suffix in
               if n >? 0 then inr (name ++ "-" ++ Py.str suffix) else inr name)
        job_filters name
    else inr name
  else inr name.

(** [parameters[field][key] = x] *)
Definition record (parameters : value) (field : string) (key x : value)
  : exn + value :=
  let? recorded := get parameters field in
  match key with
  | VStr k =>
      let? recorded := setitem recorded k x in
      setitem parameters field recorded
  | _ => inl TypeError
  end.

(** The body of the loop over [configuration["attachments"]]. *)
Definition attachment_step (force : bool) (directory name : string)
    (parameters attachment : value) : M value :=
  do skip <-
    (if negb force then
       do target <- lift (get attachment "target") ;;
       do recorded <- lift (get parameters "attachments") ;;
       do present <- lift (Py.contains target recorded) ;;
       if present then
         do target <- lift (let? t := get attachment "target" in as_path t) ;;
         is_file (Path.div (Path.div directory name) target)
       else ret false
     else ret false) ;;
  do _ <-
    (if skip then
       do source <- lift (get attachment "source") ;;
       do target <- lift (get attachment "target") ;;
       info "⏭ " ("skip copy " ++ Py.str source ++ " to " ++ Py.str target)
     else
       do source <- lift (get attachment "source") ;;
       do target <- lift (get attachment "target") ;;
       do _ <- info "🗃" ("copy " ++ Py.str source ++ " to " ++ Py.str target) ;;
       do source <- lift (as_path source) ;;
       do target <- lift (as_path target) ;;
       do _ <- copy2 source
                 (with_suffix (Path.div (Path.div directory name) target) ".part") ;;
       rename (with_suffix (Path.div (Path.div directory name) target) ".part")
         (Path.div (Path.div directory name) target)) ;;
  do source <- lift (get attachment "source") ;;
  do target <- lift (get attachment "target") ;;
  lift (record parameters "attachments" target source).

(** The loop over [configuration["attachments"]] of one job. *)
Definition attachments_stage (force : bool) (directory name : string)
    (configuration parameters : value) : M value :=
  do attachments <- lift (get configuration "attachments") ;;
  do attachments <- lift (Py.iter attachments) ;;
  mfold (attachment_step force directory name) attachments parameters.

(** A call of a filter: the output is there when it returns. *)
Definition apply_filter (type : value) (apply : collaborator)
    (input output : string) (begin end_ : Z) (parameters : value) : M unit :=
  do _ <- emit (ApplyFilter (Py.str type) input output begin end_ parameters) ;;
  do f <- get_fs ;;
  if apply f input output begin end_ parameters
  then set_fs (file_write output Data f)
  else raise (FilterError (Py.str type)).

(** A call of a task. *)
Definition run_task (type : value) (run : collaborator)
    (input output : string) (begin end_ : Z) (parameters : value) : M unit :=
  do _ <- emit (RunTask (Py.str type) input output begin end_ parameters) ;;
  do f <- get_fs ;;
  if run f input output begin end_ parameters
  then set_fs (file_write output Data f)
  else raise (TaskError (Py.str type)).

(** [name in parameters[field] and
     compare_parameters(parameters[field][name], configured)] *)
Definition snapshot_matches (parameters : value) (field : string)
    (name configured : value) : exn + bool :=
  let? recorded := get parameters field in
  let? present := Py.contains name recorded in
  if present then
    let? recorded := get parameters field in
    let? snapshot := Py.getitem recorded name in
    inr (compare_parameters snapshot configured)
  else inr false.

(** The branch [len(job["filters"]) == 1]. *)
Definition single_filter (force : bool) (configuration job parameters : value)
    (output_path parameters_path : string) (begin end_ : Z) : M value :=
  do job_filters <- lift (get job "filters") ;;
  do filter_name <- lift (Py.getitem job_filters (VInt 0)) ;;
  do filters <- lift (get configuration "filters") ;;
  do filter <- lift (Py.getitem filters filter_name) ;;
  do skip <-
    (if negb force then
       do same <-
         lift (let? recorded := get parameters "filters" in
               let? present := Py.contains filter_name recorded in
               if present then
                 let? recorded := get parameters "filters" in
                 let? snapshot := Py.getitem recorded filter_name in
                 let? configured := get filter "parameters" in
                 inr (compare_parameters snapshot configured)
               else inr false) ;;
       if same then is_file output_path else ret false
     else ret false) ;;
  if skip then
    do _ <- info "⏭ " ("skip filter " ++ Py.str filter_name) ;;
    ret parameters
  else
    do icon <- lift (get filter "icon") ;;
    do _ <- info (Py.str icon) ("apply filter " ++ Py.str filter_name) ;;
    do type <- lift (get filter "type") ;;
    do apply <- lift (table_get FILTERS type) ;;
    do source <-
      lift (let? sources := get configuration "sources" in
            let? name := get job "name" in
            let? source := Py.getitem sources name in
            as_path source) ;;
    do configured <- lift (get filter "parameters") ;;
    do _ <- apply_filter type apply source (with_suffix output_path ".part")
              begin end_ configured ;;
    do _ <- rename (with_suffix output_path ".part") output_path ;;
    do configured <- lift (get filter "parameters") ;;
    do parameters <- lift (record parameters "filters" filter_name configured) ;;
    do _ <- save_parameters parameters_path parameters ;;
    ret parameters.

(** The generator inside [all(...)] of the chain: every filter of the job
    has a snapshot equal to its configured parameters. *)
Fixpoint all_snapshots_match (configuration parameters : value)
    (job_filters : list value) : exn + bool :=
  match job_filters with
  | [] => inr true
  | filter_name :: rest =>
      let? recorded := get parameters "filters" in
      let? present := Py.contains filter_name recorded in
      let? same :=
        (if present then
           let? recorded := get parameters "filters" in
           let? snapshot := Py.getitem recorded filter_name in
           let? filters := get configuration "filters" in
           let? filter := Py.getitem filters filter_name in
           let? configured := get filter "parameters" in
           inr (compare_parameters snapshot configured)
         else inr false) in
      if same then all_snapshots_match configuration parameters rest
      else inr false
  end.

(** The loop over [enumerate(job["filters"])] inside the temporary
    directory: the state is [input], [parameters] and the loop's [index]. *)
Fixpoint chain_loop (configuration : value) (temporary_directory : string)
    (output_path : string) (begin end_ : Z) (count : Z)
    (job_filters : list value) (index : Z) (input : string)
    (parameters : value) (last_index : Z) : M (value * Z) :=
  match job_filters with
  | [] => ret (parameters, last_index)
  | filter_name :: rest =>
      do output <-
        (if index =? count - 1 then ret (with_suffix output_path ".part")
         else
           do n <- next_fresh ;;
           ret (Path.div temporary_directory (uuid4 E n ++ ".es"))) ;;
      do filters <- lift (get configuration "filters") ;;
      do filter <- lift (Py.getitem filters filter_name) ;;
      do icon <- lift (get filter "icon") ;;
      do _ <- info (Py.str icon) ("apply filter " ++ Py.str filter_name) ;;
      do type <- lift (get filter "type") ;;
      do apply <- lift (table_get FILTERS type) ;;
      do configured <- lift (get filter "parameters") ;;
      do _ <- apply_filter type apply input output begin end_ configured ;;
      do configured <- lift (get filter "parameters") ;;
      do parameters <- lift (record parameters "filters" filter_name configured) ;;
      chain_loop configuration temporary_directory output_path begin end_ count
        rest (index + 1) output parameters index
  end.

(** [with tempfile.TemporaryDirectory(suffix=...) as name: body]: the
    directory and what it holds are gone when the block is left, also by
    an exception. *)
Definition with_temporary_directory {A} (suffix : value)
    (body : string -> M A) : M A :=
  do suffix <- lift (as_path suffix) ;;
  do n <- next_fresh ;;
  let temporary_directory := mkdtemp E n suffix in
  fun w =>
    let (r, w') := body temporary_directory w in
    (r, {| fs := filter (fun pc => negb (prefix (temporary_directory ++ "/") (fst pc)))
                   (fs w');
           log := log w'; fresh := fresh w' |}).

(** The branch of the chains: [len(job["filters"]) != 1]. *)
Definition filter_chain (force : bool) (configuration job parameters : value)
    (output_path parameters_path : string) (begin end_ : Z) (index : Z)
  : M (value * Z) :=
  do skip <-
    (if negb force then
       do job_filters <- lift (let? l := get job "filters" in Py.iter l) ;;
       do same <- lift (all_snapshots_match configuration parameters job_filters) ;;
       if same then is_file output_path else ret false
     else ret false) ;;
  if skip then
    do job_filters <- lift (let? l := get job "filters" in Py.iter l) ;;
    do names <- lift (emap as_path job_filters) ;;
    do _ <- info "⏭ " ("skip filters " ++ PyStr.join " + " names) ;;
    ret (parameters, index)
  else
    do job_name <- lift (get job "name") ;;
    do r <-
      with_temporary_directory job_name
        (fun temporary_directory =>
           do input <-
             lift (let? sources := get configuration "sources" in
                   let? name := get job "name" in
                   let? source := Py.getitem sources name in
                   as_path source) ;;
           do job_filters <- lift (let? l := get job "filters" in Py.iter l) ;;
           do count <- lift (let? l := get job "filters" in Py.len l) ;;
           chain_loop configuration temporary_directory output_path begin end_
             count job_filters 0 input parameters index) ;;
    do _ <- rename (with_suffix output_path ".part") output_path ;;
    do _ <- save_parameters parameters_path (fst r) ;;
    ret r.

(** The filters of one job: the single filter or the chain. *)
Definition filter_stage (force : bool) (configuration job parameters : value)
    (output_path parameters_path : string) (begin end_ : Z) (index : Z)
  : M (value * Z) :=
  do count <- lift (let? l := get job "filters" in Py.len l) ;;
  if count =? 1 then
    do parameters <-
      single_filter force configuration job parameters output_path
        parameters_path begin end_ ;;
    ret (parameters, index)
  else
    filter_chain force configuration job parameters output_path
      parameters_path begin end_ index.

(** The body of the loop over [job["tasks"]] of the execution. *)
Definition task_step (force : bool) (configuration : value)
    (directory name output_path parameters_path : string) (begin end_ : Z)
    (parameters task_name : value) : M value :=
  do tasks <- lift (get configuration "tasks") ;;
  do task <- lift (Py.getitem tasks task_name) ;;
  do type <- lift (get task "type") ;;
  do extension_and_run <- lift (table_get TASKS type) ;;
  let task_output_path :=
    Path.div (Path.div directory name)
      (name ++ "-" ++ Py.str task_name ++ fst extension_and_run) in
  do skip <-
    (if negb force then
       do same <-
         lift (let? recorded := get parameters "tasks" in
               let? present := Py.contains task_name recorded in
               if present then
                 let? recorded := get parameters "tasks" in
                 let? snapshot := Py.getitem recorded task_name in
                 let? configured := get task "parameters" in
                 inr (compare_parameters snapshot configured)
               else inr false) ;;
       if same then is_file output_path else ret false
     else ret false) ;;
  if skip then
    do _ <- info "⏭ " ("skip task " ++ Py.str task_name) ;;
    ret parameters
  else
    do icon <- lift (get task "icon") ;;
    do _ <- info (Py.str icon) ("run task " ++ Py.str task_name) ;;
    do type <- lift (get task "type") ;;
    do extension_and_run <- lift (table_get TASKS type) ;;
    do configured <- lift (get task "parameters") ;;
    do _ <- run_task type (snd extension_and_run) output_path
              (with_suffix task_output_path ".part") begin end_ configured ;;
    do _ <- rename (with_suffix task_output_path ".part") task_output_path ;;
    do configured <- lift (get task "parameters") ;;
    do parameters <- lift (record parameters "tasks" task_name configured) ;;
    do _ <- save_parameters parameters_path parameters ;;
    ret parameters.

(** The loop over [job["tasks"]] of the execution. *)
Definition tasks_stage (force : bool) (configuration job : value)
    (directory name output_path parameters_path : string) (begin end_ : Z)
    (parameters : value) : M value :=
  do tasks <- lift (let? l := get job "tasks" in Py.iter l) ;;
  mfold (task_step force configuration directory name output_path
           parameters_path begin end_)
    tasks parameters.

(** [if not field in parameters: parameters[field] = {}] *)
Definition default_field (field : string) (parameters : value) : exn + value :=
  let? present := Py.contains (VStr field) parameters in
  if negb present then setitem parameters field (VDict []) else inr parameters.

(** The state of a job as the run starts on it. *)
Definition initial_parameters (parameters_path : string) (source : value)
  : M value :=
  do loaded <- load_parameters parameters_path ;;
  let parameters := match loaded with Some p => p | None => VDict [] end in
  do fresh_start <-
    lift (let? present := Py.contains (VStr "source") parameters in
          if negb present then inr true
          else let? recorded := get parameters "source" in
               inr (negb (Py.eq recorded source))) ;;
  do parameters <-
    (if fresh_start then
       let parameters := VDict [("source", source)] in
       do _ <- save_parameters parameters_path parameters ;;
       ret parameters
     else ret parameters) ;;
  do parameters <- lift (default_field "filters" parameters) ;;
  do parameters <- lift (default_field "tasks" parameters) ;;
  lift (default_field "attachments" parameters).

(** The body of the second loop over [configuration["jobs"]]. *)
Definition run_job (force : bool) (directory : string) (configuration : value)
    (index : Z) (job : value) : M unit :=
  do begin <- lift (let? v := get job "begin" in timecode v) ;;
  do end_ <- lift (let? v := get job "end" in timecode v) ;;
  do name <- lift (directory_name job begin end_) ;;
  do source <-
    lift (let? sources := get configuration "sources" in
          let? job_name := get job "name" in
          Py.getitem sources job_name) ;;
  do name <- lift (add_suffixes configuration job name) ;;
  do _ <- emit (Mkdir (Path.div directory name)) ;;
  do job_name <- lift (get job "name") ;;
  do jobs <- lift (get configuration "jobs") ;;
  do count <- lift (Py.len jobs) ;;
  do _ <- info (composite_name_to_icon E job_name)
            (PyStr.str_of_int (index + 1) ++ "/" ++ PyStr.str_of_int count
               ++ " " ++ format_bold name) ;;
  let output_path := Path.div (Path.div directory name) (name ++ ".es") in
  let parameters_path := Path.div (Path.div directory name) "parameters.toml" in
  do parameters <- initial_parameters parameters_path source ;;
  do parameters <- attachments_stage force directory name configuration parameters ;;
  do r <- filter_stage force configuration job parameters output_path
            parameters_path begin end_ index ;;
  let (parameters, index) := (r : value * Z) in
  do _ <- tasks_stage force configuration job directory name output_path
            parameters_path begin end_ parameters ;;
  do jobs <- lift (get configuration "jobs") ;;
  do count <- lift (Py.len jobs) ;;
  if index <? count - 1 then emit (Stdout (String "010"%char EmptyString))
  else ret tt.

Fixpoint run_jobs (force : bool) (directory : string) (configuration : value)
    (index : Z) (jobs : list value) : M unit :=
  match jobs with
  | [] => ret tt
  | job :: rest =>
      do _ <- run_job force directory configuration index job ;;
      run_jobs force directory configuration (index + 1) rest
  end.

(** The checks of the run command between the expansion of the generators
    and the first job: the configuration with its filters and tasks
    split. *)
Definition check_configuration (configuration : value) : exn + value :=
  let? jobs := get configuration "jobs" in
  let? jobs := Py.iter jobs in
  let? _ := efold (fun _ job => validate_job configuration job) jobs tt in
  let? attachments := get configuration "attachments" in
  let? attachments := Py.dict_items attachments in
  let? _ := efold (fun _ na => validate_attachment na) attachments tt in
  let? filters := get configuration "filters" in
  let? filters := Py.dict_items filters in
  let? filters := emap split_filter filters in
  let? configuration := setitem configuration "filters" (VDict filters) in
  let? tasks := get configuration "tasks" in
  let? tasks := Py.dict_items tasks in
  let? tasks := emap split_task tasks in
  setitem configuration "tasks" (VDict tasks).

(** render.py, the command [run] on a loaded configuration. *)
Definition run (force : bool) (configuration : value) : M unit :=
  do _ <- lift (validate_schema configuration) ;;
  do configuration <- lift (run_generators configuration) ;;
  do _ <- lift (validate_schema configuration) ;;
  do configuration <- lift (check_configuration configuration) ;;
  do directory <- lift (let? d := get configuration "directory" in as_path d) ;;
  let directory := resolve E directory in
  do _ <- info "📁" ("output directory " ++ q ++ directory ++ q
                      ++ String "010"%char EmptyString) ;;
  do _ <- emit (Mkdir directory) ;;
  do jobs <- lift (let? l := get configuration "jobs" in Py.iter l) ;;
  run_jobs force directory configuration 0 jobs.

(** render.py, the command [resolve]: the document it writes. *)
Definition resolve_command (configuration : value) : exn + value :=
  let? _ := validate_schema configuration in
  let? configuration := run_generators configuration in
  let? _ := validate_schema configuration in
  inr configuration.

End Run.

(** ** A sample environment *)

(** A regular-expression engine for the patterns the sample configuration
    uses: literal characters, [.], and the postfix operators [*], [+] and
    [?].  Other patterns are outside it. *)
Module Re.

Inductive atom : Type :=
| Lit (c : ascii)
| AnyChar.

Inductive quantifier : Type :=
| One
| Star
| Plus
| Opt.

Definition pattern : Type := list (atom * quantifier).

Definition quantifier_of (c : ascii) : option quantifier :=
  if Ascii.eqb c "*" then Some Star
  else if Ascii.eqb c "+" then Some Plus
  else if Ascii.eqb c "?" then Some Opt
  else None.

Definition special (c : ascii) : bool :=
  existsb (Ascii.eqb c)
    ["\"; "["; "]"; "("; ")"; "{"; "}"; "|"; "^"; "$"]%char.

Fixpoint parse (s : string) (pending : option atom) : option pattern :=
  match s with
  | EmptyString =>
      match pending with
      | Some a => Some [(a, One)]
      | None => Some []
      end
  | String c r =>
      match quantifier_of c with
      | Some k =>
          match pending with
          | Some a => option_map (cons (a, k)) (parse r None)
          | None => None
          end
      | None =>
          if special c then None
          else
            let a := if Ascii.eqb c "." then AnyChar else Lit c in
            match pending with
            | Some b => option_map (cons (b, One)) (parse r (Some a))
            | None => parse r (Some a)
            end
      end
  end.

Definition accepts (a : atom) (c : ascii) : bool :=
  match a with
  | Lit x => Ascii.eqb x c
  | AnyChar => negb (Ascii.eqb c "010")
  end.

Fixpoint star (a : atom) (k : string -> bool) (s : string) : bool :=
  k s ||
  match s with
  | String c r => accepts a c && star a k r
  | EmptyString => false
  end.

Fixpoint matches (p : pattern) (s : string) : bool :=
  match p with
  | [] => match s with EmptyString => true | _ => false end
  | (a, One) :: p' =>
      match s with
      | String c r => accepts a c && matches p' r
      | EmptyString => false
      end
  | (a, Star) :: p' => star a (matches p') s
  | (a, Plus) :: p' =>
      match s with
      | String c r => accepts a c && star a (matches p') r
      | EmptyString => false
      end
  | (a, Opt) :: p' =>
      matches p' s ||
      match s with
      | String c r => accepts a c && matches p' r
      | EmptyString => false
      end
  end.

Definition valid (s : string) : bool :=
  match parse s None with Some _ => true | None => false end.

Definition fullmatch (p s : string) : bool :=
  match parse p None with
  | Some p => matches p s
  | None => false
  end.

End Re.

Definition always : collaborator := fun _ _ _ _ _ _ => true.

(** Collaborators that return, a schema that accepts, and names for the
    temporary files taken from a counter. *)
Definition sample_environment : environment := {|
  round_fraction := fun _ => 0;
  re_valid := Re.valid;
  re_fullmatch := Re.fullmatch;
  schema_valid := fun _ => true;
  resolve := fun d => "/work/" ++ d;
  composite_name_to_icon := fun _ => "*";
  ANSI_COLORS_ENABLED := false;
  filters_default_apply := always;
  filters_arbiter_saturation_apply := always;
  tasks_colourtime_EXTENSION := ".png";
  tasks_colourtime_run := always;
  tasks_event_rate_EXTENSION := ".png";
  tasks_event_rate_run := always;
  tasks_video_EXTENSION := ".mp4";
  tasks_video_run := always;
  mkdtemp := fun n suffix => "/tmp/tmp" ++ PyStr.decimal (Z.of_nat n) ++ suffix;
  uuid4 := fun n => "uuid" ++ PyStr.decimal (Z.of_nat n)
|}.

Definition empty_world : world := {| fs := []; log := []; fresh := O |}.

Definition world_with (f : files) : world := {| fs := f; log := []; fresh := O |}.

(** The value found by following the keys of [path] through nested
    mappings. *)
Fixpoint lookup_path (path : list string) (v : value) : option value :=
  match path with
  | [] => Some v
  | key :: rest =>
      match v with
      | VDict d =>
          match lookup key d with
          | Some x => lookup_path rest x
          | None => None
          end
      | _ => None
      end
  end.

(** The generator of the specification's example, for a collection. *)
Definition threshold_generator : value :=
  VDict [("parameters", VDict [("threshold", VList [VInt 1; VInt 5; VInt 10])]);
         ("template", VDict [("name", VStr "as-@threshold");
                             ("suffix", VStr "as@threshold")])].

(** A generator with the parameters [threshold] and [threshold10], in the
    order given, and a template with one field to substitute. *)
Definition prefix_generator (parameters : items) (field : value) : value :=
  VDict [("parameters", VDict parameters);
         ("template", VDict [("name", VStr "entry"); ("field", field)])].

(** The two substitutions of the example on a string free of the first
    placeholder's occurrence: [@threshold10] by 99, then [@threshold] by 1. *)
Definition both (s : string) : string :=
  PyStr.replace "@threshold" "1" (PyStr.replace "@threshold10" "99" s).

(** The jobs generator that the [configure] command writes as a comment. *)
Definition sample_jobs_generator : value :=
  VDict [("parameters", VDict [("threshold", VList [VInt 1; VInt 5])]);
         ("template",
          VDict [("name", VStr "job-name");
                 ("begin", VStr "job-begin");
                 ("end", VStr "job-end");
                 ("filters", VList [VStr "arbiter-saturation-@threshold"]);
                 ("tasks", VList [VStr "colourtime-.+"; VStr "event-rate-.+";
                                  VStr "video-real-time"])])].

(** ** A sample configuration *)

Definition sample_filter (type suffix : string) (parameters : items) : value :=
  VDict ([("type", VStr type); ("icon", VStr "F"); ("suffix", VStr suffix)]
           ++ parameters).

Definition sample_task (type : string) (parameters : items) : value :=
  VDict ([("type", VStr type); ("icon", VStr "T")] ++ parameters).

Definition sample_job (name : string) (filters tasks : list string) : value :=
  VDict [("name", VStr name);
         ("begin", VStr "00:00:00.000000");
         ("end", VStr "00:00:01.000000");
         ("filters", VList (map VStr filters));
         ("tasks", VList (map VStr tasks))].

Definition sample_filters : items :=
  [("default", sample_filter "default" EmptyString []);
   ("as-1", sample_filter "arbiter_saturation" "as1" [("threshold", VInt 1)])].

Definition sample_tasks : items :=
  [("video-real-time",
    sample_task "video" [("frametime", VStr "00:00:00.020000")]);
   ("colourtime-viridis",
    sample_task "colourtime" [("colormap", VStr "viridis")])].

(** One recording, [rec], two filters and two tasks; the jobs and the
    attachments are the arguments. *)
Definition sample_configuration (jobs : list value) (attachments : value) : value :=
  VDict [("directory", VStr "renders");
         ("filters", VDict sample_filters);
         ("tasks", VDict sample_tasks);
         ("jobs", VList jobs);
         ("sources", VDict [("rec", VStr "/data/rec.es")]);
         ("attachments", attachments)].

Definition sample_attachment : value :=
  VDict [("source", VStr "/data/rec.txt"); ("target", VStr "rec.txt")].

(** The state of a job whose source is recorded and nothing else. *)
Definition sample_state : value :=
  VDict [("source", VStr "/data/rec.es");
         ("filters", VDict []);
         ("tasks", VDict []);
         ("attachments", VDict [])].

(** ** Deep equality up to the order of the keys *)

(** After the specification: two values are the same up to the order of the
    keys when they are the same scalar, sequences with the same items in the
    same order, or mappings with the same keys, in any order, and the same
    values under them. *)
Unset Elimination Schemes.
Inductive same_up_to_key_order : value -> value -> Prop :=
| same_none : same_up_to_key_order VNone VNone
| same_bool b : same_up_to_key_order (VBool b) (VBool b)
| same_int n : same_up_to_key_order (VInt n) (VInt n)
| same_str s : same_up_to_key_order (VStr s) (VStr s)
| same_list l l' :
    Forall2 same_up_to_key_order l l' ->
    same_up_to_key_order (VList l) (VList l')
| same_dict (d d' p : items) :
    Permutation p d' ->
    Forall2 (fun x y => fst x = fst y /\ same_up_to_key_order (snd x) (snd y)) d p ->
    same_up_to_key_order (VDict d) (VDict d').
Set Elimination Schemes.

Fixpoint nodupb (l : list string) : bool :=
  match l with
  | [] => true
  | x :: r => negb (existsb (String.eqb x) r) && nodupb r
  end.

(** What every [dict] has: no key twice, here and in the values below. *)
Fixpoint unique_keys (v : value) : bool :=
  match v with
  | VList l => forallb unique_keys l
  | VDict d =>
      nodupb (keys d)
      && forallb (fun kv : string * value => let (_, x) := kv in unique_keys x) d
  | _ => true
  end.

Module JsonRead.

Definition all_chars : list ascii := map ascii_of_nat (seq 0 256).

Fixpoint starts_with (p s : string) : bool :=
  match p with
  | EmptyString => true
  | String a p' =>
      match s with
      | String b s' => Ascii.eqb a b && starts_with p' s'
      | EmptyString => false
      end
  end.

(** The character whose escaped form starts [s], and the rest of [s]. *)
Definition unescape_char (s : string) : option (ascii * string) :=
  match find (fun c => starts_with (Json.escape_char c) s) all_chars with
  | Some c => Some (c, PyStr.drop (String.length (Json.escape_char c)) s)
  | None => None
  end.

(** The order in which the items of a mapping are written. *)
Definition item_le {B} (a b : string * B) : bool := String.leb (fst a) (fst b).

(** What is written for one item of a mapping. *)
Definition item_str (kv : string * value) : string :=
  Json.dumps_str (fst kv) ++ ":" ++ Json.dumps (snd kv).

(** What may follow a value in a serialization: nothing, or a character
    that is not a digit. *)
Definition delimited (r : string) : Prop :=
  match r with
  | EmptyString => True
  | String c _ => PyStr.is_ascii_digit c = false
  end.

(** The first character of a serialization tells the kind of the value. *)
Definition kind (v : value) : nat :=
  match v with
  | VNone => 0
  | VBool true => 1
  | VBool false => 2
  | VInt _ => 3
  | VStr _ => 4
  | VList _ => 5
  | VDict _ => 6
  end%nat.

Definition first_of (v : value) (c : ascii) : bool :=
  match v with
  | VNone => Ascii.eqb c "n"
  | VBool true => Ascii.eqb c "t"
  | VBool false => Ascii.eqb c "f"
  | VInt _ => Ascii.eqb c "-" || PyStr.is_ascii_digit c
  | VStr _ => Ascii.eqb c Py.dquote
  | VList _ => Ascii.eqb c "["
  | VDict _ => Ascii.eqb c "{"
  end.

(** The items of a sequence or of a mapping after the first: each one
    behind a comma. *)
Fixpoint tails (l : list string) : string :=
  match l with
  | [] => EmptyString
  | x :: r => "," ++ x ++ tails r
  end.

(** An item printed by [pr] is read back in one way, up to [R]. *)
Definition readable {A} (pr : A -> string) (R : A -> A -> Prop) (x : A) : Prop :=
  forall y t t', delimited t -> delimited t' ->
                 pr x ++ t = pr y ++ t' -> R x y /\ t = t'.

End JsonRead.

(** ** A chain of filters, after the specification *)

(** After the specification: every filter of the chain is invoked, the
    first one on the source, each next one on the output of the one before,
    through a scratch file of its own, and the last one writes the
    temporary name of the final artifact.  [scratch k] is the scratch file
    after the filter at position [k]. *)
Fixpoint chain_events (filters : items) (begin end_ : Z)
    (scratch : nat -> string) (final : string) (names : list string)
    (k : nat) (input : string) : list event :=
  match names with
  | [] => []
  | name :: rest =>
      let output := match rest with [] => final | _ :: _ => scratch k end in
      match lookup_path [name; "icon"] (VDict filters),
            lookup_path [name; "type"] (VDict filters),
            lookup_path [name; "parameters"] (VDict filters) with
      | Some icon, Some type, Some parameters =>
          Info (Py.str icon) ("apply filter " ++ name)
            :: ApplyFilter (Py.str type) input output begin end_ parameters
            :: chain_events filters begin end_ scratch final rest (S k) output
      | _, _, _ => []
      end
  end.

(** The snapshots of the state after a chain: each filter of the chain with
    its configured parameters. *)
Fixpoint chain_snapshots (filters : items) (names : list string)
    (recorded : items) : items :=
  match names with
  | [] => recorded
  | name :: rest =>
      match lookup_path [name; "parameters"] (VDict filters) with
      | Some parameters =>
          chain_snapshots filters rest (set_item name parameters recorded)
      | None => recorded
      end
  end.

(** After the specification: a chain is up to date when the run is not
    forced, every filter of the chain has a stored snapshot that equals its
    configured parameters, and the final artifact is there. *)
Definition chain_up_to_date (force : bool) (filters recorded : items)
    (names : list string) (output_path : string) (f : files) : Prop :=
  force = false
  /\ Forall (fun name =>
               exists snapshot configured,
                 lookup name recorded = Some snapshot
                 /\ lookup_path [name; "parameters"] (VDict filters) = Some configured
                 /\ same_up_to_key_order snapshot configured)
       names
  /\ file_lookup output_path f <> None.

(** A filter as the run command has it after the split: a known type, an
    icon, a suffix and the parameters. *)
Definition filter_configured (filters : items) (name : string) : Prop :=
  exists type icon suffix parameters,
    lookup name filters
    = Some (VDict [("type", VStr type); ("icon", icon); ("suffix", suffix);
                   ("parameters", parameters)])
    /\ (type = "default" \/ type = "arbiter_saturation").

(** ** A sample chain *)

(** The filters of the sample configuration as the run command has them
    after the split. *)
Definition split_filters : items :=
  [("default",
    VDict [("type", VStr "default"); ("icon", VStr "F");
           ("suffix", VStr EmptyString); ("parameters", VDict [])]);
   ("as-1",
    VDict [("type", VStr "arbiter_saturation"); ("icon", VStr "F");
           ("suffix", VStr "as1");
           ("parameters", VDict [("threshold", VInt 1)])])].

(** The tasks of the sample configuration after the split. *)
Definition split_tasks : items :=
  [("video-real-time",
    VDict [("type", VStr "video"); ("icon", VStr "T");
           ("parameters", VDict [("frametime", VStr "00:00:00.020000")])]);
   ("colourtime-viridis",
    VDict [("type", VStr "colourtime"); ("icon", VStr "T");
           ("parameters", VDict [("colormap", VStr "viridis")])])].

Definition chain_job : value := sample_job "rec" ["default"; "as-1"] [].

Definition chain_configuration : value :=
  VDict [("directory", VStr "renders");
         ("filters", VDict split_filters);
         ("tasks", VDict []);
         ("jobs", VList [chain_job]);
         ("sources", VDict [("rec", VStr "/data/rec.es")]);
         ("attachments", VDict [])].

(** A state left by a run in which the second filter had another
    threshold. *)
Definition stale_snapshots : items :=
  [("default", VDict []); ("as-1", VDict [("threshold", VInt 2)])].

Definition stale_state : items :=
  [("source", VStr "/data/rec.es");
   ("filters", VDict stale_snapshots);
   ("tasks", VDict []);
   ("attachments", VDict [])].

Definition chain_output : string := "/work/renders/rec-b0-e1-as1/rec-b0-e1-as1.es".

Definition chain_parameters : string := "/work/renders/rec-b0-e1-as1/parameters.toml".

(** The final artifact and the state of the earlier run are there. *)
Definition stale_world : world :=
  world_with [(chain_output, Data); (chain_parameters, Document (VDict stale_state))].

(** ** Timecodes with a final newline

    [TIMECODE_PATTERN] ends in [$], which also matches just before a
    newline that ends the string. *)

Definition newline_or_nothing (newline : bool) : string :=
  if newline then String "010" EmptyString else EmptyString.

(** ** What the generators leave of a collection

    [grown n old new]: the collection [new] is [old] with [n] entries put
    after it, under names that [old] did not have when it is a mapping. *)

Definition grown (n : nat) (old new : value) : Prop :=
  match old, new with
  | VList a, VList b => exists added, b = (a ++ added)%list /\ List.length added = n
  | VDict a, VDict b =>
      exists added,
        b = (a ++ added)%list /\ List.length added = n
        /\ Forall (fun kv : string * value =>
                     existsb (String.eqb (fst kv)) (keys a) = false) added
  | _, _ => n = O /\ new = old
  end.

(** [extends old new]: [new] holds what [old] holds, the entries of a
    mapping under their names and the items of a sequence at its front. *)
Definition extends (old new : value) : Prop :=
  match old, new with
  | VList a, VList b => exists added, b = (a ++ added)%list
  | VDict a, VDict b =>
      forall name v, lookup name a = Some v -> lookup name b = Some v
  | _, _ => new = old
  end.

(** The keys of the generators. *)
Definition is_generator_key (key : string) : bool :=
  existsb (String.eqb key) (map snd generator_kinds).

(** [generated key n c c']: the configuration [c'] is [c] with the
    collection of [key] grown by [n] entries; the keys and the other
    collections are the same. *)
Definition generated (key : string) (n : nat) (c c' : value) : Prop :=
  exists d d' old new,
    c = VDict d /\ c' = VDict d' /\ keys d' = keys d
    /\ (forall k, String.eqb k key = false -> lookup k d' = lookup k d)
    /\ lookup key d = Some old /\ lookup key d' = Some new
    /\ grown n old new.

(** [kept c c']: the configuration [c'] has the keys of [c], and under
    each key what [c] has there. *)
Definition kept (c c' : value) : Prop :=
  forall d, c = VDict d ->
    exists d', c' = VDict d' /\ keys d' = keys d
      /\ forall key old, lookup key d = Some old ->
           exists new, lookup key d' = Some new /\ extends old new.

(** ** Templates without placeholders *)

(** No string of the template, at any depth of nested mappings, has an
    [@] in it. *)
Fixpoint placeholder_free (v : value) : bool :=
  match v with
  | VStr s => negb (PyStr.has_char "@" s)
  | VDict d =>
      forallb (fun kv : string * value => let (_, x) := kv in placeholder_free x) d
  | _ => true
  end.

(** The message of [run_generators] for a generated name that is taken. *)
Definition already_exists (key template_name name : string) : string :=
  "the " ++ key ++ " generator " ++ q ++ template_name ++ q
    ++ " created an entry whose name (" ++ q ++ name ++ q ++ ") already exists".

(** ** Tasks and single filters, after the split *)

(** A task as the run command has it after the split: a type of the table
    [TASKS], an icon and the parameters. *)
Definition task_configured (tasks : items) (name type : string)
    (icon parameters : value) : Prop :=
  lookup name tasks
  = Some (VDict [("type", VStr type); ("icon", icon); ("parameters", parameters)])
  /\ In type ["colourtime"; "event_rate"; "video"].

(** The extension that [TASKS] gives for a type. *)
Definition task_extension (E : environment) (type : string) : string :=
  match table_get (TASKS E) (VStr type) with
  | inr extension_and_run => fst extension_and_run
  | inl _ => EmptyString
  end.

(** The test before a task or a single filter: no force, a snapshot under
    the name that [compare_parameters] accepts, and the file [output_path]
    is there. *)
Definition up_to_date (force : bool) (recorded : items) (name : string)
    (parameters : value) (output_path : string) (f : files) : Prop :=
  force = false
  /\ (exists snapshot,
        lookup name recorded = Some snapshot
        /\ compare_parameters snapshot parameters = true)
  /\ file_lookup output_path f <> None.

(** The state with the parameters of [name] recorded under [field]. *)
Definition recorded_under (field name : string) (parameters : value)
    (recorded pd : items) : items :=
  set_item field (VDict (set_item name parameters recorded)) pd.

(** The state of a job that starts afresh: the source and nothing
    recorded. *)
Definition fresh_state (source : value) : items :=
  [("source", source); ("filters", VDict []); ("tasks", VDict []);
   ("attachments", VDict [])].

(** The state document at [path] was left by a run on the same source. *)
Definition same_source (path : string) (source : value) (f : files)
    (pd : items) : Prop :=
  file_lookup path f = Some (Document (VDict pd))
  /\ exists recorded, lookup "source" pd = Some recorded
                      /\ Py.eq recorded source = true.

(** There is no state document at [path], or it was left by a run on
    another source. *)
Definition other_source (path : string) (source : value) (f : files) : Prop :=
  file_lookup path f = None
  \/ exists pd,
       file_lookup path f = Some (Document (VDict pd))
       /\ (lookup "source" pd = None
           \/ exists recorded, lookup "source" pd = Some recorded
                               /\ Py.eq recorded source = false).

(** ** The configure command

    The recordings come from the file system and their packets from the
    decoder of event_stream; the range of a recording and the attachments
    are computed by render.py.  A packet is its column [t] of timestamps. *)

(** [int(packet["t"][0])] *)
Definition first_timestamp (t : list Z) : exn + Z :=
  match t with
  | x :: _ => inr x
  | [] => inl IndexError
  end.

(** [int(packet["t"][-1])] *)
Definition last_timestamp (t : list Z) : exn + Z :=
  match t with
  | x :: r => inr (last r x)
  | [] => inl IndexError
  end.

(** The body of the loop over the packets: [begin] and [end] so far. *)
Definition read_packet (range : option Z * option Z) (t : list Z)
  : exn + (option Z * option Z) :=
  let (begin, end_) := range in
  let? begin :=
    match begin with
    | None => let? b := first_timestamp t in inr (Some b)
    | Some _ => inr begin
    end in
  let? e := last_timestamp t in
  inr (begin, Some e).

(** The range [begin, end) that the configure command gives to a
    recording. *)
Definition recording_range (packets : list (list Z)) : exn + (Z * Z) :=
  let? (begin, end_) := efold read_packet packets (None, None) in
  match begin with
  | None => let begin := 0 in inr (begin, begin + 1)
  | Some begin =>
      match end_ with
      | None => inl AssertionError
      | Some end_ => inr (begin, end_ + 1)
      end
  end.

(** The job that the configure command writes for a recording. *)
Definition configure_job (name : string) (packets : list (list Z)) : exn + value :=
  let? (begin, end_) := recording_range packets in
  inr (VDict [("name", VStr name);
              ("begin", VStr (timestamp_to_timecode begin));
              ("end", VStr (timestamp_to_timecode end_));
              ("filters", VList [VStr "default"]);
              ("tasks", VList [VStr "colourtime-.+"; VStr "event-rate-.+";
                               VStr "video-real-time"])]).

(** A path of the scan: the directory and the name of the file in it. *)
Module PurePath.

Record t : Type := make { parent : string; name : string }.

(** [str(path)] *)
Definition str (p : t) : string := Path.div (parent p) (name p).

(** [a == b] *)
Definition eqb (a b : t) : bool :=
  String.eqb (parent a) (parent b) && String.eqb (name a) (name b).

(** [name.rfind(c)]: the last index of [c], [None] for -1. *)
Fixpoint rfind (c : ascii) (s : string) : option nat :=
  match s with
  | EmptyString => None
  | String a r =>
      match rfind c r with
      | Some i => Some (S i)
      | None => if Ascii.eqb a c then Some O else None
      end
  end.

(** [s[:n]] *)
Fixpoint take (n : nat) (s : string) : string :=
  match n, s with
  | S k, String c r => String c (take k r)
  | _, _ => EmptyString
  end.

(** The property [suffix]: from the last dot on, when the dot is neither
    the first nor the last character of the name. *)
Definition suffix (p : t) : string :=
  let name := name p in
  match rfind "." name with
  | Some i =>
      if ((0 <? i) && (i <? String.length name - 1))%nat
      then PyStr.drop i name
      else EmptyString
  | None => EmptyString
  end.

(** The property [stem]: the name without its suffix. *)
Definition stem (p : t) : string :=
  let name := name p in
  match rfind "." name with
  | Some i =>
      if ((0 <? i) && (i <? String.length name - 1))%nat
      then take i name
      else name
  | None => name
  end.

End PurePath.

Section Configure.

(** [directory.iterdir()]: the names of the entries of a directory. *)
Variable iterdir : string -> list string.

(** The body of the loop over [path.parent.iterdir()]. *)
Definition add_sibling (name : string) (path : PurePath.t)
    (attachments : value) (sibling : PurePath.t) : exn + value :=
  if negb (PurePath.eqb sibling path)
     && String.eqb (PurePath.stem sibling) (PurePath.stem path)
  then
    let? present := Py.contains (VStr name) attachments in
    let? attachments :=
      (if negb present then setitem attachments name (VList [])
       else inr attachments) in
    let? files := get attachments name in
    let? files :=
      append files
        (VDict [("source", VStr (PurePath.str sibling));
                ("target", VStr (name ++ PurePath.suffix sibling))]) in
    setitem attachments name files
  else inr attachments.

(** The body of the loop over [zip(names, paths)]. *)
Definition add_siblings (attachments : value)
    (name_and_path : string * PurePath.t) : exn + value :=
  let (name, path) := name_and_path in
  efold (add_sibling name path)
    (map (PurePath.make (PurePath.parent path))
       (iterdir (PurePath.parent path)))
    attachments.

(** The attachments that the configure command writes. *)
Definition configure_attachments (names : list string)
    (paths : list PurePath.t) : exn + value :=
  efold add_siblings (combine names paths) (VDict []).

End Configure.

(** The siblings of [path] that the configure command attaches: the other
    entries with the same stem. *)
Definition attached (path sibling : PurePath.t) : bool :=
  negb (PurePath.eqb sibling path)
  && String.eqb (PurePath.stem sibling) (PurePath.stem path).

(** The attachment that the configure command writes for a sibling. *)
Definition attachment_of (name : string) (sibling : PurePath.t) : value :=
  VDict [("source", VStr (PurePath.str sibling));
         ("target", VStr (name ++ PurePath.suffix sibling))].

(** A directory with one recording and two files beside it. *)
Definition sample_iterdir (directory : string) : list string :=
  if String.eqb directory "/data"
  then ["rec.es"; "rec.txt"; "rec.tar.gz"; "other.es"]
  else [].

(** ** What a run adds to the log *)

(** Every event that the computation adds to the log satisfies [P]. *)
Definition emits_only (P : event -> Prop) {A} (m : M A) : Prop :=
  forall w, exists events,
    log (snd (m w)) = (log w ++ events)%list /\ Forall P events.

(** The event is the call of a task. *)
Definition is_task_run (e : event) : Prop :=
  match e with
  | RunTask _ _ _ _ _ _ => True
  | _ => False
  end.

(** The event is the copy of an attachment. *)
Definition is_copy (e : event) : Prop :=
  match e with
  | Copy _ _ => True
  | _ => False
  end.

(** ** Filters and tasks after the checks *)

(** [split] is the filter [original] as the run command keeps it: its type,
    icon and suffix, and its other options under [parameters]. *)
Definition is_split_filter (original split : string * value) : Prop :=
  fst split = fst original
  /\ exists d type icon suffix parameters,
       snd original = VDict d
       /\ lookup "type" d = Some type
       /\ lookup "icon" d = Some icon
       /\ lookup "suffix" d = Some suffix
       /\ snd split = VDict [("type", type); ("icon", icon); ("suffix", suffix);
                             ("parameters", VDict parameters)]
       /\ forall k,
            lookup k parameters
            = if existsb (String.eqb k) ["type"; "icon"; "suffix"] then None
              else lookup k d.

(** [split] is the task [original] as the run command keeps it: its type
    and icon, and its other options under [parameters]. *)
Definition is_split_task (original split : string * value) : Prop :=
  fst split = fst original
  /\ exists d type icon parameters,
       snd original = VDict d
       /\ lookup "type" d = Some type
       /\ lookup "icon" d = Some icon
       /\ snd split = VDict [("type", type); ("icon", icon);
                             ("parameters", VDict parameters)]
       /\ forall k,
            lookup k parameters
            = if existsb (String.eqb k) ["type"; "icon"] then None
              else lookup k d.

(** * Properties *)

(** ** Decimal numerals *)

Module DecimalFacts.
Import PyStr.

Lemma append_assoc (a b c : string) : (a ++ b) ++ c = a ++ (b ++ c).
Proof. induction a as [|x a IH]; simpl; [reflexivity | now rewrite IH]. Qed.

Lemma append_nil_r (a : string) : a ++ EmptyString = a.
Proof. induction a as [|x a IH]; simpl; [reflexivity | now rewrite IH]. Qed.

Lemma length_append (a b : string) :
  String.length (a ++ b) = (String.length a + String.length b)%nat.
Proof. induction a as [|x a IH]; simpl; [reflexivity | now rewrite IH]. Qed.

Lemma digit_char_is_digit d :
  0 <= d <= 9 -> is_ascii_digit (digit_char d) = true /\ digit_val (digit_char d) = d.
Proof.
  intros H.
  assert (d = 0 \/ d = 1 \/ d = 2 \/ d = 3 \/ d = 4 \/ d = 5 \/ d = 6
          \/ d = 7 \/ d = 8 \/ d = 9) as C by lia.
  repeat (destruct C as [-> | C]; [split; reflexivity |]).
  subst; split; reflexivity.
Qed.

Lemma mod10_range n : 0 <= n mod 10 <= 9.
Proof. pose proof (Z.mod_pos_bound n 10); lia. Qed.

Lemma decimal_acc_app fuel : forall n acc,
  decimal_acc fuel n acc = decimal_acc fuel n EmptyString ++ acc.
Proof.
  induction fuel as [|f IH]; intros n acc; simpl.
  - reflexivity.
  - destruct (n <? 10); [reflexivity |].
    rewrite IH, (IH _ (String _ EmptyString)), append_assoc. reflexivity.
Qed.

Lemma decimal_acc_digits fuel : forall n,
  forallb_str is_ascii_digit (decimal_acc fuel n EmptyString) = true.
Proof.
  induction fuel as [|f IH]; intros n; simpl.
  - now rewrite (proj1 (digit_char_is_digit _ (mod10_range n))).
  - destruct (n <? 10); simpl.
    + now rewrite (proj1 (digit_char_is_digit _ (mod10_range n))).
    + rewrite decimal_acc_app.
      assert (forall a b, forallb_str is_ascii_digit a = true ->
                          forallb_str is_ascii_digit b = true ->
                          forallb_str is_ascii_digit (a ++ b) = true) as App.
      { induction a as [|x a IHa]; simpl; intros b Ha Hb; [exact Hb |].
        apply andb_true_iff in Ha as [-> Ha]. simpl. now apply IHa. }
      apply App; [apply IH |]. simpl.
      now rewrite (proj1 (digit_char_is_digit _ (mod10_range n))).
Qed.

Lemma decimal_acc_nonempty fuel n :
  decimal_acc fuel n EmptyString <> EmptyString.
Proof.
  destruct fuel; simpl; [discriminate |].
  destruct (n <? 10); [discriminate |].
  rewrite decimal_acc_app. destruct (decimal_acc fuel (n / 10) EmptyString); discriminate.
Qed.

Lemma int_acc_snoc s : forall a v c,
  int_acc s a = Some v -> is_ascii_digit c = true ->
  int_acc (s ++ String c EmptyString) a = Some (v * 10 + digit_val c).
Proof.
  induction s as [|x s IH]; simpl; intros a v c H Hc.
  - injection H as <-. now rewrite Hc.
  - destruct (is_ascii_digit x); [now apply IH | discriminate].
Qed.

Lemma int_acc_decimal_acc fuel : forall n,
  0 <= n < 10 ^ (Z.of_nat fuel + 1) ->
  int_acc (decimal_acc fuel n EmptyString) 0 = Some n.
Proof.
  induction fuel as [|f IH]; intros n Hn.
  - simpl in *. destruct (digit_char_is_digit (n mod 10) (mod10_range n)) as [-> ->].
    f_equal. rewrite Z.mod_small; lia.
  - simpl decimal_acc. destruct (Z.ltb_spec n 10) as [Hlt | Hge].
    + simpl. destruct (digit_char_is_digit (n mod 10) (mod10_range n)) as [-> ->].
      f_equal. rewrite Z.mod_small; lia.
    + rewrite decimal_acc_app.
      destruct (digit_char_is_digit (n mod 10) (mod10_range n)) as [Hd Hv].
      rewrite (int_acc_snoc _ 0 (n / 10)); [| | exact Hd].
      * rewrite Hv. f_equal. pose proof (Z.div_mod n 10). lia.
      * apply IH. split; [apply Z.div_pos; lia |].
        apply Z.div_lt_upper_bound; [lia |].
        replace (Z.of_nat (S f) + 1) with (Z.succ (Z.of_nat f + 1)) in Hn by lia.
        rewrite Z.pow_succ_r in Hn by lia. lia.
Qed.

Lemma fuel_suffices n :
  0 <= n -> n < 10 ^ (Z.of_nat (Z.to_nat (Z.log2 n)) + 1).
Proof.
  intros Hn. rewrite Z2Nat.id by apply Z.log2_nonneg.
  destruct (Z.eq_dec n 0) as [-> | Hz]; [reflexivity |].
  pose proof (Z.log2_spec n ltac:(lia)) as [_ Hlt].
  eapply Z.lt_le_trans; [exact Hlt |].
  replace (Z.log2 n + 1) with (Z.succ (Z.log2 n)) by lia.
  apply Z.pow_le_mono_l. pose proof (Z.log2_nonneg n). lia.
Qed.

(** [int(str(n)) == n] on the non-negative integers. *)
Lemma int_of_decimal n : 0 <= n -> int_of_digits (decimal n) = Some n.
Proof.
  intros Hn. unfold int_of_digits, decimal.
  pose proof (decimal_acc_nonempty (Z.to_nat (Z.log2 n)) n) as Hne.
  pose proof (int_acc_decimal_acc _ n (conj Hn (fuel_suffices n Hn))) as H.
  destruct (decimal_acc (Z.to_nat (Z.log2 n)) n EmptyString); [congruence | exact H].
Qed.

Lemma decimal_digits n : forallb_str is_ascii_digit (decimal n) = true.
Proof. apply decimal_acc_digits. Qed.

Lemma decimal_nonempty n : decimal n <> EmptyString.
Proof. apply decimal_acc_nonempty. Qed.

Lemma decimal_acc_length fuel : forall n k,
  0 <= n < 10 ^ Z.of_nat (S k) ->
  (String.length (decimal_acc fuel n EmptyString) <= S k)%nat.
Proof.
  induction fuel as [|f IH]; intros n k Hn; simpl.
  - lia.
  - destruct (Z.ltb_spec n 10) as [Hlt | Hge]; simpl; [lia |].
    rewrite decimal_acc_app, length_append. simpl.
    destruct k as [|k].
    + simpl in Hn. lia.
    + assert (String.length (decimal_acc f (n / 10) EmptyString) <= S k)%nat; [| lia].
      apply IH. split; [apply Z.div_pos; lia |].
      apply Z.div_lt_upper_bound; [lia |].
      rewrite (Nat2Z.inj_succ (S k)), Z.pow_succ_r in Hn by lia. lia.
Qed.

Lemma decimal_length n k :
  0 <= n < 10 ^ Z.of_nat (S k) -> (String.length (decimal n) <= S k)%nat.
Proof. apply decimal_acc_length. Qed.

Lemma repeat_char_length c n : String.length (repeat_char c n) = n.
Proof. induction n; simpl; congruence. Qed.

Lemma int_acc_zeros k : forall s,
  int_acc (repeat_char "0" k ++ s) 0 = int_acc s 0.
Proof. induction k as [|k IH]; intros s; simpl; [reflexivity | apply IH]. Qed.

Lemma forallb_str_app p a b :
  forallb_str p (a ++ b) = forallb_str p a && forallb_str p b.
Proof.
  induction a as [|x a IH]; simpl; [reflexivity |].
  now rewrite IH, andb_assoc.
Qed.

Lemma repeat_zero_digits k : forallb_str is_ascii_digit (repeat_char "0" k) = true.
Proof. induction k; simpl; auto. Qed.

(** The padded form of a non-negative integer: digits only, not empty, and
    read back as the integer. *)
Lemma format_0d_spec width n :
  0 <= n ->
  forallb_str is_ascii_digit (format_0d width n) = true
  /\ format_0d width n <> EmptyString
  /\ int_of_digits (format_0d width n) = Some n.
Proof.
  intros Hn. unfold format_0d.
  destruct (Z.ltb_spec n 0) as [Hneg | _]; [lia |].
  split; [| split].
  - now rewrite forallb_str_app, repeat_zero_digits, decimal_digits.
  - pose proof (decimal_nonempty n).
    destruct (repeat_char "0" (width - String.length (decimal n))); simpl;
      [assumption | discriminate].
  - pose proof (int_of_decimal n Hn) as H. unfold int_of_digits in *.
    pose proof (decimal_nonempty n) as Hne.
    destruct (decimal n) as [|c d] eqn:Hd; [congruence |].
    destruct (repeat_char "0" (width - String.length (String c d)) ++ String c d)
      as [|c' d'] eqn:Hp.
    + destruct (repeat_char "0" (width - String.length (String c d))); discriminate.
    + rewrite <- Hp, int_acc_zeros. exact H.
Qed.

Lemma format_0d_length width n :
  0 <= n < 10 ^ Z.of_nat width -> (0 < width)%nat ->
  String.length (format_0d width n) = width.
Proof.
  intros Hn Hw. unfold format_0d.
  destruct (Z.ltb_spec n 0) as [Hneg | _]; [lia |].
  rewrite length_append, repeat_char_length.
  destruct width as [|k]; [lia |].
  pose proof (decimal_length n k Hn). lia.
Qed.

End DecimalFacts.

(** ** Timecode codec *)

Section TimecodeFacts.

Import PyStr DecimalFacts.

Variable E : environment.

Lemma span_digits_stop ds : forall c r,
  forallb_str is_ascii_digit ds = true -> is_ascii_digit c = false ->
  span_digits (ds ++ String c r) = (ds, String c r).
Proof.
  induction ds as [|x ds IH]; simpl; intros c r Hd Hc.
  - now rewrite Hc.
  - apply andb_true_iff in Hd as [-> Hd]. now rewrite IH.
Qed.

Lemma span_digits_all ds :
  forallb_str is_ascii_digit ds = true -> span_digits ds = (ds, EmptyString).
Proof.
  induction ds as [|x ds IH]; simpl; intros Hd; [reflexivity |].
  apply andb_true_iff in Hd as [-> Hd]. now rewrite IH.
Qed.

Lemma digits1_stop ds c r :
  forallb_str is_ascii_digit ds = true -> ds <> EmptyString ->
  is_ascii_digit c = false ->
  digits1 (ds ++ String c r) = Some (ds, String c r).
Proof.
  intros Hd Hne Hc. unfold digits1. rewrite span_digits_stop by assumption.
  destruct ds; [congruence | reflexivity].
Qed.

Lemma digits1_all ds :
  forallb_str is_ascii_digit ds = true -> ds <> EmptyString ->
  digits1 ds = Some (ds, EmptyString).
Proof.
  intros Hd Hne. unfold digits1. rewrite span_digits_all by assumption.
  destruct ds; [congruence | reflexivity].
Qed.

Lemma isdigit_separator ds c r :
  isdigit_char c = false -> isdigit (ds ++ String c r) = false.
Proof.
  intros Hc. unfold isdigit.
  assert (forallb_str isdigit_char (ds ++ String c r) = false) as H.
  { rewrite forallb_str_app. simpl. rewrite Hc. apply andb_false_r. }
  destruct (ds ++ String c r); [reflexivity | exact H].
Qed.

Lemma expect_head c r : expect c (String c r) = Some r.
Proof. simpl. now rewrite Ascii.eqb_refl. Qed.

(** The groups the pattern finds in a string of the fixed-width form. *)
Lemma TIMECODE_PATTERN_match_fixed h m s u :
  forallb_str is_ascii_digit h = true -> h <> EmptyString ->
  forallb_str is_ascii_digit m = true -> m <> EmptyString ->
  forallb_str is_ascii_digit s = true -> s <> EmptyString ->
  forallb_str is_ascii_digit u = true -> u <> EmptyString ->
  TIMECODE_PATTERN_match (h ++ ":" ++ m ++ ":" ++ s ++ "." ++ u)
  = Some (h, m, s, Some u).
Proof.
  intros Hh Nh Hm Nm Hs Ns Hu Nu. unfold TIMECODE_PATTERN_match.
  change (h ++ ":" ++ m ++ ":" ++ s ++ "." ++ u)
    with (h ++ String ":" (m ++ String ":" (s ++ String "." u))).
  rewrite (digits1_stop h) by (assumption || reflexivity).
  rewrite expect_head.
  rewrite (digits1_stop m) by (assumption || reflexivity).
  rewrite expect_head.
  rewrite (digits1_stop s) by (assumption || reflexivity).
  rewrite expect_head.
  rewrite (digits1_all u) by assumption. reflexivity.
Qed.

Lemma int_or_raise_format width n :
  0 <= n -> int_or_raise (format_0d width n) = inr n.
Proof.
  intros Hn. unfold int_or_raise.
  now rewrite (proj2 (proj2 (format_0d_spec width n Hn))).
Qed.

(** Parsing the fixed-width timecode of a non-negative timestamp gives the
    timestamp back. *)
Lemma timecode_of_timestamp (t : Z) :
  0 <= t -> timecode E (VStr (timestamp_to_timecode t)) = inr t.
Proof.
  intros Ht. unfold timecode, timecode_str, timestamp_to_timecode.
  set (h := t / (60 * 60 * 1000000)).
  set (t1 := t - h * 60 * 60 * 1000000).
  set (m := t1 / (60 * 1000000)).
  set (t2 := t1 - m * 60 * 1000000).
  set (s := t2 / 1000000).
  set (u := t2 - s * 1000000).
  assert (0 <= h) as Hh by (apply Z.div_pos; lia).
  assert (0 <= t1 < 3600000000) as Ht1.
  { unfold t1, h. pose proof (Z.mod_pos_bound t (60 * 60 * 1000000) ltac:(lia)).
    pose proof (Z.div_mod t (60 * 60 * 1000000) ltac:(lia)). lia. }
  assert (0 <= m) as Hm by (apply Z.div_pos; lia).
  assert (0 <= t2 < 60000000) as Ht2.
  { unfold t2, m. pose proof (Z.mod_pos_bound t1 (60 * 1000000) ltac:(lia)).
    pose proof (Z.div_mod t1 (60 * 1000000) ltac:(lia)). lia. }
  assert (0 <= s) as Hs by (apply Z.div_pos; lia).
  assert (0 <= u < 1000000) as Hu.
  { unfold u, s. pose proof (Z.mod_pos_bound t2 1000000 ltac:(lia)).
    pose proof (Z.div_mod t2 1000000 ltac:(lia)). lia. }
  destruct (format_0d_spec 2 h Hh) as (Dh & Nh & _).
  destruct (format_0d_spec 2 m Hm) as (Dm & Nm & _).
  destruct (format_0d_spec 2 s Hs) as (Ds & Ns & _).
  destruct (format_0d_spec 6 u (proj1 Hu)) as (Du & Nu & _).
  match goal with
  | |- context [isdigit ?x] =>
      replace (isdigit x) with false
        by (symmetry;
            apply (isdigit_separator (format_0d 2 h) ":"
                     (format_0d 2 m ++ ":" ++ format_0d 2 s ++ "."
                        ++ format_0d 6 u));
            reflexivity)
  end.
  rewrite TIMECODE_PATTERN_match_fixed by assumption. cbv beta iota.
  rewrite !int_or_raise_format by lia. cbv beta iota.
  rewrite format_0d_length by (simpl; lia). simpl Nat.eqb. cbv beta iota.
  f_equal. unfold u, t2, t1. lia.
Qed.

End TimecodeFacts.

(** C9: for every integer [t] with [0 <= t < 10^12], parsing the fixed-width
    timecode that the formatter produces for [t] returns [t] exactly. *)
Theorem timecode_roundtrip (E : environment) (t : Z) :
  0 <= t < 10 ^ 12 ->
  timecode E (VStr (timestamp_to_timecode t)) = inr t.
Proof. intros [Ht _]. now apply timecode_of_timestamp. Qed.

Lemma timecode_roundtrip_witness :
  timecode sample_environment (VStr (timestamp_to_timecode 45296789000))
  = inr 45296789000.
Proof. apply timecode_roundtrip. lia. Defined.

(** ** Generator expansion *)

Section GeneratorFacts.

Lemma lookup_map (f : value -> value) key (d : items) :
  lookup key (map (fun kv : string * value => let (k, x) := kv in (k, f x)) d)
  = option_map f (lookup key d).
Proof.
  induction d as [|[k x] d IH]; simpl; [reflexivity |].
  destruct (String.eqb key k); [reflexivity | exact IH].
Qed.

(** A sequence reached through nested mappings is left as it is. *)
Lemma recursive_replace_value_keeps_lists name pv path : forall v l,
  lookup_path path v = Some (VList l) ->
  lookup_path path (recursive_replace_value name pv v) = Some (VList l).
Proof.
  induction path as [|key rest IH]; intros v l H; simpl in H.
  - injection H as ->. reflexivity.
  - destruct v as [| | | |?|d]; try discriminate.
    destruct (lookup key d) as [x|] eqn:Hx; [| discriminate].
    simpl. rewrite lookup_map, Hx. simpl. now apply IH.
Qed.

Lemma apply_parameters_keeps_lists key nvs : forall name d,
  key = "jobs" \/ (exists s, name = VStr s) ->
  exists name' d',
    apply_parameters key nvs name (VDict d) = inr (name', VDict d')
    /\ (key = "jobs" \/ exists s, name' = VStr s)
    /\ forall path l,
         lookup_path path (VDict d) = Some (VList l) ->
         lookup_path path (VDict d') = Some (VList l).
Proof.
  induction nvs as [|[pn pv] nvs IH]; intros name d Hname.
  - exists name, d. simpl. auto.
  - cbn [apply_parameters].
    set (name1 :=
           if negb (String.eqb key "jobs") then
             match name with
             | VStr s => VStr (PyStr.replace ("@" ++ pn) (Py.str pv) s)
             | _ => name
             end
           else name).
    assert ((if negb (String.eqb key "jobs") then
               match name with
               | VNone => inl AssertionError
               | VStr s => inr (VStr (PyStr.replace ("@" ++ pn) (Py.str pv) s))
               | _ => no_attribute name "replace"
               end
             else inr name) = inr name1
            /\ (key = "jobs" \/ exists s, name1 = VStr s)) as [-> Hname1].
    { unfold name1. destruct Hname as [-> | [s ->]].
      - simpl. auto.
      - destruct (negb (String.eqb key "jobs")); split; eauto. }
    cbn [ebind recursive_replace].
    set (d1 := map (fun kv : string * value =>
                      let (k, x) := kv in (k, recursive_replace_value pn pv x)) d).
    destruct (IH name1 d1 Hname1) as (name' & d' & Heq & Hn & Hl).
    exists name', d'. split; [exact Heq | split; [exact Hn |]].
    intros path l H. apply Hl.
    now apply (recursive_replace_value_keeps_lists pn pv path (VDict d)).
Qed.

End GeneratorFacts.

(** C10: placeholder substitution goes through nested mappings only.  For
    every template (a mapping) and every list of parameters, the
    substitution loop of run_generators returns an entry, and every
    sequence-valued field of the template, at any depth of nested mappings,
    is in the generated entry exactly as it was in the template, so a
    placeholder inside one of its elements is not substituted. *)
Theorem sequences_not_substituted (key : string)
    (names_and_values : list (string * value)) (name : value) (template : items) :
  key = "jobs" \/ (exists s, name = VStr s) ->
  exists name' entry,
    apply_parameters key names_and_values name (VDict template)
    = inr (name', VDict entry)
    /\ forall path l,
         lookup_path path (VDict template) = Some (VList l) ->
         lookup_path path (VDict entry) = Some (VList l).
Proof.
  intros H.
  destruct (apply_parameters_keeps_lists key names_and_values name template H)
    as (name' & entry & Heq & _ & Hl).
  exists name', entry. auto.
Qed.

Lemma sequences_not_substituted_witness :
  exists name' entry,
    apply_parameters "jobs" [("threshold", VInt 1)] VNone
      (VDict [("name", VStr "job-name");
              ("filters", VList [VStr "arbiter-saturation-@threshold"])])
    = inr (name', VDict entry)
    /\ forall path l,
         lookup_path path
           (VDict [("name", VStr "job-name");
                   ("filters", VList [VStr "arbiter-saturation-@threshold"])])
         = Some (VList l) ->
         lookup_path path (VDict entry) = Some (VList l).
Proof. apply sequences_not_substituted. left. reflexivity. Defined.

(** The jobs generator of the sample configuration: the placeholder in the
    [filters] list of the template is still there in every generated job. *)
Example sample_jobs_generator_expansion :
  run_generators
    (VDict [("jobs", VList []); ("jobs-generators", VList [sample_jobs_generator])])
  = inr (VDict
           [("jobs",
             VList
               [VDict [("name", VStr "job-name");
                       ("begin", VStr "job-begin");
                       ("end", VStr "job-end");
                       ("filters", VList [VStr "arbiter-saturation-@threshold"]);
                       ("tasks", VList [VStr "colourtime-.+"; VStr "event-rate-.+";
                                        VStr "video-real-time"])];
                VDict [("name", VStr "job-name");
                       ("begin", VStr "job-begin");
                       ("end", VStr "job-end");
                       ("filters", VList [VStr "arbiter-saturation-@threshold"]);
                       ("tasks", VList [VStr "colourtime-.+"; VStr "event-rate-.+";
                                        VStr "video-real-time"])]])]).
Proof. reflexivity. Qed.

(** ** Sorting *)

Section SortFacts.

Context {A : Type} (le : A -> A -> bool).

Hypothesis le_total : forall x y, le x y = true \/ le y x = true.
Hypothesis le_trans : forall x y z, le x y = true -> le y z = true -> le x z = true.

Lemma insert_by_perm x l : Permutation (x :: l) (Py.insert_by le x l).
Proof.
  induction l as [|y l IH]; simpl; [reflexivity |].
  destruct (le x y); [reflexivity |].
  rewrite perm_swap. now apply perm_skip.
Qed.

Lemma sorted_by_perm l : Permutation l (Py.sorted_by le l).
Proof.
  induction l as [|x l IH]; simpl; [reflexivity |].
  rewrite <- insert_by_perm. now apply perm_skip.
Qed.

Lemma insert_by_sorted x l :
  Sorted (fun a b => le a b = true) l ->
  Sorted (fun a b => le a b = true) (Py.insert_by le x l).
Proof.
  induction l as [|y l IH]; intros Hs; simpl.
  - repeat constructor.
  - destruct (le x y) eqn:Hxy.
    + constructor; [exact Hs | constructor; exact Hxy].
    + inversion Hs as [|? ? Hs' Hhd]; subst.
      constructor; [now apply IH |].
      destruct l as [|z l]; simpl.
      * constructor. destruct (le_total x y); congruence.
      * destruct (le x z).
        -- constructor. destruct (le_total x y); congruence.
        -- inversion Hhd; subst. now constructor.
Qed.

Lemma sorted_by_sorted l :
  StronglySorted (fun a b => le a b = true) (Py.sorted_by le l).
Proof.
  apply Sorted_StronglySorted.
  - intros x y z. apply le_trans.
  - induction l as [|x l IH]; simpl; [constructor | now apply insert_by_sorted].
Qed.

End SortFacts.

(** ** Placeholder precedence *)

Lemma neg_len_le_total x y : neg_len_le x y = true \/ neg_len_le y x = true.
Proof. unfold neg_len_le. lia. Qed.

Lemma neg_len_le_trans x y z :
  neg_len_le x y = true -> neg_len_le y z = true -> neg_len_le x z = true.
Proof. unfold neg_len_le. lia. Qed.

(** The order in which run_generators applies the parameters: the items of
    the mapping, the longer names first. *)
Lemma parameters_longest_first (parameters : items) :
  Permutation parameters (parameters_names_and_values parameters)
  /\ StronglySorted
       (fun a b => (String.length (fst b) <= String.length (fst a))%nat)
       (parameters_names_and_values parameters).
Proof.
  split; [apply sorted_by_perm |].
  pose proof (sorted_by_sorted neg_len_le neg_len_le_total neg_len_le_trans parameters)
    as H.
  unfold parameters_names_and_values.
  induction H as [|a l Hs IH Hall]; constructor; [exact IH |].
  eapply Forall_impl; [| exact Hall].
  intros b Hb. unfold neg_len_le in Hb. lia.
Qed.

(** ** The example of the specification *)

Section ExampleExpansion.

Lemma existsb_keys_app k (d e : items) :
  existsb (String.eqb k) (keys (d ++ e)%list)
  = existsb (String.eqb k) (keys d) || existsb (String.eqb k) (keys e).
Proof. unfold keys. now rewrite map_app, existsb_app. Qed.

Lemma set_item_absent k v (d : items) :
  existsb (String.eqb k) (keys d) = false -> set_item k v d = (d ++ [(k, v)])%list.
Proof.
  induction d as [|[k' v'] d IH]; simpl; [reflexivity |].
  intros H. apply orb_false_iff in H as [-> H]. now rewrite IH.
Qed.

(** One entry of a filters or tasks generator whose name is new. *)
Lemma generate_entry_new key generator names configuration collection
    parameters_values template name0 entry0 name entry :
  String.eqb key "jobs" = false ->
  get generator "template" = inr template ->
  get template "name" = inr name0 ->
  delitem template "name" = inr entry0 ->
  apply_parameters key (combine names parameters_values) name0 entry0
  = inr (VStr name, entry) ->
  lookup key configuration = Some (VDict collection) ->
  existsb (String.eqb name) (keys collection) = false ->
  generate_entry key generator names (VDict configuration) parameters_values
  = inr (VDict (set_item key (VDict (collection ++ [(name, entry)])) configuration)).
Proof.
  intros Hk Ht Hn Hd Ha Hl Hnew. unfold generate_entry.
  rewrite Ht, Hk. cbn [ebind]. rewrite Hn, Hd. cbn [ebind]. rewrite Ha.
  cbn [ebind]. unfold get at 1. cbn [Py.getitem]. rewrite Hl. cbn [ebind].
  cbn [Py.contains]. rewrite Hnew. cbn [ebind setitem].
  now rewrite (set_item_absent name entry collection Hnew).
Qed.

Ltac expand_entries k d H1 H5 H10 :=
  erewrite (generate_entry_new k _ _ _ d _ _ _ _ "as-1" (VDict [("suffix", VStr "as1")]));
    [| reflexivity | reflexivity | reflexivity | reflexivity
     | reflexivity | reflexivity | exact H1];
  cbn [ebind set_item String.eqb Ascii.eqb Bool.eqb];
  erewrite (generate_entry_new k _ _ _ (d ++ [_]) _ _ _ _ "as-5" (VDict [("suffix", VStr "as5")]));
    [| reflexivity | reflexivity | reflexivity | reflexivity
     | reflexivity | reflexivity
     | rewrite existsb_keys_app, H5; reflexivity];
  cbn [ebind set_item String.eqb Ascii.eqb Bool.eqb];
  erewrite (generate_entry_new k _ _ _ ((d ++ [_]) ++ [_]) _ _ _ _ "as-10" (VDict [("suffix", VStr "as10")]));
    [| reflexivity | reflexivity | reflexivity | reflexivity
     | reflexivity | reflexivity
     | rewrite !existsb_keys_app, H10; reflexivity];
  cbn [ebind set_item String.eqb Ascii.eqb Bool.eqb];
  rewrite <- !app_assoc; reflexivity.

Lemma threshold_expansion key generator_key (d : items) :
  In (key, generator_key) [("filters", "filters-generators"); ("tasks", "tasks-generators")] ->
  existsb (String.eqb "as-1") (keys d) = false ->
  existsb (String.eqb "as-5") (keys d) = false ->
  existsb (String.eqb "as-10") (keys d) = false ->
  run_generators
    (VDict [(key, VDict d); (generator_key, VList [threshold_generator])])
  = inr (VDict [(key,
                 VDict (d ++ [("as-1", VDict [("suffix", VStr "as1")]);
                              ("as-5", VDict [("suffix", VStr "as5")]);
                              ("as-10", VDict [("suffix", VStr "as10")])]))]).
Proof.
  intros Hkind H1 H5 H10.
  assert (forall k, k = "filters" \/ k = "tasks" ->
            efold (generate_entry k threshold_generator ["threshold"])
              [[VInt 1]; [VInt 5]; [VInt 10]]
              (VDict [(k, VDict d); (k ++ "-generators", VList [threshold_generator])])
            = inr (VDict [(k, VDict (d ++ [("as-1", VDict [("suffix", VStr "as1")]);
                              ("as-5", VDict [("suffix", VStr "as5")]);
                              ("as-10", VDict [("suffix", VStr "as10")])]));
                          (k ++ "-generators", VList [threshold_generator])])) as Hfold.
  { intros k [-> | ->]; cbn [efold].
    - expand_entries "filters" d H1 H5 H10.
    - expand_entries "tasks" d H1 H5 H10. }
  destruct Hkind as [[= <- <-] | [[= <- <-] | []]].
  - unfold run_generators. cbn [efold generator_kinds].
    change (Py.contains (VStr "filters-generators")
              (VDict [("filters", VDict d);
                      ("filters-generators", VList [threshold_generator])]))
      with (@inr exn bool true).
    cbn [ebind efold]. unfold get at 1. cbn [Py.getitem lookup String.eqb Ascii.eqb Bool.eqb Py.iter ebind efold].
    change (run_generator "filters"
              (VDict [("filters", VDict d);
                      ("filters-generators", VList [threshold_generator])])
              threshold_generator)
      with (efold (generate_entry "filters" threshold_generator ["threshold"])
              [[VInt 1]; [VInt 5]; [VInt 10]]
              (VDict [("filters", VDict d);
                      ("filters"  ++ "-generators", VList [threshold_generator])])).
    rewrite (Hfold "filters") by auto.
    reflexivity.
  - unfold run_generators. cbn [efold generator_kinds].
    change (Py.contains (VStr "filters-generators")
              (VDict [("tasks", VDict d);
                      ("tasks-generators", VList [threshold_generator])]))
      with (@inr exn bool false).
    cbn [ebind efold].
    change (Py.contains (VStr "tasks-generators")
              (VDict [("tasks", VDict d);
                      ("tasks-generators", VList [threshold_generator])]))
      with (@inr exn bool true).
    cbn [ebind efold]. unfold get at 1. cbn [Py.getitem lookup String.eqb Ascii.eqb Bool.eqb Py.iter ebind efold].
    change (run_generator "tasks"
              (VDict [("tasks", VDict d);
                      ("tasks-generators", VList [threshold_generator])])
              threshold_generator)
      with (efold (generate_entry "tasks" threshold_generator ["threshold"])
              [[VInt 1]; [VInt 5]; [VInt 10]]
              (VDict [("tasks", VDict d);
                      ("tasks"  ++ "-generators", VList [threshold_generator])])).
    rewrite (Hfold "tasks") by auto.
    reflexivity.
Qed.
End ExampleExpansion.

(** C7: the generator with parameters [{"threshold": [1, 5, 10]}] and
    template [{"name": "as-@threshold", "suffix": "as@threshold"}], in a
    filters or tasks collection that has none of the names yet, adds exactly
    three entries to the collection, under the keys [as-1], [as-5] and
    [as-10], with the suffixes [as1], [as5] and [as10]; none of the three
    has a [name] field; the generators are gone from the result. *)
Theorem threshold_generator_entries (key generator_key : string) (d : items) :
  In (key, generator_key)
    [("filters", "filters-generators"); ("tasks", "tasks-generators")] ->
  existsb (String.eqb "as-1") (keys d) = false ->
  existsb (String.eqb "as-5") (keys d) = false ->
  existsb (String.eqb "as-10") (keys d) = false ->
  exists entries : items,
    run_generators
      (VDict [(key, VDict d); (generator_key, VList [threshold_generator])])
    = inr (VDict [(key, VDict (d ++ entries))])
    /\ entries = [("as-1", VDict [("suffix", VStr "as1")]);
                  ("as-5", VDict [("suffix", VStr "as5")]);
                  ("as-10", VDict [("suffix", VStr "as10")])]
    /\ Forall (fun e => lookup_path ["name"] (snd e) = None) entries.
Proof.
  intros Hkind H1 H5 H10. eexists. split; [| split; [reflexivity |]].
  - now apply threshold_expansion.
  - repeat constructor.
Qed.

Lemma threshold_generator_entries_witness :
  exists entries : items,
    run_generators
      (VDict [("filters", VDict [("default", VDict [("type", VStr "default")])]);
              ("filters-generators", VList [threshold_generator])])
    = inr (VDict [("filters",
                   VDict ([("default", VDict [("type", VStr "default")])] ++ entries))])
    /\ entries = [("as-1", VDict [("suffix", VStr "as1")]);
                  ("as-5", VDict [("suffix", VStr "as5")]);
                  ("as-10", VDict [("suffix", VStr "as10")])]
    /\ Forall (fun e => lookup_path ["name"] (snd e) = None) entries.
Proof.
  apply (threshold_generator_entries "filters" "filters-generators"
           [("default", VDict [("type", VStr "default")])]);
    [left; reflexivity | reflexivity | reflexivity | reflexivity].
Defined.

(** ** Validation of the task patterns *)

Section ValidationFacts.

Variable E : environment.

(** A [bool] is never a key of a mapping whose keys are strings. *)
Lemma found_never_in_tasks (found : bool) (tasks : items) :
  Py.contains (VBool found) (VDict tasks) = inr false.
Proof. reflexivity. Qed.

(** Whatever the inner loop found, the check after it calls [error]. *)
Lemma validate_task_exits configuration job expanded_tasks pattern tasks name :
  re_valid E pattern = true ->
  get configuration "tasks" = inr (VDict tasks) ->
  get job "name" = inr name ->
  validate_task E configuration job expanded_tasks (VStr pattern)
  = error (q ++ pattern ++ q ++ " in " ++ q ++ Py.str name ++ q
             ++ " did not match any task names").
Proof.
  intros Hv Ht Hn. unfold validate_task. rewrite Hv, Ht. cbn [ebind].
  destruct (match_task_names E pattern (keys tasks) expanded_tasks false)
    as [expanded found].
  rewrite found_never_in_tasks. cbn [ebind negb]. rewrite Hn. reflexivity.
Qed.

End ValidationFacts.

(** C1: the check after the inner loop of the validation is
    [not found in configuration["tasks"]], and a [bool] is never among the
    task names, so the first pattern of a job stops the run with the
    unmatched-pattern message whether it matched a task name or not. *)
Theorem unmatched_error_for_every_pattern (E : environment)
    (configuration job : value) (expanded_tasks : list value)
    (pattern : string) (tasks : items) (name : value) :
  re_valid E pattern = true ->
  get configuration "tasks" = inr (VDict tasks) ->
  get job "name" = inr name ->
  validate_task E configuration job expanded_tasks (VStr pattern)
  = inl (SystemExit (q ++ pattern ++ q ++ " in " ++ q ++ Py.str name ++ q
                       ++ " did not match any task names")).
Proof. apply validate_task_exits. Qed.

Lemma unmatched_error_for_every_pattern_witness :
  validate_task sample_environment
    (sample_configuration [sample_job "rec" ["default"] ["video-real-time"]] (VDict []))
    (sample_job "rec" ["default"] ["video-real-time"]) [] (VStr "video-real-time")
  = inl (SystemExit (q ++ "video-real-time" ++ q ++ " in " ++ q ++ "rec" ++ q
                       ++ " did not match any task names")).
Proof.
  apply (unmatched_error_for_every_pattern sample_environment _ _ []
           "video-real-time" sample_tasks (VStr "rec"));
    reflexivity.
Defined.

(** The run command on a configuration whose only pattern is the name of a
    task: the pattern matches the name in full, and the run stops in the
    validation. *)
Example run_rejects_matched_pattern :
  Re.fullmatch "video-real-time" "video-real-time" = true
  /\ run sample_environment false
       (sample_configuration [sample_job "rec" ["default"] ["video-real-time"]]
          (VDict []))
       empty_world
     = (inl (SystemExit (q ++ "video-real-time" ++ q ++ " in " ++ q ++ "rec" ++ q
                           ++ " did not match any task names")),
        empty_world).
Proof. split; reflexivity. Qed.

(** A job without patterns passes the validation and is run. *)
Example run_without_tasks :
  fst (run sample_environment false
         (sample_configuration [sample_job "rec" ["default"] []] (VDict []))
         empty_world)
  = inr tt.
Proof. reflexivity. Qed.

(** ** The task loop *)

Section TaskLoopFacts.

Variable E : environment.

(** The loop looks its item up among the task names as it is. *)
Lemma task_step_unknown_name force configuration tasks directory name
    output_path parameters_path begin end_ parameters pattern w :
  get configuration "tasks" = inr (VDict tasks) ->
  lookup pattern tasks = None ->
  task_step E force configuration directory name output_path parameters_path
    begin end_ parameters (VStr pattern) w
  = (inl (KeyError pattern), w).
Proof.
  intros Ht Hl. unfold task_step, bind, lift. rewrite Ht.
  cbn [Py.getitem]. rewrite Hl. reflexivity.
Qed.

End TaskLoopFacts.

(** C2: the loop that runs the tasks goes over [job["tasks"]], the patterns
    as written, not over the names they expand to.  The pattern
    [colourtime-.+] matches the task [colourtime-viridis] in full, and the
    validation collects that name in [expanded_tasks]; the loop looks the
    pattern itself up among the task names and stops with a [KeyError]
    before any task is run, and the run command as a whole stops earlier, in
    the validation. *)
Theorem task_loop_takes_patterns_as_names :
  Re.fullmatch "colourtime-.+" "colourtime-viridis" = true
  /\ match_task_names sample_environment "colourtime-.+" (keys sample_tasks) [] false
     = ([VStr "colourtime-viridis"], true)
  /\ tasks_stage sample_environment true
       (sample_configuration [sample_job "rec" ["default"] ["colourtime-.+"]] (VDict []))
       (sample_job "rec" ["default"] ["colourtime-.+"])
       "/work/renders" "rec-b0-e1" "/work/renders/rec-b0-e1/rec-b0-e1.es"
       "/work/renders/rec-b0-e1/parameters.toml" 0 1000000 sample_state empty_world
     = (inl (KeyError "colourtime-.+"), empty_world)
  /\ run sample_environment true
       (sample_configuration [sample_job "rec" ["default"] ["colourtime-.+"]] (VDict []))
       empty_world
     = (inl (SystemExit (q ++ "colourtime-.+" ++ q ++ " in " ++ q ++ "rec" ++ q
                           ++ " did not match any task names")),
        empty_world).
Proof. repeat split; reflexivity. Qed.

(** ** The attachment loop *)

Section AttachmentFacts.

(** The loop goes over the mapping itself, so its items are the job names,
    and a job name is a string, which has no item [target]. *)
Lemma attachments_stage_type_error force directory name configuration
    parameters key attachment rest w :
  get configuration "attachments" = inr (VDict ((key, attachment) :: rest)) ->
  attachments_stage force directory name configuration parameters w
  = (inl TypeError, w).
Proof.
  intros H. unfold attachments_stage, bind, lift. rewrite H.
  cbn [Py.iter keys map fst mfold]. unfold bind, attachment_step, lift, bind.
  destruct force; reflexivity.
Qed.















End AttachmentFacts.

(** C3: the attachment loop iterates over [configuration["attachments"]],
    the mapping from job names to lists, so each item is a job name; with at
    least one job that has attachments the loop raises [TypeError] at its
    first item, forced or not, before anything is skipped or copied. *)
Theorem attachments_loop_raises (force : bool) (directory name : string)
    (configuration parameters : value) (key : string) (attachment : value)
    (rest : items) (w : world) :
  get configuration "attachments" = inr (VDict ((key, attachment) :: rest)) ->
  attachments_stage force directory name configuration parameters w
  = (inl TypeError, w).
Proof. apply attachments_stage_type_error. Qed.

Lemma attachments_loop_raises_witness :
  attachments_stage true "/work/renders" "rec-b0-e1"
    (sample_configuration [sample_job "rec" ["default"] []]
       (VDict [("rec", VList [sample_attachment])]))
    sample_state (world_with [("/data/rec.txt", Data)])
  = (inl TypeError, world_with [("/data/rec.txt", Data)]).
Proof.
  apply (attachments_loop_raises true _ _ _ _ "rec" (VList [sample_attachment]) []).
  reflexivity.
Defined.

(** The run command with one attachment configured for the job: the source
    of the attachment is there, the run is forced, and it ends in
    [TypeError] with nothing copied. *)
Example run_with_attachment :
  let result :=
    run sample_environment true
      (sample_configuration [sample_job "rec" ["default"] []]
         (VDict [("rec", VList [sample_attachment])]))
      (world_with [("/data/rec.txt", Data)]) in
  fst result = inl TypeError
  /\ file_lookup "/work/renders/rec-b0-e1/rec.txt" (fs (snd result)) = None
  /\ Forall (fun e => match e with Copy _ _ => False | _ => True end)
       (log (snd result)).
Proof.
  cbv zeta. split; [reflexivity | split; [reflexivity |]].
  vm_compute. repeat constructor.
Qed.

(** The loop on a sequence of attachments: the test that skips a copy asks
    whether the target is recorded and is a file, not which source is
    recorded for it. *)
Example skip_ignores_recorded_source :
  attachments_stage false "/work/renders" "rec-b0-e1"
    (sample_configuration [] (VList [sample_attachment]))
    (VDict [("source", VStr "/data/rec.es");
            ("attachments", VDict [("rec.txt", VStr "/data/other.txt")])])
    (world_with [("/data/rec.txt", Data); ("/work/renders/rec-b0-e1/rec.txt", Data)])
  = (inr (VDict [("source", VStr "/data/rec.es");
                 ("attachments", VDict [("rec.txt", VStr "/data/rec.txt")])]),
     {| fs := [("/data/rec.txt", Data); ("/work/renders/rec-b0-e1/rec.txt", Data)];
        log := [Info "⏭ " "skip copy /data/rec.txt to rec.txt"];
        fresh := O |}).
Proof. reflexivity. Qed.

(** The stages that do save.  The single filter: the state is dumped and
    renamed into place right after the artifact is. *)
Example single_filter_saves :
  log (snd (run sample_environment false
              (sample_configuration [sample_job "rec" ["default"] []] (VDict []))
              empty_world))
  = [Info "📁" ("output directory " ++ q ++ "/work/renders" ++ q
                 ++ String "010"%char EmptyString);
     Mkdir "/work/renders";
     Mkdir "/work/renders/rec-b0-e1";
     Info "*" "1/1 rec-b0-e1";
     Dump "/work/renders/rec-b0-e1/parameters.part"
       (VDict [("source", VStr "/data/rec.es")]);
     Rename "/work/renders/rec-b0-e1/parameters.part"
       "/work/renders/rec-b0-e1/parameters.toml";
     Info "F" "apply filter default";
     ApplyFilter "default" "/data/rec.es"
       "/work/renders/rec-b0-e1/rec-b0-e1.es.part" 0 1000000 (VDict []);
     Rename "/work/renders/rec-b0-e1/rec-b0-e1.es.part"
       "/work/renders/rec-b0-e1/rec-b0-e1.es";
     Dump "/work/renders/rec-b0-e1/parameters.part"
       (VDict [("source", VStr "/data/rec.es");
               ("filters", VDict [("default", VDict [])]);
               ("tasks", VDict []);
               ("attachments", VDict [])]);
     Rename "/work/renders/rec-b0-e1/parameters.part"
       "/work/renders/rec-b0-e1/parameters.toml"].
Proof. reflexivity. Qed.

(** The task loop on the name of a task, given twice: the task is run and
    the state saved at once; the second time the snapshot is there and the
    task is skipped. *)
Example task_saves_then_skips :
  log (snd (tasks_stage sample_environment false
              (VDict [("tasks", VDict split_tasks)])
              (sample_job "rec" ["default"] ["video-real-time"; "video-real-time"])
              "/work/renders" "rec-b0-e1" "/work/renders/rec-b0-e1/rec-b0-e1.es"
              "/work/renders/rec-b0-e1/parameters.toml" 0 1000000 sample_state
              (world_with [("/work/renders/rec-b0-e1/rec-b0-e1.es", Data)])))
  = [Info "T" "run task video-real-time";
     RunTask "video" "/work/renders/rec-b0-e1/rec-b0-e1.es"
       "/work/renders/rec-b0-e1/rec-b0-e1-video-real-time.mp4.part" 0 1000000
       (VDict [("frametime", VStr "00:00:00.020000")]);
     Rename "/work/renders/rec-b0-e1/rec-b0-e1-video-real-time.mp4.part"
       "/work/renders/rec-b0-e1/rec-b0-e1-video-real-time.mp4";
     Dump "/work/renders/rec-b0-e1/parameters.part"
       (VDict [("source", VStr "/data/rec.es");
               ("filters", VDict []);
               ("tasks", VDict [("video-real-time",
                                 VDict [("frametime", VStr "00:00:00.020000")])]);
               ("attachments", VDict [])]);
     Rename "/work/renders/rec-b0-e1/parameters.part"
       "/work/renders/rec-b0-e1/parameters.toml";
     Info "⏭ " "skip task video-real-time"].
Proof. reflexivity. Qed.


(** ** Parameter comparison *)

Section ValueInduction.

Variable P : value -> Prop.
Hypothesis HNone : P VNone.
Hypothesis HBool : forall b, P (VBool b).
Hypothesis HInt : forall n, P (VInt n).
Hypothesis HStr : forall s, P (VStr s).
Hypothesis HList : forall l, Forall P l -> P (VList l).
Hypothesis HDict : forall d, Forall (fun kv => P (snd kv)) d -> P (VDict d).

Lemma value_ind' : forall v : value, P v.
Proof.
  fix IH 1. intros [|b|n|s|l|d].
  - exact HNone.
  - apply HBool.
  - apply HInt.
  - apply HStr.
  - apply HList. revert l. fix IHl 1. intros [|x l]; constructor.
    + apply IH.
    + apply IHl.
  - apply HDict. revert d. fix IHd 1. intros [|[k x] d]; constructor.
    + apply IH.
    + apply IHd.
Qed.

End ValueInduction.

Module JsonFacts.
Import PyStr DecimalFacts Json JsonRead.

(** *** The order of the keys *)

Lemma ascii_compare_trans_le a b c :
  Ascii.compare a b <> Gt -> Ascii.compare b c <> Gt -> Ascii.compare a c <> Gt.
Proof.
  unfold Ascii.compare. rewrite !N.compare_le_iff. lia.
Qed.

Lemma ascii_compare_eq a b : Ascii.compare a b = Eq <-> a = b.
Proof.
  split; [apply Ascii.compare_eq_iff |].
  intros ->. unfold Ascii.compare. apply N.compare_refl.
Qed.

Lemma ascii_compare_lt_trans a b c :
  Ascii.compare a b = Lt -> Ascii.compare b c <> Gt -> Ascii.compare a c = Lt.
Proof.
  unfold Ascii.compare. rewrite !N.compare_lt_iff, N.compare_le_iff. lia.
Qed.

Lemma ascii_compare_le_lt_trans a b c :
  Ascii.compare a b <> Gt -> Ascii.compare b c = Lt -> Ascii.compare a c = Lt.
Proof.
  unfold Ascii.compare. rewrite !N.compare_lt_iff, N.compare_le_iff. lia.
Qed.

Lemma string_compare_trans s1 : forall s2 s3,
  String.compare s1 s2 <> Gt -> String.compare s2 s3 <> Gt ->
  String.compare s1 s3 <> Gt.
Proof.
  induction s1 as [|a s1 IH]; intros [|b s2] [|c s3]; simpl; try congruence.
  destruct (Ascii.compare a b) eqn:Hab; try congruence;
    destruct (Ascii.compare b c) eqn:Hbc; try congruence; intros H1 H2.
  - apply ascii_compare_eq in Hab, Hbc. subst.
    rewrite (proj2 (ascii_compare_eq c c) eq_refl). now apply (IH s2).
  - apply ascii_compare_eq in Hab. subst. now rewrite Hbc.
  - apply ascii_compare_eq in Hbc. subst. now rewrite Hab.
  - rewrite (ascii_compare_lt_trans a b c) by congruence. congruence.
Qed.

Lemma leb_trans s1 s2 s3 :
  String.leb s1 s2 = true -> String.leb s2 s3 = true -> String.leb s1 s3 = true.
Proof.
  unfold String.leb. intros H1 H2.
  pose proof (string_compare_trans s1 s2 s3) as H.
  destruct (String.compare s1 s2); destruct (String.compare s2 s3);
    destruct (String.compare s1 s3); try reflexivity; try discriminate;
    exfalso; apply H; congruence.
Qed.


(** *** Sorted items *)

Section SortedItems.

Context {B : Type}.

Lemma item_le_total (a b : string * B) :
  item_le a b = true \/ item_le b a = true.
Proof. apply String.leb_total. Qed.

Lemma item_le_trans (a b c : string * B) :
  item_le a b = true -> item_le b c = true -> item_le a c = true.
Proof. apply leb_trans. Qed.

(** Two sorted lists with the same items, no key twice, are one list. *)
Lemma sorted_items_unique (l1 : list (string * B)) : forall l2,
  StronglySorted (fun a b => item_le a b = true) l1 ->
  StronglySorted (fun a b => item_le a b = true) l2 ->
  Permutation l1 l2 -> NoDup (map fst l1) -> l1 = l2.
Proof.
  induction l1 as [|a l1 IH]; intros l2 S1 S2 HP ND.
  - apply Permutation_nil in HP. now subst.
  - destruct l2 as [|b l2].
    + symmetry in HP. now apply Permutation_nil in HP.
    + assert (a = b) as ->.
      { assert (In a (b :: l2)) as Ia
          by (eapply Permutation_in; [exact HP | now left]).
        assert (In b (a :: l1)) as Ib
          by (eapply Permutation_in; [symmetry; exact HP | now left]).
        destruct Ia as [-> | Ia]; [reflexivity |].
        destruct Ib as [-> | Ib]; [reflexivity |].
        inversion S1 as [|? ? _ F1]; inversion S2 as [|? ? _ F2]; subst.
        rewrite Forall_forall in F1, F2.
        pose proof (String.leb_antisym _ _ (F1 b Ib) (F2 a Ia)) as Hk.
        inversion ND as [|? ? Hn _]; subst. exfalso. apply Hn.
        rewrite Hk. now apply in_map. }
      f_equal. apply IH.
      * now inversion S1.
      * now inversion S2.
      * now apply Permutation_cons_inv in HP.
      * now inversion ND.
Qed.

Lemma sorted_by_items_unique (l1 l2 : list (string * B)) :
  Permutation l1 l2 -> NoDup (map fst l1) ->
  Py.sorted_by item_le l1 = Py.sorted_by item_le l2.
Proof.
  intros HP ND. apply sorted_items_unique.
  - apply sorted_by_sorted; [apply item_le_total | apply item_le_trans].
  - apply sorted_by_sorted; [apply item_le_total | apply item_le_trans].
  - rewrite <- (sorted_by_perm item_le l1), <- (sorted_by_perm item_le l2).
    exact HP.
  - eapply Permutation_NoDup; [| exact ND].
    apply Permutation_map, sorted_by_perm.
Qed.

End SortedItems.

Lemma insert_by_map {A B} (f : A -> B) (leA : A -> A -> bool) (leB : B -> B -> bool) :
  (forall x y, leB (f x) (f y) = leA x y) ->
  forall x l, Py.insert_by leB (f x) (map f l) = map f (Py.insert_by leA x l).
Proof.
  intros H x l. induction l as [|y l IH]; simpl; [reflexivity |].
  rewrite H. destruct (leA x y); simpl; [reflexivity | now rewrite IH].
Qed.

Lemma sorted_by_map {A B} (f : A -> B) (leA : A -> A -> bool) (leB : B -> B -> bool) :
  (forall x y, leB (f x) (f y) = leA x y) ->
  forall l, Py.sorted_by leB (map f l) = map f (Py.sorted_by leA l).
Proof.
  intros H l. induction l as [|x l IH]; simpl; [reflexivity |].
  rewrite IH. now apply insert_by_map.
Qed.

(** The serialization of a mapping, on its sorted items. *)
Lemma dumps_dict d :
  dumps (VDict d)
  = "{" ++ join "," (map item_str (Py.sorted_by item_le d)) ++ "}".
Proof.
  cbn [dumps]. do 3 f_equal.
  rewrite (sorted_by_map
             (fun kv : string * value => let (k, x) := kv in (k, dumps x))
             item_le key_le).
  - rewrite map_map. apply map_ext. now intros [k x].
  - now intros [k x] [k' x'].
Qed.

Lemma dumps_list l : dumps (VList l) = "[" ++ join "," (map dumps l) ++ "]".
Proof. reflexivity. Qed.


(** *** Equal up to the order of the keys, equal serializations *)

Lemma nodupb_NoDup l : nodupb l = true -> NoDup l.
Proof.
  induction l as [|x l IH]; simpl; intros H; constructor.
  - apply andb_true_iff in H as [H _]. apply negb_true_iff in H.
    intros Hin. assert (existsb (String.eqb x) l = true) as Hex; [| congruence].
    apply existsb_exists. exists x. split; [exact Hin | apply String.eqb_refl].
  - apply IH. now apply andb_true_iff in H as [_ H].
Qed.

Lemma same_dumps a : forall b,
  unique_keys a = true -> same_up_to_key_order a b -> dumps a = dumps b.
Proof.
  induction a as [|x0|n0|s0|l IH|d IH] using value_ind'; intros b U S;
    inversion S; subst; try reflexivity.
  - (* sequences *)
    rewrite !dumps_list. do 3 f_equal.
    cbn [unique_keys] in U. clear S.
    match goal with H : Forall2 _ l _ |- _ => induction H as [|x y l l' Hxy HF IHF] end;
      [reflexivity |].
    cbn [forallb] in U. apply andb_true_iff in U as [Ux Ul].
    inversion IH; subst. cbn [map]. f_equal; [auto | auto].
  - (* mappings *)
    rewrite !dumps_dict. do 3 f_equal.
    cbn [unique_keys] in U. apply andb_true_iff in U as [ND U].
    apply nodupb_NoDup in ND. clear S.
    match goal with
    | HP : Permutation ?p _, HF : Forall2 _ d ?p |- _ =>
        rename HP into Hperm; rename HF into Hall; rename p into q
    end.
    assert (map item_str (Py.sorted_by item_le d)
            = map item_str (Py.sorted_by item_le q)) as ->.
    { assert (map (fun kv : string * value => (fst kv, dumps (snd kv))) d
              = map (fun kv : string * value => (fst kv, dumps (snd kv))) q) as Henc.
      { clear ND Hperm. induction Hall as [|x y d q [Hk Hs] HF IHF]; [reflexivity |].
        cbn [forallb] in U. apply andb_true_iff in U as [Ux Ud].
        inversion IH; subst. cbn [map]. f_equal.
        - destruct x as [k u], y as [k' w]. simpl in *. subst. f_equal. auto.
        - auto. }
      assert (forall l : items,
                 map item_str (Py.sorted_by item_le l)
                 = map (fun ks : string * string => dumps_str (fst ks) ++ ":" ++ snd ks)
                     (Py.sorted_by key_le
                        (map (fun kv : string * value => (fst kv, dumps (snd kv))) l)))
        as Hs.
      { intros l0.
        rewrite (sorted_by_map
                   (fun kv : string * value => (fst kv, dumps (snd kv)))
                   item_le key_le) by reflexivity.
        rewrite map_map. reflexivity. }
      now rewrite !Hs, Henc. }
    f_equal. apply sorted_by_items_unique; [exact Hperm |].
    assert (map fst q = map fst d) as ->; [| exact ND].
    clear - Hall. induction Hall as [|x y d q [Hk _] _ IHF]; [reflexivity |].
    cbn [map]. now rewrite IHF, Hk.
Qed.


(** *** Equal serializations, equal up to the order of the keys *)

Lemma span_digits_delimited ds r :
  forallb_str is_ascii_digit ds = true -> delimited r ->
  span_digits (ds ++ r) = (ds, r).
Proof.
  intros Hd Hr. destruct r as [|c r].
  - rewrite append_nil_r. now apply span_digits_all.
  - now apply span_digits_stop.
Qed.

Lemma decimal_inj_app n m r r' :
  0 <= n -> 0 <= m -> delimited r -> delimited r' ->
  decimal n ++ r = decimal m ++ r' -> n = m /\ r = r'.
Proof.
  intros Hn Hm Hr Hr' H.
  pose proof (span_digits_delimited (decimal n) r (decimal_digits n) Hr) as S1.
  pose proof (span_digits_delimited (decimal m) r' (decimal_digits m) Hr') as S2.
  rewrite H in S1. rewrite S1 in S2. injection S2 as Hd ->. split; [| reflexivity].
  pose proof (int_of_decimal n Hn) as I1. pose proof (int_of_decimal m Hm) as I2.
  rewrite Hd in I1. congruence.
Qed.

Lemma decimal_first n :
  exists c s, decimal n = String c s /\ is_ascii_digit c = true.
Proof.
  pose proof (decimal_digits n) as Hd. pose proof (decimal_nonempty n) as Hne.
  destruct (decimal n) as [|c s]; [congruence |].
  exists c, s. simpl in Hd. apply andb_true_iff in Hd as [Hc _]. auto.
Qed.

Lemma str_of_int_inj_app n m r r' :
  delimited r -> delimited r' ->
  str_of_int n ++ r = str_of_int m ++ r' -> n = m /\ r = r'.
Proof.
  intros Hr Hr'. unfold str_of_int.
  destruct (Z.ltb_spec n 0) as [Hn | Hn], (Z.ltb_spec m 0) as [Hm | Hm]; intros H.
  - injection H as H.
    destruct (decimal_inj_app (- n) (- m) r r') as [? ?]; try lia; try assumption.
    split; [lia | assumption].
  - destruct (decimal_first m) as (c & s & Hc & Hd). rewrite Hc in H.
    injection H as <- _. discriminate.
  - destruct (decimal_first n) as (c & s & Hc & Hd). rewrite Hc in H.
    injection H as -> _. discriminate.
  - now apply decimal_inj_app.
Qed.

Lemma unescape_escape_char c X :
  JsonRead.unescape_char (escape_char c ++ X) = Some (c, X).
Proof.
  destruct c as [[] [] [] [] [] [] [] []]; vm_compute; reflexivity.
Qed.

Lemma unescape_quote X : JsonRead.unescape_char (String Py.dquote X) = None.
Proof. vm_compute. reflexivity. Qed.

Lemma escape_inj_app s : forall t X Y,
  escape s ++ String Py.dquote X = escape t ++ String Py.dquote Y ->
  s = t /\ X = Y.
Proof.
  induction s as [|c s IH]; intros [|c' t] X Y H.
  - change (String Py.dquote X = String Py.dquote Y) in H.
    injection H as ->. auto.
  - change (String Py.dquote X
            = (escape_char c' ++ escape t) ++ String Py.dquote Y) in H.
    rewrite append_assoc in H.
    apply (f_equal JsonRead.unescape_char) in H.
    rewrite unescape_quote, unescape_escape_char in H. discriminate.
  - change ((escape_char c ++ escape s) ++ String Py.dquote X
            = String Py.dquote Y) in H.
    rewrite append_assoc in H.
    apply (f_equal JsonRead.unescape_char) in H.
    rewrite unescape_quote, unescape_escape_char in H. discriminate.
  - change ((escape_char c ++ escape s) ++ String Py.dquote X
            = (escape_char c' ++ escape t) ++ String Py.dquote Y) in H.
    rewrite !append_assoc in H.
    apply (f_equal JsonRead.unescape_char) in H.
    rewrite !unescape_escape_char in H. injection H as -> H.
    destruct (IH _ _ _ H) as [-> ->]. auto.
Qed.

Lemma dumps_str_inj_app s t X Y :
  dumps_str s ++ X = dumps_str t ++ Y -> s = t /\ X = Y.
Proof.
  unfold dumps_str. intros H.
  change (String Py.dquote ((escape s ++ String Py.dquote EmptyString) ++ X)
          = String Py.dquote ((escape t ++ String Py.dquote EmptyString) ++ Y)) in H.
  injection H as H.
  rewrite !append_assoc in H. now apply escape_inj_app.
Qed.


Lemma dumps_first v :
  exists c s, dumps v = String c s /\ first_of v c = true.
Proof.
  destruct v as [|[]|n|s|l|d]; try (eexists; eexists; split; reflexivity).
  - cbn [dumps first_of]. unfold str_of_int. destruct (n <? 0).
    + eexists; eexists; split; reflexivity.
    + destruct (decimal_first n) as (c & s & -> & Hc).
      exists c, s. rewrite Hc. now rewrite orb_true_r.
Qed.

Lemma first_of_kind a b c :
  first_of a c = true -> first_of b c = true -> kind a = kind b.
Proof.
  destruct a as [|[]|?|?|?|?], b as [|[]|?|?|?|?]; cbn [first_of kind];
    try reflexivity; intros Ha Hb;
    repeat match goal with
      | H : Ascii.eqb _ _ = true |- _ => apply Ascii.eqb_eq in H; subst
      | H : _ || _ = true |- _ => apply orb_true_iff in H as [H | H]
      end;
    discriminate.
Qed.

Lemma dumps_same_kind a b r r' :
  dumps a ++ r = dumps b ++ r' -> kind a = kind b.
Proof.
  destruct (dumps_first a) as (c & s & -> & Ha).
  destruct (dumps_first b) as (c' & s' & -> & Hb).
  intros H. injection H as -> _. eapply first_of_kind; eassumption.
Qed.

Lemma first_of_not_closing v c :
  first_of v c = true ->
  c <> "]"%char /\ c <> "}"%char /\ c <> ","%char.
Proof.
  destruct v as [|[]|?|?|?|?]; cbn [first_of]; intros H;
    repeat match goal with
      | H : Ascii.eqb _ _ = true |- _ => apply Ascii.eqb_eq in H; subst
      | H : _ || _ = true |- _ => apply orb_true_iff in H as [H | H]
      end;
    repeat split; intros Hx; subst; try discriminate;
    vm_compute in H; discriminate.
Qed.

Lemma join_cons x l : join "," (x :: l) = x ++ tails l.
Proof.
  revert x. induction l as [|y l IH]; intros x.
  - cbn [join tails]. now rewrite append_nil_r.
  - change (join "," (x :: y :: l)) with (x ++ "," ++ join "," (y :: l)).
    rewrite IH. reflexivity.
Qed.

Section Sequences.

Context {A : Type} (pr : A -> string) (R : A -> A -> Prop) (close : ascii).

Hypothesis close_delimited : is_ascii_digit close = false.
Hypothesis close_not_comma : close <> ","%char.
Hypothesis pr_first :
  forall y, exists c s, pr y = String c s /\ c <> close.

Lemma tails_delimited l r : delimited (tails l ++ String close r).
Proof. destruct l; simpl; [exact close_delimited | reflexivity]. Qed.

Lemma tails_inj l : forall l' r r',
  Forall (readable pr R) l ->
  tails (map pr l) ++ String close r = tails (map pr l') ++ String close r' ->
  Forall2 R l l' /\ r = r'.
Proof.
  induction l as [|x l IH]; intros [|y l'] r r' HF H.
  - injection H as ->. auto.
  - cbn [map tails] in H.
    change (String close r
            = String "," ((pr y ++ tails (map pr l')) ++ String close r')) in H.
    injection H as Hc _. congruence.
  - cbn [map tails] in H.
    change (String "," ((pr x ++ tails (map pr l)) ++ String close r)
            = String close r') in H.
    injection H as Hc _. congruence.
  - cbn [map tails] in H.
    change (String "," ((pr x ++ tails (map pr l)) ++ String close r)
            = String "," ((pr y ++ tails (map pr l')) ++ String close r')) in H.
    injection H as H. rewrite !append_assoc in H.
    inversion HF as [|? ? Hx HF']; subst.
    destruct (Hx y _ _ (tails_delimited _ _) (tails_delimited _ _) H) as [Hxy Ht].
    destruct (IH _ _ _ HF' Ht) as [Hl ->]. auto.
Qed.

Lemma join_inj l l' r r' :
  Forall (readable pr R) l ->
  join "," (map pr l) ++ String close r = join "," (map pr l') ++ String close r' ->
  Forall2 R l l' /\ r = r'.
Proof.
  intros HF H. destruct l as [|x l], l' as [|y l'].
  - injection H as ->. auto.
  - cbn [map] in H. rewrite join_cons in H.
    destruct (pr_first y) as (c & s & Hy & Hc). rewrite Hy in H.
    injection H as Hcc _. congruence.
  - cbn [map] in H. rewrite join_cons in H.
    destruct (pr_first x) as (c & s & Hy & Hc). rewrite Hy in H.
    injection H as Hcc _. congruence.
  - cbn [map] in H. rewrite !join_cons, !append_assoc in H.
    inversion HF as [|? ? Hx HF']; subst.
    destruct (Hx y _ _ (tails_delimited _ _) (tails_delimited _ _) H) as [Hxy Ht].
    destruct (tails_inj _ _ _ _ HF' Ht) as [Hl ->]. auto.
Qed.

End Sequences.


Lemma item_str_first (y : string * value) :
  exists c s, item_str y = String c s /\ c <> "}"%char.
Proof.
  exists Py.dquote. eexists. split; [reflexivity | discriminate].
Qed.

Lemma dumps_first_not c0 :
  c0 = "]"%char \/ c0 = "}"%char ->
  forall y : value, exists c s, dumps y = String c s /\ c <> c0.
Proof.
  intros Hc y. destruct (dumps_first y) as (c & s & Hy & Hf).
  exists c, s. split; [exact Hy |].
  destruct (first_of_not_closing y c Hf) as (H1 & H2 & _).
  destruct Hc as [-> | ->]; assumption.
Qed.

(** A serialization is read in one way only. *)
Lemma dumps_inj_app a : forall b r r',
  delimited r -> delimited r' ->
  dumps a ++ r = dumps b ++ r' ->
  same_up_to_key_order a b /\ r = r'.
Proof.
  induction a as [|x0|n0|s0|l IH|d IH] using value_ind';
    intros b r r' Hr Hr' H; pose proof (dumps_same_kind _ _ _ _ H) as K;
    try destruct x0; destruct b as [|[]|n|s|l'|d']; try discriminate K.
  - simpl in H. injection H as ->. split; [constructor | reflexivity].
  - simpl in H. injection H as ->. split; [constructor | reflexivity].
  - simpl in H. injection H as ->. split; [constructor | reflexivity].
  - cbn [dumps] in H. destruct (str_of_int_inj_app _ _ _ _ Hr Hr' H) as [-> ->].
    split; [constructor | reflexivity].
  - cbn [dumps] in H. destruct (dumps_str_inj_app _ _ _ _ H) as [-> ->].
    split; [constructor | reflexivity].
  - rewrite !dumps_list in H.
    change (String "[" ((join "," (map dumps l) ++ "]") ++ r)
            = String "[" ((join "," (map dumps l') ++ "]") ++ r')) in H.
    injection H as H. rewrite !append_assoc in H.
    destruct (join_inj dumps same_up_to_key_order "]" eq_refl
                ltac:(discriminate) (dumps_first_not "]" ltac:(auto))
                l l' r r') as [HF ->]; [exact IH | exact H |].
    split; [now constructor | reflexivity].
  - rewrite !dumps_dict in H.
    change (String "{" ((join "," (map item_str (Py.sorted_by item_le d)) ++ "}") ++ r)
            = String "{" ((join "," (map item_str (Py.sorted_by item_le d')) ++ "}") ++ r'))
      in H.
    injection H as H. rewrite !append_assoc in H.
    destruct (join_inj item_str
                (fun x y => fst x = fst y /\ same_up_to_key_order (snd x) (snd y))
                "}" eq_refl ltac:(discriminate) item_str_first
                (Py.sorted_by item_le d) (Py.sorted_by item_le d') r r')
      as [HF ->]; [| exact H |].
    + eapply Permutation_Forall; [apply sorted_by_perm |].
      eapply Forall_impl; [| exact IH].
      intros [k v] Hv [k' v'] t t' Ht Ht' Heq. unfold item_str in Heq.
      cbn [fst snd] in *. rewrite !append_assoc in Heq.
      destruct (dumps_str_inj_app _ _ _ _ Heq) as [-> Heq'].
      change (String ":" (dumps v ++ t) = String ":" (dumps v' ++ t')) in Heq'.
      injection Heq' as Heq'.
      destruct (Hv v' t t' Ht Ht' Heq') as [Hs ->]. auto.
    + destruct (Permutation_Forall2
                  (Permutation_sym (sorted_by_perm item_le d)) HF)
        as (p & Hp & HF').
      split; [| reflexivity].
      apply (same_dict d d' p); [| exact HF'].
      rewrite <- Hp. symmetry. apply sorted_by_perm.
Qed.

Lemma dumps_inj a b : dumps a = dumps b -> same_up_to_key_order a b.
Proof.
  intros H. apply (dumps_inj_app a b EmptyString EmptyString I I).
  now rewrite !append_nil_r.
Qed.

(** What compare_parameters decides. *)
Lemma compare_parameters_same a b :
  unique_keys a = true ->
  (compare_parameters a b = true <-> same_up_to_key_order a b).
Proof.
  intros U. unfold compare_parameters. rewrite String.eqb_eq. split.
  - apply dumps_inj.
  - now apply same_dumps.
Qed.

End JsonFacts.



(** Reordered keys compare equal; a changed value does not. *)
Example compare_parameters_examples :
  compare_parameters
    (VDict [("alpha", VInt 1); ("nested", VDict [("x", VBool true); ("y", VStr "z")])])
    (VDict [("nested", VDict [("y", VStr "z"); ("x", VBool true)]); ("alpha", VInt 1)])
  = true
  /\ compare_parameters
       (VDict [("alpha", VInt 1); ("nested", VDict [("x", VBool true)])])
       (VDict [("alpha", VInt 1); ("nested", VDict [("x", VBool false)])])
     = false
  /\ compare_parameters (VDict [("alpha", VInt 1)]) (VDict [("alpha", VStr "1")])
     = false
  /\ compare_parameters (VDict [("alpha", VInt 1)]) (VDict [("alpha", VBool true)])
     = false.
Proof. repeat split; reflexivity. Qed.

(** ** The chain of filters *)

Section MonadFacts.

Lemma bind_lift {A B} (a : A) (f : A -> M B) w :
  bind (lift (inr a)) f w = f a w.
Proof. reflexivity. Qed.

Lemma bind_ret {A B} (a : A) (f : A -> M B) w : bind (ret a) f w = f a w.
Proof. reflexivity. Qed.

Lemma bind_bind {A B C} (m : M A) (f : A -> M B) (g : B -> M C) w :
  bind (bind m f) g w = bind m (fun a => bind (f a) g) w.
Proof. unfold bind. destruct (m w) as [[e | a] w']; reflexivity. Qed.

Lemma bind_info {B} icon message (f : unit -> M B) w :
  bind (info icon message) f w
  = f tt {| fs := fs w; log := (log w ++ [Info icon message])%list;
            fresh := fresh w |}.
Proof. reflexivity. Qed.

Lemma bind_next_fresh {B} (f : nat -> M B) w :
  bind next_fresh f w
  = f (fresh w) {| fs := fs w; log := log w; fresh := S (fresh w) |}.
Proof. reflexivity. Qed.

Lemma bind_is_file {B} path (f : bool -> M B) w :
  bind (is_file path) f w
  = f (match file_lookup path (fs w) with Some _ => true | None => false end) w.
Proof. reflexivity. Qed.

Lemma lookup_set_item_same k v (d : items) : lookup k (set_item k v d) = Some v.
Proof.
  induction d as [|[k' v'] d IH]; simpl.
  - now rewrite String.eqb_refl.
  - destruct (String.eqb k k') eqn:Hk; simpl; rewrite ?String.eqb_refl, ?Hk; auto.
Qed.

Lemma record_filters pd recorded name parameters :
  lookup "filters" pd = Some (VDict recorded) ->
  record (VDict pd) "filters" (VStr name) parameters
  = inr (VDict (set_item "filters" (VDict (set_item name parameters recorded)) pd)).
Proof.
  intros H. unfold record, get. cbn [Py.getitem]. rewrite H. reflexivity.
Qed.

End MonadFacts.

Section ChainFacts.

Variable E : environment.
Variable configuration : value.
Variable filters : items.
Variables begin end_ : Z.
Variables temporary_directory output_path : string.

Hypothesis Hfilters : get configuration "filters" = inr (VDict filters).
Hypothesis Hdefault : forall f i o b e p, filters_default_apply E f i o b e p = true.
Hypothesis Harbiter :
  forall f i o b e p, filters_arbiter_saturation_apply E f i o b e p = true.

Lemma table_get_filters type :
  type = "default" \/ type = "arbiter_saturation" ->
  exists apply,
    table_get (FILTERS E) (VStr type) = inr apply
    /\ forall f i o b e p, apply f i o b e p = true.
Proof.
  intros [-> | ->]; eexists; (split; [reflexivity |]); simpl; auto.
Qed.

Lemma bind_apply_filter {B} type apply input output parameters
    (f : unit -> M B) w :
  (forall f i o b e p, apply f i o b e p = true) ->
  bind (apply_filter (VStr type) apply input output begin end_ parameters) f w
  = f tt {| fs := file_write output Data (fs w);
            log := (log w ++ [ApplyFilter type input output begin end_ parameters])%list;
            fresh := fresh w |}.
Proof.
  intros Hok. unfold apply_filter, bind, emit, get_fs, set_fs. cbn.
  now rewrite Hok.
Qed.

Lemma chain_loop_step name rest count index input pd recorded last w
    type icon suffix parameters :
  lookup name filters
  = Some (VDict [("type", VStr type); ("icon", icon); ("suffix", suffix);
                 ("parameters", parameters)]) ->
  type = "default" \/ type = "arbiter_saturation" ->
  lookup "filters" pd = Some (VDict recorded) ->
  let output :=
    if index =? count - 1 then with_suffix output_path ".part"
    else Path.div temporary_directory (uuid4 E (fresh w) ++ ".es") in
  chain_loop E configuration temporary_directory output_path begin end_ count
    (VStr name :: rest) index input (VDict pd) last w
  = chain_loop E configuration temporary_directory output_path begin end_ count
      rest (index + 1) output
      (VDict (set_item "filters" (VDict (set_item name parameters recorded)) pd))
      index
      {| fs := file_write output Data (fs w);
         log := (log w ++ [Info (Py.str icon) ("apply filter " ++ name);
                           ApplyFilter type input output begin end_ parameters])%list;
         fresh := if index =? count - 1 then fresh w else S (fresh w) |}.
Proof.
  intros Hname Htype Hrec output. subst output.
  destruct (table_get_filters type Htype) as (apply & Happly & Hok).
  cbn [chain_loop].
  destruct (index =? count - 1).
  - rewrite bind_ret. rewrite Hfilters, bind_lift.
    cbn [Py.getitem]. rewrite Hname, bind_lift.
    cbn [get Py.getitem lookup String.eqb Ascii.eqb Bool.eqb].
    rewrite bind_lift, bind_info, bind_lift, Happly, bind_lift, bind_lift.
    rewrite bind_apply_filter by exact Hok.
    rewrite bind_lift, (record_filters _ _ _ _ Hrec), bind_lift.
    cbn [log fs fresh Py.str]. rewrite <- app_assoc. reflexivity.
  - rewrite bind_bind, bind_next_fresh, bind_ret. rewrite Hfilters, bind_lift.
    cbn [Py.getitem]. rewrite Hname, bind_lift.
    cbn [get Py.getitem lookup String.eqb Ascii.eqb Bool.eqb].
    rewrite bind_lift, bind_info, bind_lift, Happly, bind_lift, bind_lift.
    rewrite bind_apply_filter by exact Hok.
    rewrite bind_lift, (record_filters _ _ _ _ Hrec), bind_lift.
    cbn [log fs fresh Py.str]. rewrite <- app_assoc. reflexivity.
Qed.


Lemma filter_configured_paths name :
  filter_configured filters name ->
  exists type icon suffix parameters,
    lookup name filters
    = Some (VDict [("type", VStr type); ("icon", icon); ("suffix", suffix);
                   ("parameters", parameters)])
    /\ (type = "default" \/ type = "arbiter_saturation")
    /\ lookup_path [name; "icon"] (VDict filters) = Some icon
    /\ lookup_path [name; "type"] (VDict filters) = Some (VStr type)
    /\ lookup_path [name; "parameters"] (VDict filters) = Some parameters.
Proof.
  intros (type & icon & suffix & parameters & Hl & Ht).
  exists type, icon, suffix, parameters. cbn [lookup_path]. rewrite Hl.
  repeat split; auto.
Qed.

(** The loop of the chain, when every filter returns: every filter is
    invoked, in order. *)
Lemma chain_loop_run first count names : forall index input pd recorded last w k,
  Forall (filter_configured filters) names ->
  lookup "filters" pd = Some (VDict recorded) ->
  count = index + Z.of_nat (List.length names) ->
  fresh w = (first + k)%nat ->
  exists pd' w',
    chain_loop E configuration temporary_directory output_path begin end_ count
      (map VStr names) index input (VDict pd) last w
    = (inr (VDict pd', match names with [] => last | _ => count - 1 end), w')
    /\ log w'
       = (log w
            ++ chain_events filters begin end_
                 (fun j => Path.div temporary_directory (uuid4 E (first + j) ++ ".es"))
                 (with_suffix output_path ".part") names k input)%list
    /\ lookup "filters" pd' = Some (VDict (chain_snapshots filters names recorded))
    /\ (names <> [] ->
        file_lookup (with_suffix output_path ".part") (fs w') = Some Data).
Proof.
  induction names as [|name rest IH]; intros index input pd recorded last w k HF Hrec Hc Hk.
  - exists pd, w. cbn. rewrite app_nil_r. repeat split; auto. congruence.
  - apply Forall_cons_iff in HF as [Hname HF'].
    destruct (filter_configured_paths name Hname)
      as (type & icon & suffix & parameters & Hl & Ht & Pi & Pt & Pp).
    cbn [map]. rewrite (chain_loop_step name _ _ index input pd recorded last w
                          type icon suffix parameters Hl Ht Hrec).
    cbn [chain_events chain_snapshots]. rewrite Pi, Pt, Pp. cbn [Py.str].
    destruct rest as [|name' rest'].
    + replace (index =? count - 1) with true
        by (symmetry; apply Z.eqb_eq; cbn [List.length] in Hc; lia).
      replace (count - 1) with index by (cbn [List.length] in Hc; lia).
      eexists. eexists. cbn [map chain_loop ret]. split; [| split; [| split]].
      * reflexivity.
      * reflexivity.
      * cbn [chain_snapshots]. apply lookup_set_item_same.
      * intros _. cbn [fs file_write file_lookup]. now rewrite String.eqb_refl.
    + replace (index =? count - 1) with false
        by (symmetry; apply Z.eqb_neq; cbn [List.length] in Hc; lia).
      match goal with
      | |- context [chain_loop _ _ _ _ _ _ _ _ _ ?i ?p _ ?w1] =>
          destruct (IH (index + 1) i
                      (set_item "filters" (VDict (set_item name parameters recorded)) pd)
                      (set_item name parameters recorded) index w1 (S k)
                      HF' (lookup_set_item_same _ _ _)
                      ltac:(cbn [List.length] in *; lia)
                      ltac:(cbn [fresh]; lia))
            as (pd' & w' & Hrun & Hlog & Hsnap & Hfile)
      end.
      exists pd', w'. split; [| split; [| split]].
      * exact Hrun.
      * rewrite Hlog. cbn [log]. rewrite <- app_assoc. rewrite Hk. reflexivity.
      * exact Hsnap.
      * intros _. apply Hfile. discriminate.
Qed.

Lemma lookup_existsb name (d : items) :
  existsb (String.eqb name) (keys d)
  = match lookup name d with Some _ => true | None => false end.
Proof.
  induction d as [|[k v] d IH]; simpl; [reflexivity |].
  destruct (String.eqb name k); [reflexivity | exact IH].
Qed.

(** The test of the chain: every filter has a snapshot equal to its
    configured parameters. *)
Lemma all_snapshots_match_spec pd recorded names :
  Forall (filter_configured filters) names ->
  lookup "filters" pd = Some (VDict recorded) ->
  Forall (fun kv => unique_keys (snd kv) = true) recorded ->
  exists b,
    all_snapshots_match configuration (VDict pd) (map VStr names) = inr b
    /\ (b = true <->
        Forall (fun name =>
                  exists snapshot configured,
                    lookup name recorded = Some snapshot
                    /\ lookup_path [name; "parameters"] (VDict filters) = Some configured
                    /\ same_up_to_key_order snapshot configured)
          names).
Proof.
  intros HF Hrec HU. induction names as [|name rest IH].
  - exists true. split; [reflexivity | split; auto].
  - inversion HF as [|? ? Hname HF']; subst.
    destruct (IH HF') as (b & Hb & Hiff).
    destruct (filter_configured_paths name Hname)
      as (type & icon & suffix & parameters & Hl & Ht & Pi & Pt & Pp).
    cbn [map all_snapshots_match]. unfold get at 1. cbn [Py.getitem].
    rewrite Hrec. cbn [ebind Py.contains]. rewrite lookup_existsb.
    destruct (lookup name recorded) as [snapshot|] eqn:Hsnap.
    + cbn [ebind]. unfold get at 1. cbn [Py.getitem]. rewrite Hrec.
      cbn [ebind Py.getitem]. rewrite Hsnap. cbn [ebind]. rewrite Hfilters.
      cbn [ebind Py.getitem].
      rewrite Hl. cbn [ebind get Py.getitem lookup String.eqb Ascii.eqb Bool.eqb].
      assert (unique_keys snapshot = true) as Us.
      { clear - HU Hsnap. induction recorded as [|[k v] d IHd]; [discriminate |].
        simpl in Hsnap. inversion HU; subst.
        destruct (String.eqb name k); [now injection Hsnap as <- | auto]. }
      pose proof (JsonFacts.compare_parameters_same snapshot parameters Us) as Hcmp.
      destruct (compare_parameters snapshot parameters) eqn:Hc.
      * exists b. split; [exact Hb |]. rewrite Hiff. split.
        -- intros Hall. constructor; [| exact Hall].
           exists snapshot, parameters. repeat split; auto. now apply Hcmp.
        -- intros Hall. now apply Forall_cons_iff in Hall as [_ Hall].
      * exists false. split; [reflexivity |]. split; [discriminate |].
        intros Hall.
        apply Forall_cons_iff in Hall as [(s' & c' & Hs' & Hc' & Hsame) _].
        rewrite Hsnap in Hs'. rewrite Pp in Hc'.
        injection Hs' as <-. injection Hc' as <-.
        apply Hcmp in Hsame. congruence.
    + cbn [ebind]. exists false. split; [reflexivity |]. split; [discriminate |].
      intros Hall. apply Forall_cons_iff in Hall as [(s' & c' & Hs' & _) _].
      congruence.
Qed.


Lemma emap_as_path names : emap as_path (map VStr names) = inr names.
Proof.
  induction names as [|n names IH]; cbn [map emap]; [reflexivity |].
  cbn [as_path ebind]. now rewrite IH.
Qed.

Lemma rename_run source target c w :
  file_lookup source (fs w) = Some c ->
  rename source target w
  = (inr tt, {| fs := file_write target c (file_remove source (fs w));
                log := (log w ++ [Rename source target])%list;
                fresh := fresh w |}).
Proof.
  intros H. unfold rename, bind, get_fs, emit, set_fs. cbn. now rewrite H.
Qed.

Lemma save_parameters_run path parameters w :
  exists f,
    save_parameters path parameters w
    = (inr tt, {| fs := f;
                  log := (log w ++ [Dump (Path.with_suffix path ".part") parameters;
                                    Rename (Path.with_suffix path ".part") path])%list;
                  fresh := fresh w |}).
Proof.
  unfold save_parameters, bind, get_fs, emit, set_fs. cbn.
  unfold rename, bind, get_fs, emit, set_fs. cbn.
  rewrite String.eqb_refl. cbn. eexists. rewrite <- app_assoc. reflexivity.
Qed.

Lemma file_lookup_cleanup directory path (f : files) :
  prefix directory path = false ->
  file_lookup path (filter (fun pc => negb (prefix directory (fst pc))) f)
  = file_lookup path f.
Proof.
  intros Hp. induction f as [|[p c] f IH]; cbn [filter file_lookup fst]; [reflexivity |].
  destruct (prefix directory p) eqn:Hd; cbn [negb file_lookup].
  - destruct (String.eqb_spec path p) as [-> | _]; [congruence | exact IH].
  - destruct (String.eqb path p); [reflexivity | exact IH].
Qed.

Lemma with_temporary_directory_run {A} suffix (body : string -> M A) w r w' :
  body (mkdtemp E (fresh w) suffix)
    {| fs := fs w; log := log w; fresh := S (fresh w) |} = (r, w') ->
  with_temporary_directory E (VStr suffix) body w
  = (r, {| fs := filter (fun pc => negb (prefix (mkdtemp E (fresh w) suffix ++ "/")
                                           (fst pc))) (fs w');
           log := log w'; fresh := fresh w' |}).
Proof.
  intros H. unfold with_temporary_directory, bind, lift, next_fresh. cbn.
  now rewrite H.
Qed.

End ChainFacts.

(** C5: a chain of two or more filters is all or nothing.  With the filters
    configured, collaborators that return, and the final artifact outside
    the temporary directory: when the chain is up to date (no force, every
    filter with a snapshot equal to its configured parameters up to the
    order of keys, final artifact present) nothing is invoked and the state
    is left as it is; in every other case every filter of the chain is
    invoked, the first on the original source, each next one on the scratch
    file written by the one before, the last one writing the temporary name
    of the final artifact, which is then renamed, and the state is saved
    with the parameters of every filter of the chain. *)
Theorem chain_all_or_nothing (E : environment) (force : bool)
    (configuration job : value) (filters sources pd recorded : items)
    (names : list string) (job_name source : string)
    (output_path parameters_path : string) (begin end_ index : Z) (w : world) :
  get configuration "filters" = inr (VDict filters) ->
  get configuration "sources" = inr (VDict sources) ->
  lookup job_name sources = Some (VStr source) ->
  get job "name" = inr (VStr job_name) ->
  get job "filters" = inr (VList (map VStr names)) ->
  (2 <= List.length names)%nat ->
  Forall (filter_configured filters) names ->
  lookup "filters" pd = Some (VDict recorded) ->
  Forall (fun kv => unique_keys (snd kv) = true) recorded ->
  (forall f i o b e p, filters_default_apply E f i o b e p = true) ->
  (forall f i o b e p, filters_arbiter_saturation_apply E f i o b e p = true) ->
  prefix (mkdtemp E (fresh w) job_name ++ "/") (with_suffix output_path ".part")
  = false ->
  (chain_up_to_date force filters recorded names output_path (fs w) ->
   filter_chain E force configuration job (VDict pd) output_path parameters_path
     begin end_ index w
   = (inr (VDict pd, index),
      {| fs := fs w;
         log := (log w ++ [Info "⏭ " ("skip filters " ++ PyStr.join " + " names)])%list;
         fresh := fresh w |}))
  /\ (~ chain_up_to_date force filters recorded names output_path (fs w) ->
      exists pd' w',
        filter_chain E force configuration job (VDict pd) output_path
          parameters_path begin end_ index w
        = (inr (VDict pd', Z.of_nat (List.length names) - 1), w')
        /\ log w'
           = (log w
                ++ chain_events filters begin end_
                     (fun j => Path.div (mkdtemp E (fresh w) job_name)
                                 (uuid4 E (S (fresh w) + j) ++ ".es"))
                     (with_suffix output_path ".part") names 0 source
                ++ [Rename (with_suffix output_path ".part") output_path;
                    Dump (Path.with_suffix parameters_path ".part") (VDict pd');
                    Rename (Path.with_suffix parameters_path ".part") parameters_path])%list
        /\ lookup "filters" pd'
           = Some (VDict (chain_snapshots filters names recorded))).
Proof.
  intros Hfilters Hsources Hsource Hname Hjob Hlen HF Hrec HU Hdef Harb Htmp.
  destruct (all_snapshots_match_spec configuration filters Hfilters pd recorded
              names HF Hrec HU) as (b & Hb & Hiff).
  assert (forall skip,
             skip = false ->
             exists pd' w',
               (do skip0 <- ret skip ;;
                if (skip0 : bool) then
                  do job_filters <- lift (let? l := get job "filters" in Py.iter l) ;;
                  do names0 <- lift (emap as_path job_filters) ;;
                  do _ <- info "⏭ " ("skip filters " ++ PyStr.join " + " names0) ;;
                  ret (VDict pd, index)
                else
                  do job_name0 <- lift (get job "name") ;;
                  do r <-
                    with_temporary_directory E job_name0
                      (fun temporary_directory =>
                         do input <-
                           lift (let? sources0 := get configuration "sources" in
                                 let? name := get job "name" in
                                 let? source0 := Py.getitem sources0 name in
                                 as_path source0) ;;
                         do job_filters <- lift (let? l := get job "filters" in Py.iter l) ;;
                         do count <- lift (let? l := get job "filters" in Py.len l) ;;
                         chain_loop E configuration temporary_directory output_path
                           begin end_ count job_filters 0 input (VDict pd) index) ;;
                  do _ <- rename (with_suffix output_path ".part") output_path ;;
                  do _ <- save_parameters parameters_path (fst r) ;;
                  ret r) w
               = (inr (VDict pd', Z.of_nat (List.length names) - 1), w')
               /\ log w'
                  = (log w
                       ++ chain_events filters begin end_
                            (fun j => Path.div (mkdtemp E (fresh w) job_name)
                                        (uuid4 E (S (fresh w) + j) ++ ".es"))
                            (with_suffix output_path ".part") names 0 source
                       ++ [Rename (with_suffix output_path ".part") output_path;
                           Dump (Path.with_suffix parameters_path ".part") (VDict pd');
                           Rename (Path.with_suffix parameters_path ".part")
                             parameters_path])%list
               /\ lookup "filters" pd'
                  = Some (VDict (chain_snapshots filters names recorded))) as Hrun.
  { intros skip ->.
    destruct (chain_loop_run E configuration filters begin end_
                (mkdtemp E (fresh w) job_name) output_path Hfilters Hdef Harb
                (S (fresh w)) (Z.of_nat (List.length (map VStr names))) names
                0 source pd recorded index
                {| fs := fs w; log := log w; fresh := S (fresh w) |} 0%nat
                HF Hrec ltac:(rewrite length_map; lia) ltac:(cbn [fresh]; lia))
      as (pd' & w1 & Hloop & Hlog & Hsnap & Hfile).
    destruct names as [|n0 names0]; [cbn [List.length] in Hlen; lia |].
    specialize (Hfile ltac:(discriminate)).
    set (w2 := {| fs := file_write output_path Data
                          (file_remove (with_suffix output_path ".part")
                             (filter (fun pc => negb (prefix (mkdtemp E (fresh w) job_name ++ "/")
                                                        (fst pc))) (fs w1)));
                  log := (log w1 ++ [Rename (with_suffix output_path ".part") output_path])%list;
                  fresh := fresh w1 |}).
    destruct (save_parameters_run parameters_path (VDict pd') w2) as (f & Hsave).
    exists pd'. eexists. split; [| split; [| exact Hsnap]].
    - rewrite bind_ret. cbv beta iota.
      rewrite Hname, bind_lift.
      unfold bind at 1.
      erewrite with_temporary_directory_run.
      2:{ cbv beta. rewrite Hsources. cbn [ebind Py.getitem].
          rewrite Hsource. cbn [ebind as_path]. rewrite bind_lift.
          rewrite Hjob. cbn [ebind Py.iter Py.len]. rewrite !bind_lift.
          exact Hloop. }
      unfold bind at 1.
      erewrite rename_run.
      2:{ cbn [fs]. rewrite file_lookup_cleanup by exact Htmp. exact Hfile. }
      unfold bind at 1. cbn [fst fs log fresh].
      fold w2. rewrite Hsave. cbn [ret]. rewrite length_map. reflexivity.
    - cbn [log]. unfold w2. cbn [log]. rewrite Hlog. cbn [log].
      rewrite <- !app_assoc. reflexivity. }
  unfold filter_chain. split.
  - intros (Hforce & Hall & Hfile). subst force. cbn [negb].
    rewrite bind_bind, Hjob. cbn [ebind Py.iter]. rewrite bind_lift.
    rewrite bind_bind, Hb, bind_lift.
    replace b with true by (symmetry; now apply Hiff).
    cbv iota. rewrite bind_is_file.
    destruct (file_lookup output_path (fs w)) eqn:Hf; [| congruence].
    cbv iota. rewrite bind_lift, emap_as_path, bind_lift.
    rewrite bind_info. reflexivity.
  - intros Hnot.
    destruct (Hrun false eq_refl) as (pd' & w' & H1 & H2 & H3).
    exists pd', w'. split; [| split; [exact H2 | exact H3]].
    rewrite Hjob in H1.
    destruct force.
    + cbn [negb]. rewrite Hjob. exact H1.
    + cbn [negb]. rewrite bind_bind, Hjob. cbn [ebind Py.iter]. rewrite bind_lift.
      rewrite bind_bind, Hb, bind_lift.
      destruct b.
      * rewrite bind_is_file.
        destruct (file_lookup output_path (fs w)) eqn:Hf.
        -- exfalso. apply Hnot. split; [reflexivity | split].
           ++ now apply Hiff.
           ++ congruence.
        -- exact H1.
      * exact H1.
Qed.

Lemma chain_all_or_nothing_witness :
  (chain_up_to_date false split_filters stale_snapshots ["default"; "as-1"]
     chain_output (fs stale_world) ->
   filter_chain sample_environment false chain_configuration chain_job
     (VDict stale_state) chain_output chain_parameters 0 1000000 0 stale_world
   = (inr (VDict stale_state, 0),
      {| fs := fs stale_world;
         log := (log stale_world
                   ++ [Info "⏭ " ("skip filters "
                                   ++ PyStr.join " + " ["default"; "as-1"])])%list;
         fresh := fresh stale_world |}))
  /\ (~ chain_up_to_date false split_filters stale_snapshots ["default"; "as-1"]
         chain_output (fs stale_world) ->
      exists pd' w',
        filter_chain sample_environment false chain_configuration chain_job
          (VDict stale_state) chain_output chain_parameters 0 1000000 0 stale_world
        = (inr (VDict pd', Z.of_nat (List.length ["default"; "as-1"]) - 1), w')
        /\ log w'
           = (log stale_world
                ++ chain_events split_filters 0 1000000
                     (fun j => Path.div (mkdtemp sample_environment (fresh stale_world) "rec")
                                 (uuid4 sample_environment (S (fresh stale_world) + j)
                                    ++ ".es"))
                     (with_suffix chain_output ".part") ["default"; "as-1"] 0
                     "/data/rec.es"
                ++ [Rename (with_suffix chain_output ".part") chain_output;
                    Dump (Path.with_suffix chain_parameters ".part") (VDict pd');
                    Rename (Path.with_suffix chain_parameters ".part") chain_parameters])%list
        /\ lookup "filters" pd'
           = Some (VDict (chain_snapshots split_filters ["default"; "as-1"]
                            stale_snapshots))).
Proof.
  apply (chain_all_or_nothing sample_environment false chain_configuration chain_job
           split_filters [("rec", VStr "/data/rec.es")] stale_state stale_snapshots
           ["default"; "as-1"] "rec" "/data/rec.es" chain_output chain_parameters
           0 1000000 0 stale_world).
  - reflexivity.
  - reflexivity.
  - reflexivity.
  - reflexivity.
  - reflexivity.
  - simpl. lia.
  - repeat constructor.
    + exists "default", (VStr "F"), (VStr EmptyString), (VDict []). auto.
    + exists "arbiter_saturation", (VStr "F"), (VStr "as1"),
        (VDict [("threshold", VInt 1)]). auto.
  - reflexivity.
  - repeat constructor.
  - reflexivity.
  - reflexivity.
  - reflexivity.
Defined.

(** The specification's example: two filters, the parameters of the second
    one changed since the last run, no force, final artifact present: both
    filters are invoked again, the first one on the original source. *)
Example chain_rerun_after_change :
  log (snd (filter_chain sample_environment false chain_configuration chain_job
              (VDict stale_state) chain_output chain_parameters 0 1000000 0
              stale_world))
  = [Info "F" "apply filter default";
     ApplyFilter "default" "/data/rec.es" "/tmp/tmp0rec/uuid1.es" 0 1000000
       (VDict []);
     Info "F" "apply filter as-1";
     ApplyFilter "arbiter_saturation" "/tmp/tmp0rec/uuid1.es"
       "/work/renders/rec-b0-e1-as1/rec-b0-e1-as1.es.part" 0 1000000
       (VDict [("threshold", VInt 1)]);
     Rename "/work/renders/rec-b0-e1-as1/rec-b0-e1-as1.es.part"
       "/work/renders/rec-b0-e1-as1/rec-b0-e1-as1.es";
     Dump "/work/renders/rec-b0-e1-as1/parameters.part"
       (VDict [("source", VStr "/data/rec.es");
               ("filters", VDict [("default", VDict []);
                                  ("as-1", VDict [("threshold", VInt 1)])]);
               ("tasks", VDict []);
               ("attachments", VDict [])]);
     Rename "/work/renders/rec-b0-e1-as1/parameters.part"
       "/work/renders/rec-b0-e1-as1/parameters.toml"].
Proof. reflexivity. Qed.

(** The run command on the same job, twice from nothing: the second run
    invokes no filter. *)
Example chain_second_run_skips :
  let configuration :=
    sample_configuration [sample_job "rec" ["default"; "as-1"] []] (VDict []) in
  let first := snd (run sample_environment false configuration empty_world) in
  let second :=
    run sample_environment false configuration
      {| fs := fs first; log := []; fresh := fresh first |} in
  fst second = inr tt
  /\ log (snd second)
     = [Info "📁" ("output directory " ++ q ++ "/work/renders" ++ q
                    ++ String "010"%char EmptyString);
        Mkdir "/work/renders";
        Mkdir "/work/renders/rec-b0-e1-as1";
        Info "*" "1/1 rec-b0-e1-as1";
        Info "⏭ " "skip filters default + as-1"].
Proof. cbv zeta. split; reflexivity. Qed.

(** ** Replacement of one occurrence *)

Module ReplaceFacts.
Import PyStr DecimalFacts.


Lemma prefix_nil s : prefix EmptyString s = true.
Proof. destruct s; reflexivity. Qed.

Lemma prefix_cons a p b s :
  prefix (String a p) (String b s) = Ascii.eqb a b && prefix p s.
Proof.
  simpl. destruct (ascii_dec a b) as [-> | Hn].
  - now rewrite Ascii.eqb_refl.
  - apply Ascii.eqb_neq in Hn. now rewrite Hn.
Qed.

Lemma prefix_app p : forall s x, prefix p s = true -> prefix p (s ++ x) = true.
Proof.
  induction p as [|a p IH]; intros s x H; [apply prefix_nil |].
  destruct s as [|b s]; [discriminate |].
  cbn [String.append]. rewrite prefix_cons in *.
  apply andb_true_iff in H as [-> H]. now rewrite IH.
Qed.

Lemma prefix_self p x : prefix p (p ++ x) = true.
Proof.
  induction p as [|a p IH]; [apply prefix_nil |].
  cbn [String.append]. now rewrite prefix_cons, Ascii.eqb_refl.
Qed.

Lemma prefix_length p : forall s,
  prefix p s = true -> (String.length p <= String.length s)%nat.
Proof.
  induction p as [|a p IH]; intros s H; [simpl; lia |].
  destruct s as [|b s]; [discriminate |].
  rewrite prefix_cons in H. apply andb_true_iff in H as [_ H].
  simpl. apply IH in H. lia.
Qed.

Lemma has_char_drop c n : forall s,
  has_char c (drop n s) = true -> has_char c s = true.
Proof.
  induction n as [|n IH]; intros s H; [exact H |].
  destruct s as [|a s]; [discriminate |].
  simpl in *. rewrite (IH _ H). apply orb_true_r.
Qed.

(** A match that starts before a character [c] and goes on beyond it has
    [c] inside. *)
Lemma prefix_straddle c y a2 : forall p,
  prefix p (a2 ++ String c y) = true ->
  prefix p a2 = true \/ has_char c (drop (String.length a2) p) = true.
Proof.
  induction a2 as [|a a2 IH]; intros p H.
  - destruct p as [|x p]; [left; reflexivity |].
    cbn [String.append] in H. rewrite prefix_cons in H.
    apply andb_true_iff in H as [Hx _]. apply Ascii.eqb_eq in Hx. subst.
    right. simpl. now rewrite Ascii.eqb_refl.
  - destruct p as [|x p]; [left; reflexivity |].
    cbn [String.append] in H. rewrite prefix_cons in H.
    apply andb_true_iff in H as [Hx H].
    destruct (IH _ H) as [Hp | Hc].
    + left. now rewrite prefix_cons, Hx, Hp.
    + right. exact Hc.
Qed.

Section Boundary.

Variables old new : string.

(** When no match starts in [a] and goes on into [x], the two are replaced
    apart. *)
Lemma replace_go_boundary a : forall x k,
  (forall a1 a2, a = a1 ++ a2 -> a2 <> EmptyString ->
                 prefix old (a2 ++ x) = true -> prefix old a2 = true) ->
  (k <= String.length a)%nat ->
  replace_go old new (a ++ x) k
  = replace_go old new a k ++ replace_go old new x 0.
Proof.
  induction a as [|c a IH]; intros x k NS Hk.
  - simpl in Hk. assert (k = O) as -> by lia. reflexivity.
  - assert (forall a1 a2, a = a1 ++ a2 -> a2 <> EmptyString ->
                          prefix old (a2 ++ x) = true -> prefix old a2 = true) as NS'.
    { intros a1 a2 -> Hne. apply (NS (String c a1) a2); [reflexivity | exact Hne]. }
    cbn [String.append replace_go]. destruct k as [|k].
    + destruct (prefix old (String c (a ++ x))) eqn:Hp.
      * pose proof (NS EmptyString (String c a) eq_refl ltac:(discriminate) Hp) as Hp'.
        rewrite Hp'. rewrite IH; [now rewrite append_assoc | exact NS' |].
        apply prefix_length in Hp'. simpl in Hp'. lia.
      * destruct (prefix old (String c a)) eqn:Hp'.
        -- apply (prefix_app _ _ x) in Hp'. cbn [String.append] in Hp'. congruence.
        -- cbn [String.append]. rewrite IH; [reflexivity | exact NS' | lia].
    + apply IH; [exact NS' | simpl in Hk; lia].
Qed.

Lemma replace_go_skip x : forall y,
  replace_go old new (x ++ y) (String.length x) = replace_go old new y 0.
Proof. induction x as [|c x IH]; intros y; [reflexivity | apply IH]. Qed.

Lemma replace_nonempty c0 rest s :
  old = String c0 rest -> replace old new s = replace_go old new s 0.
Proof. intros H. unfold replace. now rewrite H. Qed.

End Boundary.

(** One occurrence of [old], whose first character is not among the
    others: what is before it and what is after it are replaced apart. *)
Lemma replace_occurrence old new c0 rest pre post :
  old = String c0 rest -> has_char c0 rest = false ->
  replace old new (pre ++ old ++ post)
  = replace old new pre ++ new ++ replace old new post.
Proof.
  intros Hold Hc. rewrite !(replace_nonempty old new c0 rest _ Hold).
  rewrite replace_go_boundary; [| | lia].
  - f_equal. subst old. cbn [String.append replace_go].
    change (String c0 (rest ++ post)) with (String c0 rest ++ post).
    rewrite prefix_self. f_equal.
    replace (String.length (String c0 rest) - 1)%nat with (String.length rest)
      by (simpl; lia).
    apply replace_go_skip.
  - intros a1 a2 -> Hne Hp. subst old. cbn [String.append] in Hp.
    destruct (prefix_straddle c0 (rest ++ post) a2 _ Hp) as [H | H]; [exact H |].
    destruct a2 as [|x a2]; [congruence |]. cbn [String.length drop] in H.
    apply has_char_drop in H. congruence.
Qed.

(** A text with no character of [old], and not starting any match: what
    is before it and what is after it are replaced apart. *)
Lemma replace_barrier old new o0 orest c1 m a b :
  old = String o0 orest ->
  has_char c1 old = false ->
  has_char o0 (String c1 m) = false ->
  replace old new (a ++ String c1 m ++ b)
  = replace old new a ++ String c1 m ++ replace old new b.
Proof.
  intros Hold Hc Ho. rewrite !(replace_nonempty old new o0 orest _ Hold).
  rewrite replace_go_boundary; [| | lia].
  - f_equal. generalize (String c1 m) Ho. clear Ho Hc.
    intros t. induction t as [|c t IH]; intros Ho; [reflexivity |].
    cbn [String.append replace_go].
    replace (prefix old (String c (t ++ b))) with false.
    + f_equal. apply IH. simpl in Ho. now apply orb_false_iff in Ho as [_ Ho].
    + symmetry. subst old. rewrite prefix_cons.
      simpl in Ho. apply orb_false_iff in Ho as [Ho _]. now rewrite Ho.
  - intros a1 a2 -> Hne Hp. cbn [String.append] in Hp.
    destruct (prefix_straddle c1 (m ++ b) a2 _ Hp) as [H | H]; [exact H |].
    apply has_char_drop in H. congruence.
Qed.

Lemma has_char_app c a b : has_char c (a ++ b) = has_char c a || has_char c b.
Proof.
  induction a as [|x a IH]; simpl; [reflexivity |].
  now rewrite IH, orb_assoc.
Qed.


(** With [threshold10] = 99 and [threshold] = 1, an occurrence of
    [@threshold10] in a string, wherever it is, comes out as [99]. *)
Lemma threshold10_occurrence pre post :
  recursive_replace_value "threshold" (VInt 1)
    (recursive_replace_value "threshold10" (VInt 99)
       (VStr (pre ++ "@threshold10" ++ post)))
  = VStr (both pre ++ "99" ++ both post).
Proof.
  assert (String.eqb (pre ++ "@threshold10" ++ post) "@raw(threshold10)" = false) as E1.
  { apply String.eqb_neq. intros H. destruct pre as [|c pre].
    - discriminate H.
    - injection H as _ H. apply (f_equal (has_char "@")) in H.
      rewrite has_char_app in H. simpl in H. rewrite orb_true_r in H. discriminate. }
  cbn [recursive_replace_value].
  change ("@raw(" ++ "threshold10" ++ ")") with "@raw(threshold10)".
  rewrite E1.
  change ("@" ++ "threshold10") with "@threshold10".
  change (Py.str (VInt 99)) with "99".
  rewrite (replace_occurrence "@threshold10" "99" "@" "threshold10" pre post
             eq_refl eq_refl).
  cbn [recursive_replace_value].
  change ("@raw(" ++ "threshold" ++ ")") with "@raw(threshold)".
  assert (String.eqb (replace "@threshold10" "99" pre ++ "99"
                        ++ replace "@threshold10" "99" post) "@raw(threshold)"
          = false) as E2.
  { apply String.eqb_neq. intros H. apply (f_equal (has_char "9")) in H.
    rewrite has_char_app in H. simpl in H. rewrite orb_true_r in H. discriminate. }
  rewrite E2.
  change ("@" ++ "threshold") with "@threshold".
  change (Py.str (VInt 1)) with "1".
  change ("99" ++ replace "@threshold10" "99" post)
    with (String "9" "9" ++ replace "@threshold10" "99" post).
  rewrite (replace_barrier "@threshold" "1" "@" "threshold" "9" "9" _ _
             eq_refl eq_refl eq_refl).
  reflexivity.
Qed.

End ReplaceFacts.

(** C8: the parameters are applied in the order of descending name length,
    whatever their order in the mapping.  With [threshold] (value 1) and
    [threshold10] (value 99), in either order, a template field comes out
    as the substitution of [threshold10] followed by the substitution of
    [threshold]; if the field is a string with an occurrence of
    [@threshold10], the occurrence comes out as [99], whatever is before
    and after it; the other order of substitution would have turned
    [as@threshold10] into [as110]. *)
Theorem placeholder_precedence :
  (forall parameters : items,
      Permutation parameters (parameters_names_and_values parameters)
      /\ StronglySorted
           (fun a b => (String.length (fst b) <= String.length (fst a))%nat)
           (parameters_names_and_values parameters))
  /\ (forall (field : value) (parameters : items),
        parameters = [("threshold", VList [VInt 1]); ("threshold10", VList [VInt 99])]
        \/ parameters = [("threshold10", VList [VInt 99]); ("threshold", VList [VInt 1])] ->
        run_generators
          (VDict [("filters", VDict []);
                  ("filters-generators", VList [prefix_generator parameters field])])
        = inr (VDict
                 [("filters",
                   VDict [("entry",
                           VDict [("field",
                                   recursive_replace_value "threshold" (VInt 1)
                                     (recursive_replace_value "threshold10" (VInt 99)
                                        field))])])]))
  /\ (forall pre post : string,
        recursive_replace_value "threshold" (VInt 1)
          (recursive_replace_value "threshold10" (VInt 99)
             (VStr (pre ++ "@threshold10" ++ post)))
        = VStr (both pre ++ "99" ++ both post))
  /\ recursive_replace_value "threshold10" (VInt 99)
       (recursive_replace_value "threshold" (VInt 1) (VStr "as@threshold10"))
     = VStr "as110".
Proof.
  split; [exact parameters_longest_first |].
  split; [| split; [exact ReplaceFacts.threshold10_occurrence | reflexivity]].
  intros field parameters [-> | ->]; reflexivity.
Qed.

Lemma placeholder_precedence_witness :
  run_generators
    (VDict [("filters", VDict []);
            ("filters-generators",
             VList [prefix_generator
                      [("threshold", VList [VInt 1]); ("threshold10", VList [VInt 99])]
                      (VStr "as@threshold10")])])
  = inr (VDict [("filters", VDict [("entry", VDict [("field", VStr "as99")])])]).
Proof.
  exact (proj1 (proj2 placeholder_precedence) (VStr "as@threshold10") _
           (or_introl eq_refl)).
Defined.

(** * Further properties of render.py *)

(** ** Timecodes *)

Module TimecodeFields.
Import PyStr DecimalFacts.

Lemma int_acc_digits s : forall a v,
  int_acc s a = Some v -> forallb_str is_ascii_digit s = true.
Proof.
  induction s as [|c s IH]; simpl; intros a v H; [reflexivity |].
  destruct (is_ascii_digit c); [| discriminate]. simpl. eauto.
Qed.

Lemma int_of_digits_digits s n :
  int_of_digits s = Some n ->
  forallb_str is_ascii_digit s = true /\ s <> EmptyString.
Proof.
  unfold int_of_digits. destruct s as [|c s]; [discriminate |].
  intros H. split; [eapply int_acc_digits; exact H | discriminate].
Qed.

Lemma int_acc_app a : forall b acc,
  int_acc (a ++ b) acc
  = match int_acc a acc with Some v => int_acc b v | None => None end.
Proof.
  induction a as [|c a IH]; simpl; intros b acc; [reflexivity |].
  destruct (is_ascii_digit c); [apply IH | reflexivity].
Qed.

Lemma int_acc_pad k : forall v,
  int_acc (repeat_char "0" k) v = Some (v * 10 ^ Z.of_nat k).
Proof.
  induction k as [|k IH]; intros v.
  - simpl. f_equal. lia.
  - cbn [repeat_char int_acc]. change (is_ascii_digit "0") with true.
    cbv iota. rewrite IH. f_equal. change (digit_val "0") with 0.
    rewrite Nat2Z.inj_succ, Z.pow_succ_r by lia. lia.
Qed.

(** [int(s + "0" * k)] *)
Lemma int_of_digits_pad s n k :
  int_of_digits s = Some n ->
  int_of_digits (s ++ repeat_char "0" k) = Some (n * 10 ^ Z.of_nat k).
Proof.
  unfold int_of_digits. destruct s as [|c s]; [discriminate |].
  intros H. change (String c s ++ repeat_char "0" k)
    with (String c (s ++ repeat_char "0" k)).
  change (int_acc (String c s ++ repeat_char "0" k) 0
          = Some (n * 10 ^ Z.of_nat k)).
  rewrite int_acc_app, H. apply int_acc_pad.
Qed.

Lemma int_or_raise_some s n : int_of_digits s = Some n -> int_or_raise s = inr n.
Proof. unfold int_or_raise. now intros ->. Qed.


Lemma digits1_tail ds newline :
  forallb_str is_ascii_digit ds = true -> ds <> EmptyString ->
  digits1 (ds ++ newline_or_nothing newline)
  = Some (ds, newline_or_nothing newline).
Proof.
  intros Hd Hne. destruct newline; simpl.
  - now apply digits1_stop.
  - rewrite append_nil_r. now apply digits1_all.
Qed.

Lemma TIMECODE_PATTERN_match_whole h m s newline :
  forallb_str is_ascii_digit h = true -> h <> EmptyString ->
  forallb_str is_ascii_digit m = true -> m <> EmptyString ->
  forallb_str is_ascii_digit s = true -> s <> EmptyString ->
  TIMECODE_PATTERN_match (h ++ ":" ++ m ++ ":" ++ s ++ newline_or_nothing newline)
  = Some (h, m, s, None).
Proof.
  intros Hh Nh Hm Nm Hs Ns. unfold TIMECODE_PATTERN_match.
  change (h ++ ":" ++ m ++ ":" ++ s ++ newline_or_nothing newline)
    with (h ++ String ":" (m ++ String ":" (s ++ newline_or_nothing newline))).
  rewrite (digits1_stop h) by (assumption || reflexivity).
  rewrite expect_head.
  rewrite (digits1_stop m) by (assumption || reflexivity).
  rewrite expect_head.
  rewrite digits1_tail by assumption.
  now destruct newline.
Qed.

Lemma TIMECODE_PATTERN_match_fraction h m s f newline :
  forallb_str is_ascii_digit h = true -> h <> EmptyString ->
  forallb_str is_ascii_digit m = true -> m <> EmptyString ->
  forallb_str is_ascii_digit s = true -> s <> EmptyString ->
  forallb_str is_ascii_digit f = true -> f <> EmptyString ->
  TIMECODE_PATTERN_match
    (h ++ ":" ++ m ++ ":" ++ s ++ "." ++ f ++ newline_or_nothing newline)
  = Some (h, m, s, Some f).
Proof.
  intros Hh Nh Hm Nm Hs Ns Hf Nf. unfold TIMECODE_PATTERN_match.
  change (h ++ ":" ++ m ++ ":" ++ s ++ "." ++ f ++ newline_or_nothing newline)
    with (h ++ String ":" (m ++ String ":"
            (s ++ String "." (f ++ newline_or_nothing newline)))).
  rewrite (digits1_stop h) by (assumption || reflexivity).
  rewrite expect_head.
  rewrite (digits1_stop m) by (assumption || reflexivity).
  rewrite expect_head.
  rewrite (digits1_stop s) by (assumption || reflexivity).
  rewrite expect_head.
  rewrite digits1_tail by assumption.
  now destruct newline.
Qed.

Lemma isdigit_colon h r : isdigit (h ++ ":" ++ r) = false.
Proof. now apply (isdigit_separator h ":" r). Qed.

Lemma isdigit_point h r : isdigit (h ++ "." ++ r) = false.
Proof. now apply (isdigit_separator h "." r). Qed.

(** The fields of a timecode, read position by position. *)
Lemma timecode_fields (E : environment) (h m s f : string)
    (H M S F : Z) (newline : bool) :
  PyStr.int_of_digits h = Some H ->
  PyStr.int_of_digits m = Some M ->
  PyStr.int_of_digits s = Some S ->
  PyStr.int_of_digits f = Some F ->
  (String.length f <= 6)%nat ->
  timecode E (VStr (h ++ ":" ++ m ++ ":" ++ s ++ newline_or_nothing newline))
  = inr (H * 3600000000 + M * 60000000 + S * 1000000)
  /\ timecode E (VStr (h ++ ":" ++ m ++ ":" ++ s ++ "." ++ f
                        ++ newline_or_nothing newline))
     = inr (H * 3600000000 + M * 60000000 + S * 1000000
            + F * 10 ^ (6 - Z.of_nat (String.length f))).
Proof.
  intros Hh Hm Hs Hf Hlen.
  destruct (int_of_digits_digits _ _ Hh) as [Dh Nh].
  destruct (int_of_digits_digits _ _ Hm) as [Dm Nm].
  destruct (int_of_digits_digits _ _ Hs) as [Ds Ns].
  destruct (int_of_digits_digits _ _ Hf) as [Df Nf].
  unfold timecode, timecode_str. split.
  - rewrite isdigit_colon.
    rewrite TIMECODE_PATTERN_match_whole by assumption.
    now rewrite (int_or_raise_some _ _ Hh),
      (int_or_raise_some _ _ Hm),
      (int_or_raise_some _ _ Hs).
  - rewrite isdigit_colon.
    rewrite TIMECODE_PATTERN_match_fraction by assumption.
    rewrite (int_or_raise_some _ _ Hh),
      (int_or_raise_some _ _ Hm),
      (int_or_raise_some _ _ Hs).
    destruct (Nat.eqb_spec (String.length f) 6) as [E6 | N6].
    + rewrite (int_or_raise_some _ _ Hf), E6. f_equal.
      change (10 ^ (6 - Z.of_nat 6)) with 1. lia.
    + destruct (Nat.ltb_spec (String.length f) 6) as [L6 | G6]; [| lia].
      rewrite (int_or_raise_some _ _
                 (int_of_digits_pad f F _ Hf)).
      f_equal. replace (Z.of_nat (6 - String.length f))
        with (6 - Z.of_nat (String.length f)) by lia. reflexivity.
Qed.

End TimecodeFields.

(** X1: [timecode] reads a string [h:m:s] or [h:m:s.f] of decimal digits
    position by position, as hours, minutes, seconds and a fraction of a
    second that is padded with zeros on the right to six digits when it has
    at most six.  The minutes and seconds are not bounded by 60, and a
    newline at the end of the string is accepted. *)
Theorem timecode_reads_fields (E : environment) (h m s f : string)
    (H M S F : Z) (newline : bool) :
  PyStr.int_of_digits h = Some H ->
  PyStr.int_of_digits m = Some M ->
  PyStr.int_of_digits s = Some S ->
  PyStr.int_of_digits f = Some F ->
  (String.length f <= 6)%nat ->
  timecode E (VStr (h ++ ":" ++ m ++ ":" ++ s ++ newline_or_nothing newline))
  = inr (H * 3600000000 + M * 60000000 + S * 1000000)
  /\ timecode E (VStr (h ++ ":" ++ m ++ ":" ++ s ++ "." ++ f
                        ++ newline_or_nothing newline))
     = inr (H * 3600000000 + M * 60000000 + S * 1000000
            + F * 10 ^ (6 - Z.of_nat (String.length f))).
Proof. apply TimecodeFields.timecode_fields. Qed.

Lemma timecode_reads_fields_witness :
  timecode sample_environment (VStr ("0:90:07" ++ newline_or_nothing true))
  = inr (0 * 3600000000 + 90 * 60000000 + 7 * 1000000)
  /\ timecode sample_environment
       (VStr ("0:90:07.25" ++ newline_or_nothing true))
     = inr (0 * 3600000000 + 90 * 60000000 + 7 * 1000000
            + 25 * 10 ^ (6 - Z.of_nat (String.length "25"))).
Proof.
  apply (timecode_reads_fields sample_environment "0" "90" "07" "25"
           0 90 7 25 true); try reflexivity.
  simpl. lia.
Defined.

Module StripFacts.
Import PyStr DecimalFacts.

Lemma rev_acc_app s : forall acc, rev_acc s acc = rev s ++ acc.
Proof.
  unfold rev. induction s as [|c s IH]; simpl; intros acc; [reflexivity |].
  rewrite IH, (IH (String c EmptyString)), append_assoc. reflexivity.
Qed.

Lemma rev_cons c s : rev (String c s) = rev s ++ String c EmptyString.
Proof. unfold rev at 1. simpl. apply rev_acc_app. Qed.

Lemma rev_app a b : rev (a ++ b) = rev b ++ rev a.
Proof.
  induction a as [|c a IH]; simpl.
  - now rewrite append_nil_r.
  - now rewrite !rev_cons, IH, append_assoc.
Qed.

Lemma rev_rev s : rev (rev s) = s.
Proof.
  induction s as [|c s IH]; [reflexivity |].
  now rewrite rev_cons, rev_app, IH.
Qed.

Lemma rev_repeat c k : rev (repeat_char c k) = repeat_char c k.
Proof.
  induction k as [|k IH]; [reflexivity |].
  cbn [repeat_char]. rewrite rev_cons, IH. clear IH.
  induction k as [|k IH]; simpl; [reflexivity | now rewrite IH].
Qed.

(** What [lstrip] leaves: the string without its leading run of [c]. *)
Lemma lstrip_char_spec c s :
  exists k, s = repeat_char c k ++ lstrip_char c s
            /\ (lstrip_char c s = EmptyString
                \/ exists x r, lstrip_char c s = String x r /\ x <> c).
Proof.
  induction s as [|a s (k & Hs & Hr)]; simpl.
  - exists O. auto.
  - destruct (Ascii.eqb_spec a c) as [-> | Hne].
    + exists (S k). simpl. now rewrite <- Hs.
    + exists O. split; [reflexivity |]. right. eauto.
Qed.

(** What [rstrip] leaves: the string without its trailing run of [c]. *)
Lemma rstrip_char_spec c s :
  exists k, s = rstrip_char c s ++ repeat_char c k
            /\ (rstrip_char c s = EmptyString
                \/ exists r x, rstrip_char c s = r ++ String x EmptyString
                               /\ x <> c).
Proof.
  unfold rstrip_char.
  destruct (lstrip_char_spec c (rev s)) as (k & Hs & Hr).
  exists k. split.
  - rewrite <- (rev_rev s) at 1. rewrite Hs at 1.
    now rewrite rev_app, rev_repeat.
  - destruct Hr as [-> | (x & r & -> & Hx)]; [now left | right].
    exists (rev r), x. now rewrite rev_cons.
Qed.

End StripFacts.

Section ShortTimecodeFacts.
Import PyStr DecimalFacts TimecodeFields StripFacts.

Variable E : environment.

Lemma str_of_int_nonneg n : 0 <= n -> str_of_int n = decimal n.
Proof. intros H. unfold str_of_int. destruct (Z.ltb_spec n 0); [lia | reflexivity]. Qed.

Lemma isdigit_digits d :
  forallb_str is_ascii_digit d = true -> d <> EmptyString -> isdigit d = true.
Proof.
  intros Hd Hne. unfold isdigit. destruct d as [|c d]; [congruence |].
  clear Hne. revert Hd. generalize (String c d). intros s.
  induction s as [|a s IH]; simpl; [reflexivity |].
  intros H. apply andb_true_iff in H as [Ha Hs].
  unfold isdigit_char. rewrite Ha. simpl. auto.
Qed.

(** The fraction of a short timecode: the six digits of the microseconds
    without their trailing zeros. *)
Lemma short_fraction u :
  0 < u < 1000000 ->
  exists f F,
    rstrip_char "0" ("." ++ format_0d 6 u) = "." ++ f
    /\ int_of_digits f = Some F
    /\ (String.length f <= 6)%nat
    /\ F * 10 ^ (6 - Z.of_nat (String.length f)) = u.
Proof.
  intros Hu.
  destruct (format_0d_spec 6 u ltac:(lia)) as (Du & Nu & Iu).
  pose proof (format_0d_length 6 u ltac:(simpl; lia) ltac:(lia)) as Lu.
  destruct (rstrip_char_spec "0" ("." ++ format_0d 6 u)) as (k & Hs & _).
  destruct (rstrip_char "0" ("." ++ format_0d 6 u)) as [|a f].
  - destruct k; discriminate.
  - simpl in Hs. injection Hs as <- Hf.
    assert (String.length f + k = 6)%nat as Hlen.
    { rewrite <- Lu, Hf, length_append, repeat_char_length. reflexivity. }
    destruct f as [|c f].
    + simpl in Hf. rewrite Hf in Iu. unfold int_of_digits in Iu.
      destruct k; [discriminate |].
      rewrite <- (append_nil_r (repeat_char "0" (S k))), int_acc_zeros in Iu.
      simpl in Iu. injection Iu as <-. lia.
    + rewrite Hf in Iu. unfold int_of_digits in Iu.
      change (int_acc (String c f ++ repeat_char "0" k) 0 = Some u) in Iu.
      rewrite int_acc_app in Iu.
      destruct (int_acc (String c f) 0) as [F|] eqn:HF; [| discriminate].
      rewrite int_acc_pad in Iu. injection Iu as Iu.
      exists (String c f), F. repeat split; [exact HF | lia |].
      replace (6 - Z.of_nat (String.length (String c f))) with (Z.of_nat k) by lia.
      exact Iu.
Qed.


Lemma short_timecode_hours h m s u :
  0 < h -> 0 <= m -> 0 <= s -> 0 <= u < 1000000 ->
  timecode E
    (VStr (str_of_int h ++ ":" ++ format_0d 2 m ++ ":" ++ format_0d 2 s
             ++ (if u =? 0 then EmptyString
                 else rstrip_char "0" ("." ++ format_0d 6 u))))
  = inr (h * 3600000000 + m * 60000000 + s * 1000000 + u).
Proof.
  intros Hh Hm Hs Hu. rewrite str_of_int_nonneg by lia.
  pose proof (int_of_decimal h ltac:(lia)) as Ih.
  destruct (format_0d_spec 2 m Hm) as (_ & _ & Im).
  destruct (format_0d_spec 2 s Hs) as (_ & _ & Is).
  destruct (Z.eqb_spec u 0) as [-> | Hnz].
  - pose proof (timecode_fields E _ _ _ "0" _ _ _ 0 false Ih Im Is
                  eq_refl ltac:(simpl; lia)) as [H _].
    simpl newline_or_nothing in H. rewrite H. f_equal. lia.
  - destruct (short_fraction u ltac:(lia)) as (f & F & -> & If & Lf & HF).
    pose proof (timecode_fields E _ _ _ f _ _ _ F false Ih Im Is If Lf)
      as [_ H].
    simpl newline_or_nothing in H. rewrite append_nil_r in H.
    rewrite H, HF. reflexivity.
Qed.

Lemma short_timecode_minutes m s ts :
  0 <= m -> 0 <= s ->
  ts = EmptyString \/ (exists f, ts = "." ++ f) ->
  exists message,
    timecode E (VStr (str_of_int m ++ ":" ++ format_0d 2 s ++ ts))
    = inl (ArgumentTypeError message).
Proof.
  intros Hm Hs Hts. rewrite str_of_int_nonneg by lia.
  destruct (format_0d_spec 2 s Hs) as (Ds & Ns & _).
  unfold timecode, timecode_str. rewrite isdigit_colon.
  assert (TIMECODE_PATTERN_match (decimal m ++ ":" ++ format_0d 2 s ++ ts) = None)
    as ->; [| eauto].
  unfold TIMECODE_PATTERN_match.
  change (decimal m ++ ":" ++ format_0d 2 s ++ ts)
    with (decimal m ++ String ":" (format_0d 2 s ++ ts)).
  rewrite (digits1_stop (decimal m))
    by (apply decimal_digits || apply decimal_nonempty || reflexivity).
  rewrite expect_head.
  destruct Hts as [-> | (f & ->)].
  - rewrite append_nil_r, digits1_all by assumption. reflexivity.
  - change (format_0d 2 s ++ "." ++ f) with (format_0d 2 s ++ String "." f).
    rewrite digits1_stop by (assumption || reflexivity). reflexivity.
Qed.

Lemma short_timecode_fraction_only s f :
  0 <= s ->
  exists message,
    timecode E (VStr (str_of_int s ++ "." ++ f)) = inl (ArgumentTypeError message).
Proof.
  intros Hs. rewrite str_of_int_nonneg by lia.
  unfold timecode, timecode_str. rewrite isdigit_point.
  assert (TIMECODE_PATTERN_match (decimal s ++ "." ++ f) = None) as ->; [| eauto].
  unfold TIMECODE_PATTERN_match.
  change (decimal s ++ "." ++ f) with (decimal s ++ String "." f).
  rewrite (digits1_stop (decimal s))
    by (apply decimal_digits || apply decimal_nonempty || reflexivity).
  reflexivity.
Qed.

Lemma short_timecode_seconds s :
  0 <= s -> timecode E (VStr (str_of_int s ++ EmptyString)) = inr s.
Proof.
  intros Hs. rewrite str_of_int_nonneg, append_nil_r by lia.
  unfold timecode, timecode_str.
  rewrite isdigit_digits by (apply decimal_digits || apply decimal_nonempty).
  apply int_or_raise_some, int_of_decimal, Hs.
Qed.

End ShortTimecodeFacts.

(** X2: the short timecode of a non-negative timestamp, which names the
    directory of a job, is read back by [timecode] as the same timestamp
    exactly when the timestamp is 0 or at least one hour.  Below an hour
    the short form has fewer than two colons: it is refused, or, for whole
    seconds, read as a number of microseconds. *)
Theorem short_timecode_reads_back (E : environment) (t : Z) :
  0 <= t ->
  (timecode E (VStr (timestamp_to_short_timecode t)) = inr t
   <-> t = 0 \/ 3600000000 <= t).
Proof.
  intros Ht. unfold timestamp_to_short_timecode.
  set (h := t / (60 * 60 * 1000000)).
  set (t1 := t - h * 60 * 60 * 1000000).
  set (m := t1 / (60 * 1000000)).
  set (t2 := t1 - m * 60 * 1000000).
  set (s := t2 / 1000000).
  set (u := t2 - s * 1000000).
  assert (0 <= h) as Hh by (apply Z.div_pos; lia).
  assert (0 <= t1 < 3600000000) as Ht1.
  { unfold t1, h. pose proof (Z.mod_pos_bound t (60 * 60 * 1000000) ltac:(lia)).
    pose proof (Z.div_mod t (60 * 60 * 1000000) ltac:(lia)). lia. }
  assert (0 <= m) as Hm by (apply Z.div_pos; lia).
  assert (0 <= t2 < 60000000) as Ht2.
  { unfold t2, m. pose proof (Z.mod_pos_bound t1 (60 * 1000000) ltac:(lia)).
    pose proof (Z.div_mod t1 (60 * 1000000) ltac:(lia)). lia. }
  assert (0 <= s) as Hs by (apply Z.div_pos; lia).
  assert (0 <= u < 1000000) as Hu.
  { unfold u, s. pose proof (Z.mod_pos_bound t2 1000000 ltac:(lia)).
    pose proof (Z.div_mod t2 1000000 ltac:(lia)). lia. }
  assert (t = h * 3600000000 + m * 60000000 + s * 1000000 + u) as Hsum
    by (unfold u, t2, t1; lia).
  assert (h = 0 <-> t < 3600000000) as Hh0.
  { unfold h. split; intros H.
    - pose proof (Z.mod_pos_bound t (60 * 60 * 1000000) ltac:(lia)).
      pose proof (Z.div_mod t (60 * 60 * 1000000) ltac:(lia)). lia.
    - apply Z.div_small. lia. }
  destruct (Z.gtb_spec h 0) as [Hpos | Hzero].
  - rewrite short_timecode_hours by lia. rewrite <- Hsum.
    split; [intros _; right; lia | reflexivity].
  - assert (h = 0) as Hh' by lia. apply Hh0 in Hh'.
    assert (exists f, u <> 0 ->
              PyStr.rstrip_char "0" ("." ++ PyStr.format_0d 6 u) = "." ++ f)
      as (f & Hf).
    { destruct (Z.eq_dec u 0) as [Hz | Hnz]; [exists EmptyString; lia |].
      destruct (short_fraction u ltac:(lia)) as (f & _ & -> & _). eauto. }
    destruct (Z.gtb_spec m 0) as [Hmpos | Hmzero].
    + destruct (short_timecode_minutes E m s
                  (if u =? 0 then EmptyString
                   else PyStr.rstrip_char "0" ("." ++ PyStr.format_0d 6 u))
                  Hm Hs) as (message & ->).
      { destruct (Z.eqb_spec u 0); [now left | right; eauto]. }
      split; [discriminate | lia].
    + destruct (Z.eqb_spec u 0) as [Hz | Hnz].
      * rewrite short_timecode_seconds by lia.
        split; [intros [= H]; lia | intros [-> | H]; [| lia]].
        reflexivity.
      * rewrite Hf by assumption.
        destruct (short_timecode_fraction_only E s f Hs) as (message & ->).
        split; [discriminate | lia].
Qed.

Lemma short_timecode_reads_back_witness :
  timecode sample_environment (VStr (timestamp_to_short_timecode 3723500000))
  = inr 3723500000
  <-> 3723500000 = 0 \/ 3600000000 <= 3723500000.
Proof. apply short_timecode_reads_back. lia. Defined.

(** ** Generators *)

Section GeneratorSteps.

Lemma ebind_inr {A B} (m : exn + A) (f : A -> exn + B) b :
  ebind m f = inr b -> exists a, m = inr a /\ f a = inr b.
Proof. destruct m as [e | a]; simpl; [discriminate | eauto]. Qed.

Lemma get_inr v key x :
  get v key = inr x -> exists d, v = VDict d /\ lookup key d = Some x.
Proof.
  unfold get. destruct v as [| | | s | l | d]; simpl; try discriminate.
  destruct (lookup key d) as [y|] eqn:H; [| discriminate].
  intros [= <-]. eauto.
Qed.

Lemma get_dict d key :
  get (VDict d) key
  = match lookup key d with Some x => inr x | None => inl (KeyError key) end.
Proof. reflexivity. Qed.

(** What one generated entry does to the configuration: a job is put at
    the end of the jobs, a filter or a task is put under a name that was
    not there. *)
Lemma generate_entry_inr key generator names c vals c' :
  generate_entry key generator names c vals = inr c' ->
  exists d old,
    c = VDict d /\ lookup key d = Some old
    /\ ((String.eqb key "jobs" = true
         /\ exists l e, old = VList l
                        /\ c' = VDict (set_item key (VList (l ++ [e])) d))
        \/ (String.eqb key "jobs" = false
            /\ exists col name e,
                 old = VDict col
                 /\ existsb (String.eqb name) (keys col) = false
                 /\ c' = VDict (set_item key (VDict (col ++ [(name, e)])) d))).
Proof.
  unfold generate_entry. intros H.
  apply ebind_inr in H as (template & _ & H).
  apply ebind_inr in H as ([name0 entry0] & _ & H).
  apply ebind_inr in H as ([name entry] & _ & H).
  apply ebind_inr in H as (old & Hold & H).
  apply get_inr in Hold as (d & -> & Hold).
  exists d, old. split; [reflexivity | split; [exact Hold |]].
  destruct (String.eqb key "jobs") eqn:Hk.
  - left. split; [reflexivity |].
    apply ebind_inr in H as (col' & Happ & H).
    destruct old; try discriminate. injection Happ as <-.
    simpl in H. injection H as <-. eauto.
  - right. split; [reflexivity |].
    apply ebind_inr in H as (present & Hp & H).
    destruct present; [apply ebind_inr in H as (? & _ & H); discriminate |].
    destruct name as [| | | name | |]; try discriminate.
    apply ebind_inr in H as (col' & Hset & H).
    destruct old as [| | | | | col]; try discriminate.
    simpl in Hp. injection Hp as Hp. simpl in Hset. injection Hset as <-.
    simpl in H. injection H as <-.
    rewrite (set_item_absent _ _ _ Hp). eauto 10.
Qed.

End GeneratorSteps.

Section GrownFacts.

Lemma grown_refl v : grown 0 v v.
Proof.
  destruct v; simpl; auto; exists []; rewrite app_nil_r; auto.
Qed.

Lemma existsb_eqb_In k (l : list string) :
  existsb (String.eqb k) l = true <-> In k l.
Proof.
  rewrite existsb_exists. split.
  - intros (x & Hx & He). apply String.eqb_eq in He. now subst.
  - intros H. exists k. split; [exact H | apply String.eqb_refl].
Qed.

Lemma grown_trans n m a b c : grown n a b -> grown m b c -> grown (n + m) a c.
Proof.
  destruct a, b; simpl; intros Hab;
    try (destruct Hab as [_ Hab]; discriminate Hab);
    destruct c; simpl; intros Hbc;
    try (destruct Hbc as [_ Hbc]; discriminate Hbc);
    try (destruct Hab as [-> Hab]; destruct Hbc as [-> Hbc];
         split; [reflexivity | congruence]).
  - destruct Hab as (x & -> & Hx), Hbc as (y & -> & Hy). exists (x ++ y)%list.
    now rewrite app_assoc, length_app, Hx, Hy.
  - destruct Hab as (x & -> & Hx & Fx), Hbc as (y & -> & Hy & Fy).
    exists (x ++ y)%list.
    rewrite app_assoc, length_app, Hx, Hy. repeat split.
    apply Forall_app. split; [exact Fx |].
    eapply Forall_impl; [| exact Fy]. intros kv H. cbv beta in *.
    rewrite existsb_keys_app in H. now apply orb_false_iff in H.
Qed.

Lemma lookup_app_left name (a b : items) v :
  lookup name a = Some v -> lookup name (a ++ b)%list = Some v.
Proof.
  induction a as [|[k x] a IH]; simpl; [discriminate |].
  destruct (String.eqb name k); auto.
Qed.

Lemma grown_extends n old new : grown n old new -> extends old new.
Proof.
  destruct old, new; simpl; intros H; try (destruct H as [_ H]; exact H).
  - destruct H as (added & -> & _). eauto.
  - destruct H as (added & -> & _). intros name v. apply lookup_app_left.
Qed.

Lemma extends_refl v : extends v v.
Proof. apply (grown_extends 0), grown_refl. Qed.

Lemma extends_trans a b c : extends a b -> extends b c -> extends a c.
Proof.
  destruct a, b; simpl; intros Hab; try discriminate Hab;
    destruct c; simpl; intros Hbc; try discriminate Hbc; try congruence.
  - destruct Hab as (x & ->), Hbc as (y & ->). exists (x ++ y)%list.
    now rewrite app_assoc.
  - auto.
Qed.

Lemma lookup_set_item_other k key v (d : items) :
  String.eqb k key = false -> lookup k (set_item key v d) = lookup k d.
Proof.
  intros Hk. induction d as [|[k' x] d IH]; simpl.
  - now rewrite Hk.
  - destruct (String.eqb key k') eqn:He; simpl.
    + apply String.eqb_eq in He. subst k'. now rewrite Hk.
    + now rewrite IH.
Qed.

Lemma lookup_set_item_present key v (d : items) x :
  lookup key d = Some x -> lookup key (set_item key v d) = Some v.
Proof. intros _. apply lookup_set_item_same. Qed.

Lemma keys_set_item_present key v (d : items) x :
  lookup key d = Some x -> keys (set_item key v d) = keys d.
Proof.
  induction d as [|[k' y] d IH]; simpl; [discriminate |].
  destruct (String.eqb key k') eqn:He.
  - apply String.eqb_eq in He. now subst.
  - intros H. simpl. now rewrite IH.
Qed.

Lemma lookup_del_item_other k key (d : items) :
  String.eqb k key = false -> lookup k (del_item key d) = lookup k d.
Proof.
  intros Hk. induction d as [|[k' x] d IH]; simpl; [reflexivity |].
  destruct (String.eqb key k') eqn:He; simpl.
  - apply String.eqb_eq in He. subst k'. now rewrite Hk.
  - now rewrite IH.
Qed.

End GrownFacts.

Section GeneratorInvariants.

Lemma efold_rel {A S} (R : S -> S -> Prop) (f : S -> A -> exn + S) :
  (forall s, R s s) ->
  (forall a b c, R a b -> R b c -> R a c) ->
  (forall s x s', f s x = inr s' -> R s s') ->
  forall l s s', efold f l s = inr s' -> R s s'.
Proof.
  intros Hrefl Htrans Hstep. induction l as [|x l IH]; simpl; intros s s' H.
  - injection H as <-. apply Hrefl.
  - apply ebind_inr in H as (s1 & H1 & H). eauto.
Qed.

Lemma generate_entry_generated key generator names c vals c' :
  generate_entry key generator names c vals = inr c' -> generated key 1 c c'.
Proof.
  intros H. apply generate_entry_inr in H as (d & old & -> & Hold & H).
  assert (forall x, exists d',
            VDict (set_item key x d) = VDict d' /\ keys d' = keys d
            /\ (forall k, String.eqb k key = false -> lookup k d' = lookup k d)
            /\ lookup key d' = Some x) as Hset.
  { intros x. exists (set_item key x d). repeat split.
    - eapply keys_set_item_present, Hold.
    - intros k Hk. now apply lookup_set_item_other.
    - apply lookup_set_item_same. }
  destruct H as [(_ & l & e & -> & ->) | (_ & col & name & e & -> & Hname & ->)].
  - destruct (Hset (VList (l ++ [e]))) as (d' & -> & Hk & Ho & Hn).
    exists d, d', (VList l), (VList (l ++ [e])). repeat split; auto.
    simpl. eauto.
  - destruct (Hset (VDict (col ++ [(name, e)]))) as (d' & -> & Hk & Ho & Hn).
    exists d, d', (VDict col), (VDict (col ++ [(name, e)])). repeat split; auto.
    simpl. exists [(name, e)]. repeat split. constructor; [exact Hname | constructor].
Qed.

Lemma generated_trans key n m a b c :
  generated key n a b -> generated key m b c -> generated key (n + m) a c.
Proof.
  intros (d & d1 & old & mid & -> & -> & Hk & Ho & Hold & Hmid & Hg)
         (d1' & d2 & mid' & new & [= <-] & -> & Hk' & Ho' & Hmid' & Hnew & Hg').
  rewrite Hmid in Hmid'. injection Hmid' as <-.
  exists d, d2, old, new. repeat split; auto.
  - congruence.
  - intros k H. rewrite Ho', Ho by exact H. reflexivity.
  - eapply grown_trans; eassumption.
Qed.

(** The entries of one generator, one for each row of values. *)
Lemma efold_generate_entry key generator names : forall rows c c',
  efold (generate_entry key generator names) rows c = inr c' ->
  (rows = [] /\ c' = c) \/ generated key (List.length rows) c c'.
Proof.
  induction rows as [|row rows IH]; simpl; intros c c' H.
  - injection H as <-. now left.
  - right. apply ebind_inr in H as (c1 & H1 & H).
    apply generate_entry_generated in H1.
    destruct (IH _ _ H) as [[-> ->] | Hg].
    + exact H1.
    + apply (generated_trans key 1 (List.length rows) c c1 c'); assumption.
Qed.

Lemma kept_refl c : kept c c.
Proof.
  intros d ->. exists d. repeat split. intros key old H. exists old.
  split; [exact H | apply extends_refl].
Qed.

Lemma kept_trans a b c : kept a b -> kept b c -> kept a c.
Proof.
  intros Hab Hbc d Hd. destruct (Hab d Hd) as (d1 & H1 & K1 & L1).
  destruct (Hbc d1 H1) as (d2 & H2 & K2 & L2).
  exists d2. repeat split; [exact H2 | congruence |].
  intros key old H. destruct (L1 key old H) as (mid & Hm & Em).
  destruct (L2 key mid Hm) as (new & Hn & En).
  exists new. split; [exact Hn | eapply extends_trans; eassumption].
Qed.

Lemma generated_kept key n c c' : generated key n c c' -> kept c c'.
Proof.
  intros (d & d' & old & new & -> & -> & Hk & Ho & Hold & Hnew & Hg) d0 [= <-].
  exists d'. repeat split; [exact Hk |].
  intros k x Hx. destruct (String.eqb k key) eqn:He.
  - apply String.eqb_eq in He. subst k. rewrite Hold in Hx. injection Hx as <-.
    exists new. split; [exact Hnew | eapply grown_extends, Hg].
  - exists x. split; [now rewrite Ho | apply extends_refl].
Qed.

(** What [run_generator] takes from the generator, and what it does with
    it. *)
Lemma run_generator_inr key c generator c' :
  run_generator key c generator = inr c' ->
  exists parameters rows,
    get generator "parameters" = inr (VDict parameters)
    /\ parameters <> []
    /\ emap (fun kv : string * value => Py.iter (snd kv))
         (parameters_names_and_values parameters) = inr rows
    /\ ((zip_values rows = [] /\ c' = c)
        \/ generated key (List.length (zip_values rows)) c c').
Proof.
  unfold run_generator. intros H.
  apply ebind_inr in H as (parameters & Hp & H).
  apply ebind_inr in H as (d & Hd & H).
  destruct parameters as [| | | | |parameters]; try discriminate.
  injection Hd as <-.
  apply ebind_inr in H as (counts & Hc & H).
  apply ebind_inr in H as ([] & Hnonempty & H).
  apply ebind_inr in H as ([] & _ & H).
  apply ebind_inr in H as (rows & Hrows & H).
  exists parameters, rows. split; [exact Hp |]. split; [| split; [exact Hrows |]].
  - intros ->. simpl in Hc. injection Hc as <-. simpl in Hnonempty.
    apply ebind_inr in Hnonempty as (? & _ & Hn). discriminate.
  - now apply efold_generate_entry in H.
Qed.

Lemma run_generator_kept key c generator c' :
  run_generator key c generator = inr c' -> kept c c'.
Proof.
  intros H. apply run_generator_inr in H as (? & ? & _ & _ & _ & [[_ ->] | H]).
  - apply kept_refl.
  - eapply generated_kept, H.
Qed.

End GeneratorInvariants.

Section GeneratorCounts.

Lemma zip_star_length n : forall rows,
  rows <> [] -> Forall (fun r : list value => List.length r = n) rows ->
  List.length (Py.zip_star n rows) = n.
Proof.
  induction n as [|n IH]; intros rows Hne Hrows; [reflexivity |].
  cbn [Py.zip_star].
  assert (forallb (fun r : list value => match r with [] => false | _ => true end)
            rows = true) as ->.
  { apply forallb_forall. intros r Hr.
    rewrite Forall_forall in Hrows. specialize (Hrows r Hr).
    destruct r; [discriminate | reflexivity]. }
  cbn [List.length]. f_equal. apply IH.
  - destruct rows; [congruence | discriminate].
  - apply Forall_map. eapply Forall_impl; [| exact Hrows].
    intros r Hr. destruct r; [discriminate |]. simpl in *. lia.
Qed.

Lemma emap_iter_rows n : forall (l : items) rows,
  Forall (fun kv : string * value =>
            exists values, snd kv = VList values /\ List.length values = n) l ->
  emap (fun kv : string * value => Py.iter (snd kv)) l = inr rows ->
  Forall (fun r : list value => List.length r = n) rows
  /\ List.length rows = List.length l.
Proof.
  induction l as [|[k v] l IH]; simpl; intros rows Hl H.
  - injection H as <-. auto.
  - apply ebind_inr in H as (r & Hr & H).
    apply ebind_inr in H as (rs & Hrs & H). injection H as <-.
    apply Forall_cons_iff in Hl as [(values & Hv & Hn) Hl].
    simpl in Hv. subst v. simpl in Hr. injection Hr as <-.
    destruct (IH rs Hl Hrs) as [Hf Hlen]. split; [| simpl; congruence].
    constructor; assumption.
Qed.

Lemma zip_values_length n (rows : list (list value)) :
  rows <> [] -> Forall (fun r : list value => List.length r = n) rows ->
  List.length (zip_values rows) = n.
Proof.
  intros Hne Hrows. unfold zip_values. destruct rows as [|r rows]; [congruence |].
  pose proof (Forall_inv Hrows) as Hr. cbv beta in Hr. rewrite Hr.
  now apply zip_star_length.
Qed.

Lemma run_generator_count key d generator parameters n old c' :
  get generator "parameters" = inr (VDict parameters) ->
  Forall (fun kv : string * value =>
            exists values, snd kv = VList values /\ List.length values = n)
    parameters ->
  lookup key d = Some old ->
  run_generator key (VDict d) generator = inr c' ->
  exists new, get c' key = inr new /\ grown n old new.
Proof.
  intros Hp Hvalues Hold H.
  apply run_generator_inr in H as (parameters' & rows & Hp' & Hne & Hrows & H).
  rewrite Hp in Hp'. injection Hp' as <-.
  assert (List.length (zip_values rows) = n) as Hn.
  { destruct (emap_iter_rows n (parameters_names_and_values parameters) rows)
      as [Hf Hlen]; [| exact Hrows |].
    - eapply Permutation_Forall; [| exact Hvalues].
      apply sorted_by_perm.
    - apply zip_values_length; [| exact Hf].
      intros ->. simpl in Hlen.
      pose proof (Permutation_length
                    (sorted_by_perm neg_len_le parameters)) as HL.
      unfold parameters_names_and_values in Hlen. rewrite <- HL in Hlen.
      destruct parameters; [congruence | discriminate]. }
  rewrite Hn in H. destruct H as [[Hz ->] | H].
  - rewrite Hz in Hn. simpl in Hn. subst n. exists old.
    rewrite get_dict, Hold. split; [reflexivity | apply grown_refl].
  - destruct H as (d0 & d' & old' & new & [= <-] & -> & _ & _ & Hold' & Hnew & Hg).
    rewrite Hold in Hold'. injection Hold' as <-.
    exists new. rewrite get_dict, Hnew. auto.
Qed.

End GeneratorCounts.

(** X3: a generator whose parameters all have [n] values adds exactly [n]
    entries to its collection, one for each value and in the order of the
    values: jobs at the end of the list of jobs, filters and tasks after the
    existing ones and under names that were not there. *)
Theorem generator_adds_one_entry_per_value (key : string) (d : items)
    (generator : value) (parameters : items) (n : nat) (old c' : value) :
  get generator "parameters" = inr (VDict parameters) ->
  Forall (fun kv : string * value =>
            exists values, snd kv = VList values /\ List.length values = n)
    parameters ->
  lookup key d = Some old ->
  run_generator key (VDict d) generator = inr c' ->
  exists new, get c' key = inr new /\ grown n old new.
Proof. apply run_generator_count. Qed.

Lemma generator_adds_one_entry_per_value_witness :
  exists new,
    get (VDict [("filters",
                 VDict [("default", VDict [("type", VStr "default")]);
                        ("as-1", VDict [("suffix", VStr "as1")]);
                        ("as-5", VDict [("suffix", VStr "as5")]);
                        ("as-10", VDict [("suffix", VStr "as10")])])])
      "filters" = inr new
    /\ grown 3 (VDict [("default", VDict [("type", VStr "default")])]) new.
Proof.
  apply (generator_adds_one_entry_per_value "filters"
           [("filters", VDict [("default", VDict [("type", VStr "default")])])]
           threshold_generator
           [("threshold", VList [VInt 1; VInt 5; VInt 10])]).
  - reflexivity.
  - repeat constructor. exists [VInt 1; VInt 5; VInt 10]. split; reflexivity.
  - reflexivity.
  - reflexivity.
Defined.

Section GeneratorKinds.

Lemma filter_absent k (l : list string) :
  existsb (String.eqb k) l = false ->
  filter (fun x => negb (String.eqb k x)) l = l.
Proof.
  induction l as [|x l IH]; simpl; [reflexivity |].
  intros H. apply orb_false_iff in H as [-> H]. simpl. now rewrite IH.
Qed.

Lemma keys_del_item k (d : items) :
  NoDup (keys d) ->
  keys (del_item k d) = filter (fun x => negb (String.eqb k x)) (keys d).
Proof.
  induction d as [|[k' v] d IH]; simpl; intros Hnd; [reflexivity |].
  apply NoDup_cons_iff in Hnd as [Hnotin Hnd].
  destruct (String.eqb k k') eqn:He; simpl.
  - apply String.eqb_eq in He. subst k'. symmetry. apply filter_absent.
    destruct (existsb (String.eqb k) (keys d)) eqn:Hex; [| reflexivity].
    apply existsb_eqb_In in Hex. contradiction.
  - now rewrite IH.
Qed.

Lemma delitem_inr c key c' :
  delitem c key = inr c' -> exists d, c = VDict d /\ c' = VDict (del_item key d).
Proof.
  destruct c as [| | | | |d]; simpl; try discriminate.
  destruct (existsb (String.eqb key) (keys d)); [| discriminate].
  intros [= <-]. eauto.
Qed.

(** One turn of the loop of [run_generators]: the generators of one kind,
    then the removal of their key. *)
Lemma kind_step_spec key generator_key d c' :
  (let? present := Py.contains (VStr generator_key) (VDict d) in
   if present then
     let? generators := get (VDict d) generator_key in
     let? generators := Py.iter generators in
     let? configuration := efold (run_generator key) generators (VDict d) in
     delitem configuration generator_key
   else inr (VDict d)) = inr c' ->
  exists d',
    c' = VDict d'
    /\ (NoDup (keys d) ->
        keys d' = filter (fun x => negb (String.eqb generator_key x)) (keys d))
    /\ forall k old,
         String.eqb k generator_key = false -> lookup k d = Some old ->
         exists new, lookup k d' = Some new /\ extends old new.
Proof.
  intros H. apply ebind_inr in H as (present & Hp & H).
  simpl in Hp. injection Hp as Hp. destruct present.
  - apply ebind_inr in H as (generators & _ & H).
    apply ebind_inr in H as (l & _ & H).
    apply ebind_inr in H as (c1 & Hfold & H).
    apply (efold_rel kept _ kept_refl kept_trans
             (fun s x s' => run_generator_kept key s x s')) in Hfold.
    destruct (Hfold d eq_refl) as (d1 & -> & Hkeys & Hlook).
    apply delitem_inr in H as (d1' & [= <-] & ->).
    exists (del_item generator_key d1). repeat split.
    + intros Hnd. rewrite keys_del_item, Hkeys by (rewrite Hkeys; exact Hnd).
      reflexivity.
    + intros k old Hk Hold. rewrite lookup_del_item_other by exact Hk.
      now apply Hlook.
  - injection H as <-. exists d. repeat split.
    + intros _. symmetry. now apply filter_absent.
    + intros k old _ Hold. exists old. split; [exact Hold | apply extends_refl].
Qed.

Lemma is_generator_key_spec k :
  is_generator_key k = false <->
  String.eqb k "filters-generators" = false
  /\ String.eqb k "tasks-generators" = false
  /\ String.eqb k "jobs-generators" = false.
Proof.
  unfold is_generator_key. simpl. rewrite orb_false_r, !orb_false_iff. tauto.
Qed.

Lemma filter_filter {A} (f g : A -> bool) l :
  filter g (filter f l) = filter (fun x => f x && g x) l.
Proof.
  induction l as [|x l IH]; simpl; [reflexivity |].
  destruct (f x); simpl; [destruct (g x) |]; now rewrite IH.
Qed.

(** [run_generators] on a mapping: what is left under the other keys, and
    the keys that are left. *)
Lemma run_generators_spec d resolved :
  run_generators (VDict d) = inr resolved ->
  exists d',
    resolved = VDict d'
    /\ (NoDup (keys d) ->
        keys d' = filter (fun k => negb (is_generator_key k)) (keys d))
    /\ forall k old,
         is_generator_key k = false -> lookup k d = Some old ->
         exists new, lookup k d' = Some new /\ extends old new.
Proof.
  unfold run_generators, generator_kinds. cbn [efold]. intros H.
  apply ebind_inr in H as (c1 & H1 & H).
  apply kind_step_spec in H1 as (d1 & -> & K1 & L1).
  apply ebind_inr in H as (c2 & H2 & H).
  apply kind_step_spec in H2 as (d2 & -> & K2 & L2).
  apply ebind_inr in H as (c3 & H3 & H). injection H as <-.
  apply kind_step_spec in H3 as (d3 & -> & K3 & L3).
  exists d3. repeat split.
  - intros Hnd. specialize (K1 Hnd).
    assert (NoDup (keys d1)) as Hnd1 by (rewrite K1; now apply NoDup_filter).
    specialize (K2 Hnd1).
    assert (NoDup (keys d2)) as Hnd2 by (rewrite K2; now apply NoDup_filter).
    rewrite (K3 Hnd2), K2, K1, !filter_filter. apply filter_ext.
    intros k. unfold is_generator_key. simpl.
    rewrite (String.eqb_sym k "filters-generators"),
      (String.eqb_sym k "tasks-generators"), (String.eqb_sym k "jobs-generators").
    rewrite orb_false_r, !negb_orb. reflexivity.
  - intros k old Hk Hold. apply is_generator_key_spec in Hk as (G1 & G2 & G3).
    destruct (L1 k old G1 Hold) as (x1 & H1 & E1).
    destruct (L2 k x1 G2 H1) as (x2 & H2 & E2).
    destruct (L3 k x2 G3 H2) as (x3 & H3 & E3).
    exists x3. split; [exact H3 |].
    eapply extends_trans; [| exact E3]. eapply extends_trans; eassumption.
Qed.

Lemma run_generators_nothing_to_do d :
  (forall k, In k (keys d) -> is_generator_key k = false) ->
  run_generators (VDict d) = inr (VDict d).
Proof.
  intros H.
  assert (forall g, is_generator_key g = true ->
            Py.contains (VStr g) (VDict d) = inr false) as Hc.
  { intros g Hg. simpl. f_equal.
    destruct (existsb (String.eqb g) (keys d)) eqn:Hex; [| reflexivity].
    apply existsb_eqb_In in Hex. apply H in Hex. congruence. }
  unfold run_generators, generator_kinds. cbn [efold].
  rewrite (Hc "filters-generators") by reflexivity. cbn [ebind].
  rewrite (Hc "tasks-generators") by reflexivity. cbn [ebind].
  rewrite (Hc "jobs-generators") by reflexivity. reflexivity.
Qed.

End GeneratorKinds.

(** X4: when [run_generators] returns, every key of the configuration other
    than the three generator keys is still there, and what was under it is
    kept: an existing filter or task is still under its name with the value
    it had, the existing jobs are the first jobs in the order they had, and
    any other value is the same.  No generator replaces an entry. *)
Theorem generators_keep_entries (d : items) (resolved : value)
    (key : string) (old : value) :
  run_generators (VDict d) = inr resolved ->
  is_generator_key key = false ->
  lookup key d = Some old ->
  exists new, get resolved key = inr new /\ extends old new.
Proof.
  intros H Hk Hold. apply run_generators_spec in H as (d' & -> & _ & L).
  destruct (L key old Hk Hold) as (new & Hnew & He).
  exists new. now rewrite get_dict, Hnew.
Qed.

Lemma generators_keep_entries_witness :
  exists new,
    get (VDict [("filters",
                 VDict [("default", VDict [("type", VStr "default")]);
                        ("as-1", VDict [("suffix", VStr "as1")]);
                        ("as-5", VDict [("suffix", VStr "as5")]);
                        ("as-10", VDict [("suffix", VStr "as10")])])])
      "filters" = inr new
    /\ extends (VDict [("default", VDict [("type", VStr "default")])]) new.
Proof.
  apply (generators_keep_entries
           [("filters", VDict [("default", VDict [("type", VStr "default")])]);
            ("filters-generators", VList [threshold_generator])]);
    reflexivity.
Defined.

(** X5: the command [resolve] ends with a configuration that has the keys
    it started with, in their order, except the three generator keys; and
    resolving the resolved configuration again returns it unchanged. *)
Theorem resolve_is_idempotent (E : environment) (d : items) (resolved : value) :
  NoDup (keys d) ->
  resolve_command E (VDict d) = inr resolved ->
  (exists d', resolved = VDict d'
              /\ keys d' = filter (fun k => negb (is_generator_key k)) (keys d))
  /\ resolve_command E resolved = inr resolved.
Proof.
  intros Hnd H. unfold resolve_command in H.
  apply ebind_inr in H as ([] & _ & H).
  apply ebind_inr in H as (c & Hc & H).
  apply ebind_inr in H as ([] & Hvalid & H). injection H as <-.
  apply run_generators_spec in Hc as (d' & -> & K & _). specialize (K Hnd).
  split; [eauto |]. unfold resolve_command.
  rewrite Hvalid. cbn [ebind]. rewrite run_generators_nothing_to_do.
  - cbn [ebind]. now rewrite Hvalid.
  - intros k Hk. rewrite K in Hk. apply filter_In in Hk as [_ Hk].
    now apply negb_true_iff in Hk.
Qed.

Lemma resolve_is_idempotent_witness :
  (exists d',
     VDict [("filters",
             VDict [("default", VDict [("type", VStr "default")]);
                    ("as-1", VDict [("suffix", VStr "as1")]);
                    ("as-5", VDict [("suffix", VStr "as5")]);
                    ("as-10", VDict [("suffix", VStr "as10")])])]
     = VDict d'
     /\ keys d'
        = filter (fun k => negb (is_generator_key k))
            (keys [("filters", VDict [("default", VDict [("type", VStr "default")])]);
                   ("filters-generators", VList [threshold_generator])]))
  /\ resolve_command sample_environment
       (VDict [("filters",
                VDict [("default", VDict [("type", VStr "default")]);
                       ("as-1", VDict [("suffix", VStr "as1")]);
                       ("as-5", VDict [("suffix", VStr "as5")]);
                       ("as-10", VDict [("suffix", VStr "as10")])])])
     = inr (VDict [("filters",
                    VDict [("default", VDict [("type", VStr "default")]);
                           ("as-1", VDict [("suffix", VStr "as1")]);
                           ("as-5", VDict [("suffix", VStr "as5")]);
                           ("as-10", VDict [("suffix", VStr "as10")])])]).
Proof.
  apply (resolve_is_idempotent sample_environment
           [("filters", VDict [("default", VDict [("type", VStr "default")])]);
            ("filters-generators", VList [threshold_generator])]).
  - repeat constructor; simpl; intuition discriminate.
  - reflexivity.
Defined.

(** ** Templates without placeholders *)

Section PlaceholderFacts.

Lemma replace_absent c0 rest new s :
  PyStr.has_char c0 s = false -> PyStr.replace (String c0 rest) new s = s.
Proof.
  intros H. rewrite (ReplaceFacts.replace_nonempty _ new c0 rest s eq_refl).
  induction s as [|c s IH]; [reflexivity |].
  simpl in H. apply orb_false_iff in H as [Hc Hs].
  cbn [PyStr.replace_go]. rewrite ReplaceFacts.prefix_cons, Hc. cbn [andb].
  now rewrite IH.
Qed.

Lemma recursive_replace_value_free name pv : forall v,
  placeholder_free v = true -> recursive_replace_value name pv v = v.
Proof.
  induction v as [| | | s | l _ | d IH] using value_ind'; try reflexivity.
  - cbn [placeholder_free recursive_replace_value]. intros H.
    apply negb_true_iff in H.
    replace (String.eqb s ("@raw(" ++ name ++ ")")) with false.
    + change ("@" ++ name) with (String "@" name). now rewrite replace_absent.
    + symmetry. apply String.eqb_neq. intros ->. discriminate.
  - cbn [placeholder_free recursive_replace_value]. intros H. f_equal.
    induction d as [|[k x] d IHd]; [reflexivity |].
    cbn [forallb] in H. apply andb_true_iff in H as [Hx Hd].
    apply Forall_cons_iff in IH as [IHx IH]. cbn [snd] in IHx.
    cbn [map]. rewrite (IHx Hx), (IHd IH Hd). reflexivity.
Qed.

(** The substitutions of one entry, on a name and a template that have no
    placeholder. *)
Lemma apply_parameters_free key nvs : forall entry_name d,
  (entry_name = VNone /\ String.eqb key "jobs" = true)
  \/ (exists name, entry_name = VStr name /\ PyStr.has_char "@" name = false) ->
  placeholder_free (VDict d) = true ->
  apply_parameters key nvs entry_name (VDict d) = inr (entry_name, VDict d).
Proof.
  induction nvs as [|[pn pv] nvs IH]; intros entry_name d Hname Hd;
    [reflexivity |].
  cbn [apply_parameters].
  assert ((if negb (String.eqb key "jobs") then
             match entry_name with
             | VNone => inl AssertionError
             | VStr s => inr (VStr (PyStr.replace ("@" ++ pn) (Py.str pv) s))
             | _ => no_attribute entry_name "replace"
             end
           else inr entry_name) = inr entry_name) as ->.
  { destruct Hname as [[-> ->] | (name & -> & Hn)]; [reflexivity |].
    destruct (negb (String.eqb key "jobs")); [| reflexivity].
    change ("@" ++ pn) with (String "@" pn). now rewrite replace_absent. }
  cbn [ebind recursive_replace].
  rewrite (recursive_replace_value_free pn pv (VDict d) Hd). cbn [ebind].
  now apply IH.
Qed.

End PlaceholderFacts.

(** X6: a template without placeholders is copied as it is.  When no string
    of the template, at any depth of nested mappings, and no character of
    the entry's name is an [@], the substitution loop of [run_generators]
    returns the name and the template unchanged, whatever the parameters
    and their values are. *)
Theorem placeholder_free_template_is_copied (key : string)
    (names_and_values : list (string * value)) (entry_name : value) (d : items) :
  (entry_name = VNone /\ String.eqb key "jobs" = true)
  \/ (exists name, entry_name = VStr name /\ PyStr.has_char "@" name = false) ->
  placeholder_free (VDict d) = true ->
  apply_parameters key names_and_values entry_name (VDict d)
  = inr (entry_name, VDict d).
Proof. apply apply_parameters_free. Qed.

Lemma placeholder_free_template_is_copied_witness :
  apply_parameters "filters"
    [("threshold10", VInt 99); ("threshold", VInt 1)]
    (VStr "default")
    (VDict [("type", VStr "default");
            ("options", VDict [("mail", VStr "a at b")])])
  = inr (VStr "default",
         VDict [("type", VStr "default");
                ("options", VDict [("mail", VStr "a at b")])]).
Proof.
  apply placeholder_free_template_is_copied.
  - right. exists "default". split; reflexivity.
  - reflexivity.
Defined.

Section NameCollision.

Lemma apply_parameters_name_free key nvs name : forall d,
  PyStr.has_char "@" name = false ->
  exists d', apply_parameters key nvs (VStr name) (VDict d)
             = inr (VStr name, VDict d').
Proof.
  induction nvs as [|[pn pv] nvs IH]; intros d Hn; [exists d; reflexivity |].
  cbn [apply_parameters].
  assert ((if negb (String.eqb key "jobs") then
             inr (VStr (PyStr.replace ("@" ++ pn) (Py.str pv) name))
           else inr (VStr name)) = (inr (VStr name) : exn + value)) as ->.
  { destruct (negb (String.eqb key "jobs")); [| reflexivity].
    change ("@" ++ pn) with (String "@" pn). now rewrite replace_absent. }
  cbn [ebind recursive_replace recursive_replace_value]. now apply IH.
Qed.

Variables (key : string) (generator : value) (template : items) (name : string).

Hypothesis Hkey : String.eqb key "jobs" = false.
Hypothesis Htemplate : get generator "template" = inr (VDict template).
Hypothesis Hname : lookup "name" template = Some (VStr name).
Hypothesis Hfree : PyStr.has_char "@" name = false.

(** One entry of a generator whose name has no placeholder: the name is
    refused when it is there, and it is there afterwards. *)
Lemma generate_entry_fixed_name names c vals collection :
  get c key = inr (VDict collection) ->
  (existsb (String.eqb name) (keys collection) = true ->
   generate_entry key generator names c vals
   = error (already_exists key name name))
  /\ (existsb (String.eqb name) (keys collection) = false ->
      exists c1 e,
        generate_entry key generator names c vals = inr c1
        /\ get c1 key = inr (VDict (collection ++ [(name, e)]))).
Proof.
  intros Hc. pose proof Hc as Hc'. apply get_inr in Hc' as (d & -> & Hcol).
  assert (get (VDict template) "name" = inr (VStr name)) as Hget
    by (now rewrite get_dict, Hname).
  unfold generate_entry. rewrite Htemplate, Hkey. cbn [ebind].
  rewrite Hget. cbn [ebind delitem].
  rewrite (lookup_existsb "name" template), Hname. cbn [ebind].
  destruct (apply_parameters_name_free key (combine names vals) name
              (del_item "name" template) Hfree) as (d' & ->).
  cbn [ebind]. rewrite Hc. cbn [ebind Py.contains]. split; intros Hp; rewrite Hp.
  - cbn [ebind negb]. unfold template_name. rewrite Htemplate. cbn [ebind].
    rewrite Hget. reflexivity.
  - cbn [ebind setitem]. eexists _, (VDict d'). split; [reflexivity |].
    rewrite get_dict, lookup_set_item_same, (set_item_absent _ _ _ Hp).
    reflexivity.
Qed.

Lemma generate_entry_twice names c row1 row2 rows collection :
  get c key = inr (VDict collection) ->
  efold (generate_entry key generator names) (row1 :: row2 :: rows) c
  = error (already_exists key name name).
Proof.
  intros Hc. cbn [efold].
  destruct (generate_entry_fixed_name names c row1 collection Hc) as [Ht Hf].
  destruct (existsb (String.eqb name) (keys collection)) eqn:Hp.
  - now rewrite Ht.
  - destruct (Hf eq_refl) as (c1 & e & -> & Hc1). cbn [ebind].
    destruct (generate_entry_fixed_name names c1 row2 _ Hc1) as [Ht1 _].
    rewrite Ht1; [reflexivity |].
    rewrite existsb_keys_app. simpl. rewrite String.eqb_refl.
    apply orb_true_r.
Qed.

Lemma emap_len_values n : forall l : items,
  Forall (fun kv : string * value =>
            exists values, snd kv = VList values /\ List.length values = n) l ->
  emap (fun kv : string * value => Py.len (snd kv)) l
  = inr (map (fun _ => Z.of_nat n) l).
Proof.
  induction l as [|[k v] l IH]; intros H; [reflexivity |].
  apply Forall_cons_iff in H as [(values & Hv & Hn) H]. simpl in Hv. subst v.
  cbn [emap snd Py.len]. cbn [ebind]. rewrite (IH H), Hn. reflexivity.
Qed.

Lemma emap_iter_values n : forall l : items,
  Forall (fun kv : string * value =>
            exists values, snd kv = VList values /\ List.length values = n) l ->
  exists rows, emap (fun kv : string * value => Py.iter (snd kv)) l = inr rows.
Proof.
  induction l as [|[k v] l IH]; intros H; [simpl; eauto |].
  apply Forall_cons_iff in H as [(values & Hv & Hn) H]. simpl in Hv. subst v.
  destruct (IH H) as (rows & Hrows).
  cbn [emap snd Py.iter]. cbn [ebind]. rewrite Hrows. cbn [ebind]. eauto.
Qed.

Lemma run_generator_fixed_name c parameters n collection :
  get generator "parameters" = inr (VDict parameters) ->
  parameters <> [] ->
  Forall (fun kv : string * value =>
            exists values, snd kv = VList values
                           /\ List.length values = S (S n)) parameters ->
  get c key = inr (VDict collection) ->
  run_generator key c generator = error (already_exists key name name).
Proof.
  intros Hp Hne Hvalues Hc. unfold run_generator. rewrite Hp. cbn [ebind].
  rewrite (emap_len_values _ _ Hvalues). cbn [ebind].
  rewrite length_map.
  destruct parameters as [|p parameters'] eqn:Hparameters; [congruence |].
  rewrite <- Hparameters in *.
  replace (List.length parameters =? 0)%nat with false
    by (rewrite Hparameters; reflexivity).
  cbn [ebind].
  replace (forallb _ (map (fun _ => Z.of_nat (S (S n))) parameters)) with true.
  2:{ symmetry. apply forallb_forall. intros x Hx. apply in_map_iff in Hx as (? & <- & _).
      rewrite Hparameters. cbn [map hd]. apply Z.eqb_refl. }
  cbn [negb ebind].
  assert (Forall (fun kv : string * value =>
                    exists values, snd kv = VList values
                                   /\ List.length values = S (S n))
            (parameters_names_and_values parameters)) as Hsorted.
  { eapply Permutation_Forall; [apply sorted_by_perm | exact Hvalues]. }
  destruct (emap_iter_values _ _ Hsorted) as (rows & Hrows).
  rewrite Hrows. cbn [ebind].
  destruct (emap_iter_rows _ _ _ Hsorted Hrows) as [Hf Hlen].
  assert (rows <> []) as Hrne.
  { intros ->. simpl in Hlen.
    pose proof (Permutation_length (sorted_by_perm neg_len_le parameters)) as HL.
    unfold parameters_names_and_values in Hlen. rewrite <- HL, Hparameters in Hlen.
    discriminate. }
  pose proof (zip_values_length _ _ Hrne Hf) as Hz.
  destruct (zip_values rows) as [|row1 [|row2 more]]; try discriminate.
  eapply generate_entry_twice, Hc.
Qed.

End NameCollision.

(** X7: a filters or tasks generator whose template name has no [@] cannot
    make two entries.  With two values or more for its parameters, and
    whatever the collection holds, [run_generators] ends with the error
    that the generator created an entry whose name already exists. *)
Theorem generator_without_placeholder_collides (key : string)
    (configuration generator : value) (template parameters collection : items)
    (name : string) (n : nat) :
  String.eqb key "jobs" = false ->
  get generator "template" = inr (VDict template) ->
  lookup "name" template = Some (VStr name) ->
  PyStr.has_char "@" name = false ->
  get generator "parameters" = inr (VDict parameters) ->
  parameters <> [] ->
  Forall (fun kv : string * value =>
            exists values, snd kv = VList values
                           /\ List.length values = S (S n)) parameters ->
  get configuration key = inr (VDict collection) ->
  run_generator key configuration generator
  = error (already_exists key name name).
Proof.
  intros Hkey Ht Hn Hfree Hp Hne Hvalues Hc.
  eapply run_generator_fixed_name; eassumption.
Qed.

Lemma generator_without_placeholder_collides_witness :
  run_generator "tasks"
    (VDict [("tasks", VDict sample_tasks)])
    (VDict [("parameters", VDict [("cycle", VList [VInt 8; VInt 16])]);
            ("template", VDict [("name", VStr "colourtime");
                                ("cycle", VStr "@cycle")])])
  = error (already_exists "tasks" "colourtime" "colourtime").
Proof.
  apply (generator_without_placeholder_collides "tasks" _ _
           [("name", VStr "colourtime"); ("cycle", VStr "@cycle")]
           [("cycle", VList [VInt 8; VInt 16])] sample_tasks "colourtime" 0);
    try reflexivity.
  - discriminate.
  - repeat constructor. exists [VInt 8; VInt 16]. split; reflexivity.
Defined.

(** ** Tasks and single filters *)

Section StageFacts.

Variable E : environment.

(** The test [not args.force and ... and output_path.is_file()], once the
    comparison of the snapshot has given [same]. *)
Lemma skip_test {B} force (test : exn + bool) same output_path
    (k : bool -> M B) w :
  test = inr same ->
  bind (if negb force then
          do same <- lift test ;;
          if (same : bool) then is_file output_path else ret false
        else ret false) k w
  = k (negb force && same
       && match file_lookup output_path (fs w) with
          | Some _ => true
          | None => false
          end) w.
Proof. intros ->. destruct force, same; reflexivity. Qed.

Lemma snapshot_test field pd recorded name entry parameters :
  lookup field pd = Some (VDict recorded) ->
  get entry "parameters" = inr parameters ->
  (let? recorded := get (VDict pd) field in
   let? present := Py.contains (VStr name) recorded in
   if present then
     let? recorded := get (VDict pd) field in
     let? snapshot := Py.getitem recorded (VStr name) in
     let? configured := get entry "parameters" in
     inr (compare_parameters snapshot configured)
   else inr false)
  = inr match lookup name recorded with
        | Some snapshot => compare_parameters snapshot parameters
        | None => false
        end.
Proof.
  intros Hrec Hp. rewrite get_dict, Hrec. cbn [ebind Py.contains Py.getitem].
  rewrite lookup_existsb. destruct (lookup name recorded); [| reflexivity].
  cbn [ebind]. now rewrite Hp.
Qed.

Lemma up_to_date_test force recorded name parameters output_path f :
  up_to_date force recorded name parameters output_path f
  <-> negb force
      && match lookup name recorded with
         | Some snapshot => compare_parameters snapshot parameters
         | None => false
         end
      && match file_lookup output_path f with Some _ => true | None => false end
      = true.
Proof.
  unfold up_to_date. rewrite !andb_true_iff, negb_true_iff. split.
  - intros (-> & (snapshot & -> & ->) & Hf).
    destruct (file_lookup output_path f); [auto | congruence].
  - intros ((-> & Hs) & Hf). split; [reflexivity | split].
    + destruct (lookup name recorded); [eauto | discriminate].
    + destruct (file_lookup output_path f); [discriminate | discriminate].
Qed.

Lemma record_field field pd recorded name parameters :
  lookup field pd = Some (VDict recorded) ->
  record (VDict pd) field (VStr name) parameters
  = inr (VDict (recorded_under field name parameters recorded pd)).
Proof.
  intros H. unfold record, get. cbn [Py.getitem]. rewrite H. reflexivity.
Qed.

Lemma file_lookup_write path c f : file_lookup path (file_write path c f) = Some c.
Proof. unfold file_write. simpl. now rewrite String.eqb_refl. Qed.

Lemma file_lookup_remove_other p q (f : files) :
  p <> q -> file_lookup p (file_remove q f) = file_lookup p f.
Proof.
  intros Hne. induction f as [|[x c] f IH]; cbn [file_remove filter fst];
    [reflexivity |].
  fold (file_remove q f).
  destruct (String.eqb_spec q x) as [<- | Hqx]; cbn [negb file_lookup].
  - apply String.eqb_neq in Hne. now rewrite Hne.
  - now rewrite IH.
Qed.

Lemma file_lookup_write_kept p q c (f : files) :
  file_lookup p f <> None -> file_lookup p (file_write q c f) <> None.
Proof.
  intros H. unfold file_write. cbn [file_lookup].
  destruct (String.eqb_spec p q) as [-> | Hne]; [discriminate |].
  now rewrite file_lookup_remove_other.
Qed.

Lemma save_parameters_fs path parameters w :
  exists w',
    save_parameters path parameters w = (inr tt, w')
    /\ log w' = (log w ++ [Dump (Path.with_suffix path ".part") parameters;
                           Rename (Path.with_suffix path ".part") path])%list
    /\ file_lookup path (fs w') = Some (Document parameters)
    /\ (forall p, p <> Path.with_suffix path ".part" ->
                  file_lookup p (fs w) <> None -> file_lookup p (fs w') <> None).
Proof.
  set (part := Path.with_suffix path ".part").
  assert (save_parameters path parameters w
          = rename part path
              {| fs := file_write part (Document parameters) (fs w);
                 log := (log w ++ [Dump part parameters])%list;
                 fresh := fresh w |}) as -> by reflexivity.
  erewrite rename_run by (cbn [fs]; apply file_lookup_write).
  eexists. split; [reflexivity |]. cbn [log fs fresh].
  rewrite <- app_assoc. repeat split.
  - apply file_lookup_write.
  - intros p Hp Hf. apply file_lookup_write_kept.
    rewrite file_lookup_remove_other by exact Hp.
    now apply file_lookup_write_kept.
Qed.

Lemma table_get_tasks type :
  In type ["colourtime"; "event_rate"; "video"] ->
  (forall f i o b e p, tasks_colourtime_run E f i o b e p = true) ->
  (forall f i o b e p, tasks_event_rate_run E f i o b e p = true) ->
  (forall f i o b e p, tasks_video_run E f i o b e p = true) ->
  exists run,
    table_get (TASKS E) (VStr type) = inr (task_extension E type, run)
    /\ forall f i o b e p, run f i o b e p = true.
Proof.
  intros Ht H1 H2 H3. simpl in Ht.
  destruct Ht as [<- | [<- | [<- | []]]]; eexists; (split; [reflexivity |]);
    simpl; auto.
Qed.

Lemma bind_run_task {B} type run input output begin end_ parameters
    (k : unit -> M B) w :
  (forall f i o b e p, run f i o b e p = true) ->
  bind (run_task (VStr type) run input output begin end_ parameters) k w
  = k tt {| fs := file_write output Data (fs w);
            log := (log w ++ [RunTask type input output begin end_ parameters])%list;
            fresh := fresh w |}.
Proof.
  intros Hok. unfold run_task, bind, emit, get_fs, set_fs. cbn.
  now rewrite Hok.
Qed.

(** One task of the loop over [job["tasks"]]. *)
Lemma task_step_spec force configuration tasks pd recorded name type icon
    parameters directory directory_name output_path parameters_path
    begin end_ w :
  get configuration "tasks" = inr (VDict tasks) ->
  task_configured tasks name type icon parameters ->
  lookup "tasks" pd = Some (VDict recorded) ->
  (forall f i o b e p, tasks_colourtime_run E f i o b e p = true) ->
  (forall f i o b e p, tasks_event_rate_run E f i o b e p = true) ->
  (forall f i o b e p, tasks_video_run E f i o b e p = true) ->
  let task_output_path :=
    Path.div (Path.div directory directory_name)
      (directory_name ++ "-" ++ name ++ task_extension E type) in
  let pd' := recorded_under "tasks" name parameters recorded pd in
  (up_to_date force recorded name parameters output_path (fs w) ->
   task_step E force configuration directory directory_name output_path
     parameters_path begin end_ (VDict pd) (VStr name) w
   = (inr (VDict pd),
      {| fs := fs w;
         log := (log w ++ [Info "⏭ " ("skip task " ++ name)])%list;
         fresh := fresh w |}))
  /\ (~ up_to_date force recorded name parameters output_path (fs w) ->
      exists w',
        task_step E force configuration directory directory_name output_path
          parameters_path begin end_ (VDict pd) (VStr name) w
        = (inr (VDict pd'), w')
        /\ log w'
           = (log w
                ++ [Info (Py.str icon) ("run task " ++ name);
                    RunTask type output_path (with_suffix task_output_path ".part")
                      begin end_ parameters;
                    Rename (with_suffix task_output_path ".part") task_output_path;
                    Dump (Path.with_suffix parameters_path ".part") (VDict pd');
                    Rename (Path.with_suffix parameters_path ".part")
                      parameters_path])%list
        /\ file_lookup parameters_path (fs w') = Some (Document (VDict pd'))
        /\ (task_output_path <> Path.with_suffix parameters_path ".part" ->
            file_lookup task_output_path (fs w') <> None)
        /\ (forall p,
              p <> with_suffix task_output_path ".part" ->
              p <> Path.with_suffix parameters_path ".part" ->
              file_lookup p (fs w) <> None -> file_lookup p (fs w') <> None)).
Proof.
  intros Htasks [Hname Htype] Hrec H1 H2 H3 task_output_path pd'.
  destruct (table_get_tasks type Htype H1 H2 H3) as (run & Hrun & Hok).
  rewrite (up_to_date_test force recorded name parameters output_path (fs w)).
  remember (VDict [("type", VStr type); ("icon", icon); ("parameters", parameters)])
    as task eqn:Htask.
  assert (get task "type" = inr (VStr type)) as Gtype by (subst task; reflexivity).
  assert (get task "icon" = inr icon) as Gicon by (subst task; reflexivity).
  assert (get task "parameters" = inr parameters) as Gparameters
    by (subst task; reflexivity).
  unfold task_step. rewrite Htasks, bind_lift. cbn [Py.getitem].
  rewrite Hname, bind_lift, Gtype, bind_lift, Hrun, bind_lift.
  erewrite skip_test; [| apply (snapshot_test "tasks"); [exact Hrec | exact Gparameters]].
  cbn [fst snd Py.str]. fold task_output_path.
  destruct (negb force && _ && _).
  - split; [intros _ | congruence]. now rewrite bind_info.
  - split; [discriminate | intros _].
    rewrite Gicon, bind_lift, bind_info, bind_lift, Hrun, bind_lift.
    rewrite Gparameters, bind_lift.
    rewrite bind_run_task by exact Hok.
    unfold bind at 1. erewrite rename_run by (cbn [fs]; apply file_lookup_write).
    rewrite bind_lift, (record_field "tasks" pd recorded name parameters Hrec).
    rewrite bind_lift. fold pd'.
    match goal with
    | |- context [bind (save_parameters ?p ?v) _ ?w0] =>
        destruct (save_parameters_fs p v w0) as (w' & Hsave & Hlog & Hfile & Hkept)
    end.
    cbn [fs] in Hkept.
    exists w'. unfold bind at 1. rewrite Hsave. cbn [ret]. split; [reflexivity |].
    split; [| split; [exact Hfile | split]].
    + rewrite Hlog. cbn [log Py.str]. rewrite <- !app_assoc. reflexivity.
    + intros Hne. apply Hkept; [exact Hne |].
      rewrite file_lookup_write. discriminate.
    + intros p Hp1 Hp2 Hf. apply Hkept; [exact Hp2 |].
      apply file_lookup_write_kept.
      rewrite file_lookup_remove_other by exact Hp1.
      now apply file_lookup_write_kept.
Qed.

(** The stage of the filters on a job with one filter. *)
Lemma single_filter_spec force configuration job filters sources pd recorded
    name type icon suffix parameters job_name source output_path
    parameters_path begin end_ index w :
  get configuration "filters" = inr (VDict filters) ->
  lookup name filters
  = Some (VDict [("type", VStr type); ("icon", icon); ("suffix", suffix);
                 ("parameters", parameters)]) ->
  type = "default" \/ type = "arbiter_saturation" ->
  get configuration "sources" = inr (VDict sources) ->
  lookup job_name sources = Some (VStr source) ->
  get job "name" = inr (VStr job_name) ->
  get job "filters" = inr (VList [VStr name]) ->
  lookup "filters" pd = Some (VDict recorded) ->
  (forall f i o b e p, filters_default_apply E f i o b e p = true) ->
  (forall f i o b e p, filters_arbiter_saturation_apply E f i o b e p = true) ->
  let pd' := recorded_under "filters" name parameters recorded pd in
  (up_to_date force recorded name parameters output_path (fs w) ->
   filter_stage E force configuration job (VDict pd) output_path
     parameters_path begin end_ index w
   = (inr (VDict pd, index),
      {| fs := fs w;
         log := (log w ++ [Info "⏭ " ("skip filter " ++ name)])%list;
         fresh := fresh w |}))
  /\ (~ up_to_date force recorded name parameters output_path (fs w) ->
      exists w',
        filter_stage E force configuration job (VDict pd) output_path
          parameters_path begin end_ index w
        = (inr (VDict pd', index), w')
        /\ log w'
           = (log w
                ++ [Info (Py.str icon) ("apply filter " ++ name);
                    ApplyFilter type source (with_suffix output_path ".part")
                      begin end_ parameters;
                    Rename (with_suffix output_path ".part") output_path;
                    Dump (Path.with_suffix parameters_path ".part") (VDict pd');
                    Rename (Path.with_suffix parameters_path ".part")
                      parameters_path])%list
        /\ file_lookup parameters_path (fs w') = Some (Document (VDict pd'))
        /\ (output_path <> Path.with_suffix parameters_path ".part" ->
            file_lookup output_path (fs w') <> None)
        /\ (forall p,
              p <> with_suffix output_path ".part" ->
              p <> Path.with_suffix parameters_path ".part" ->
              file_lookup p (fs w) <> None -> file_lookup p (fs w') <> None)).
Proof.
  intros Hfilters Hname Htype Hsources Hsource Hjob Hjf Hrec Hd Ha pd'.
  destruct (table_get_filters E Hd Ha type Htype) as (apply & Happly & Hok).
  rewrite (up_to_date_test force recorded name parameters output_path (fs w)).
  remember (VDict [("type", VStr type); ("icon", icon); ("suffix", suffix);
                   ("parameters", parameters)]) as filter eqn:Hfilter.
  assert (get filter "type" = inr (VStr type)) as Gtype by (subst filter; reflexivity).
  assert (get filter "icon" = inr icon) as Gicon by (subst filter; reflexivity).
  assert (get filter "parameters" = inr parameters) as Gparameters
    by (subst filter; reflexivity).
  unfold filter_stage. rewrite Hjf. cbn [ebind Py.len List.length].
  rewrite bind_lift. change (Z.of_nat 1 =? 1) with true. cbv iota.
  unfold single_filter.
  rewrite Hjf, bind_bind, bind_lift.
  change (Py.getitem (VList [VStr name]) (VInt 0)) with (@inr exn _ (VStr name)).
  rewrite bind_bind, bind_lift, Hfilters, bind_bind, bind_lift.
  cbn [Py.getitem]. rewrite Hname, bind_bind, bind_lift.
  rewrite bind_bind.
  erewrite skip_test;
    [| apply (snapshot_test "filters"); [exact Hrec | exact Gparameters]].
  destruct (negb force && _ && _).
  - split; [intros _ | congruence].
    rewrite bind_bind, bind_info. reflexivity.
  - split; [discriminate | intros _].
    rewrite Gicon, bind_bind, bind_lift, bind_bind, bind_info.
    rewrite Gtype, bind_bind, bind_lift, Happly, bind_bind, bind_lift.
    rewrite Hsources, Hjob. cbn [ebind Py.getitem]. rewrite Hsource.
    cbn [ebind as_path]. rewrite bind_bind, bind_lift.
    rewrite Gparameters, bind_bind, bind_lift.
    rewrite bind_bind, bind_apply_filter by exact Hok.
    rewrite bind_bind. unfold bind at 1.
    erewrite rename_run by (cbn [fs]; apply file_lookup_write).
    rewrite bind_bind, bind_lift.
    rewrite (record_field "filters" pd recorded name parameters Hrec).
    rewrite bind_bind, bind_lift. fold pd'. rewrite bind_bind.
    match goal with
    | |- context [bind (save_parameters ?p ?v) _ ?w0] =>
        destruct (save_parameters_fs p v w0) as (w' & Hsave & Hlog & Hfile & Hkept)
    end.
    cbn [fs] in Hkept.
    exists w'. unfold bind at 1. rewrite Hsave.
    rewrite bind_ret. cbn [ret]. split; [reflexivity |].
    split; [| split; [exact Hfile | split]].
    + rewrite Hlog. cbn [log Py.str]. rewrite <- !app_assoc. reflexivity.
    + intros Hne. apply Hkept; [exact Hne |].
      rewrite file_lookup_write. discriminate.
    + intros p Hp1 Hp2 Hf. apply Hkept; [exact Hp2 |].
      apply file_lookup_write_kept.
      rewrite file_lookup_remove_other by exact Hp1.
      now apply file_lookup_write_kept.
Qed.

End StageFacts.

(** X8: a task of a job is skipped exactly when the run is not forced, the
    state has a snapshot under the task's name that [compare_parameters]
    accepts, and the file [output_path], the output of the job's filters,
    is there; the task's own output file plays no part in the test.  In
    every other case the task is run on [output_path] into the temporary
    name of its output, which is renamed, and the state is saved at once
    with the task's parameters recorded; the output of the task is there
    afterwards, and no file other than the two temporary ones is lost. *)
Theorem task_runs_unless_up_to_date (E : environment) (force : bool)
    (configuration : value) (tasks pd recorded : items)
    (name type : string) (icon parameters : value)
    (directory directory_name output_path parameters_path : string)
    (begin end_ : Z) (w : world) :
  get configuration "tasks" = inr (VDict tasks) ->
  task_configured tasks name type icon parameters ->
  lookup "tasks" pd = Some (VDict recorded) ->
  (forall f i o b e p, tasks_colourtime_run E f i o b e p = true) ->
  (forall f i o b e p, tasks_event_rate_run E f i o b e p = true) ->
  (forall f i o b e p, tasks_video_run E f i o b e p = true) ->
  let task_output_path :=
    Path.div (Path.div directory directory_name)
      (directory_name ++ "-" ++ name ++ task_extension E type) in
  let pd' := recorded_under "tasks" name parameters recorded pd in
  (up_to_date force recorded name parameters output_path (fs w) ->
   task_step E force configuration directory directory_name output_path
     parameters_path begin end_ (VDict pd) (VStr name) w
   = (inr (VDict pd),
      {| fs := fs w;
         log := (log w ++ [Info "⏭ " ("skip task " ++ name)])%list;
         fresh := fresh w |}))
  /\ (~ up_to_date force recorded name parameters output_path (fs w) ->
      exists w',
        task_step E force configuration directory directory_name output_path
          parameters_path begin end_ (VDict pd) (VStr name) w
        = (inr (VDict pd'), w')
        /\ log w'
           = (log w
                ++ [Info (Py.str icon) ("run task " ++ name);
                    RunTask type output_path (with_suffix task_output_path ".part")
                      begin end_ parameters;
                    Rename (with_suffix task_output_path ".part") task_output_path;
                    Dump (Path.with_suffix parameters_path ".part") (VDict pd');
                    Rename (Path.with_suffix parameters_path ".part")
                      parameters_path])%list
        /\ file_lookup parameters_path (fs w') = Some (Document (VDict pd'))
        /\ (task_output_path <> Path.with_suffix parameters_path ".part" ->
            file_lookup task_output_path (fs w') <> None)
        /\ (forall p,
              p <> with_suffix task_output_path ".part" ->
              p <> Path.with_suffix parameters_path ".part" ->
              file_lookup p (fs w) <> None -> file_lookup p (fs w') <> None)).
Proof. apply task_step_spec. Qed.

Lemma task_runs_unless_up_to_date_witness :
  let recorded := [("video-real-time", VDict [("frametime", VStr "00:00:00.020000")])] in
  let pd := [("source", VStr "/data/rec.es"); ("filters", VDict []);
             ("tasks", VDict recorded); ("attachments", VDict [])] in
  let parameters := VDict [("frametime", VStr "00:00:00.020000")] in
  let output_path := "/work/renders/rec-b0-e1/rec-b0-e1.es" in
  let parameters_path := "/work/renders/rec-b0-e1/parameters.toml" in
  let w := world_with [(output_path, Data)] in
  let task_output_path :=
    Path.div (Path.div "/work/renders" "rec-b0-e1")
      ("rec-b0-e1" ++ "-" ++ "video-real-time"
         ++ task_extension sample_environment "video") in
  let pd' := recorded_under "tasks" "video-real-time" parameters recorded pd in
  (up_to_date false recorded "video-real-time" parameters output_path (fs w) ->
   task_step sample_environment false (VDict [("tasks", VDict split_tasks)])
     "/work/renders" "rec-b0-e1" output_path parameters_path 0 1000000
     (VDict pd) (VStr "video-real-time") w
   = (inr (VDict pd),
      {| fs := fs w;
         log := (log w ++ [Info "⏭ " ("skip task " ++ "video-real-time")])%list;
         fresh := fresh w |}))
  /\ (~ up_to_date false recorded "video-real-time" parameters output_path (fs w) ->
      exists w',
        task_step sample_environment false (VDict [("tasks", VDict split_tasks)])
          "/work/renders" "rec-b0-e1" output_path parameters_path 0 1000000
          (VDict pd) (VStr "video-real-time") w
        = (inr (VDict pd'), w')
        /\ log w'
           = (log w
                ++ [Info (Py.str (VStr "T")) ("run task " ++ "video-real-time");
                    RunTask "video" output_path
                      (with_suffix task_output_path ".part") 0 1000000 parameters;
                    Rename (with_suffix task_output_path ".part") task_output_path;
                    Dump (Path.with_suffix parameters_path ".part") (VDict pd');
                    Rename (Path.with_suffix parameters_path ".part")
                      parameters_path])%list
        /\ file_lookup parameters_path (fs w') = Some (Document (VDict pd'))
        /\ (task_output_path <> Path.with_suffix parameters_path ".part" ->
            file_lookup task_output_path (fs w') <> None)
        /\ (forall p,
              p <> with_suffix task_output_path ".part" ->
              p <> Path.with_suffix parameters_path ".part" ->
              file_lookup p (fs w) <> None -> file_lookup p (fs w') <> None)).
Proof.
  apply (task_runs_unless_up_to_date sample_environment false
           (VDict [("tasks", VDict split_tasks)]) split_tasks);
    try reflexivity.
  split; [reflexivity | simpl; auto].
Defined.

(** X9: the filter of a job with one filter is skipped exactly when the run
    is not forced, the state has a snapshot under the filter's name that
    [compare_parameters] accepts, and the output file is there.  In every
    other case the filter is applied to the job's source into the temporary
    name of the output, which is renamed, and the state is saved with the
    filter's parameters recorded; the output is there afterwards, and no
    file other than the two temporary ones is lost. *)
Theorem single_filter_runs_unless_up_to_date (E : environment) (force : bool)
    (configuration job : value) (filters sources pd recorded : items)
    (name type : string) (icon suffix parameters : value)
    (job_name source output_path parameters_path : string)
    (begin end_ index : Z) (w : world) :
  get configuration "filters" = inr (VDict filters) ->
  lookup name filters
  = Some (VDict [("type", VStr type); ("icon", icon); ("suffix", suffix);
                 ("parameters", parameters)]) ->
  type = "default" \/ type = "arbiter_saturation" ->
  get configuration "sources" = inr (VDict sources) ->
  lookup job_name sources = Some (VStr source) ->
  get job "name" = inr (VStr job_name) ->
  get job "filters" = inr (VList [VStr name]) ->
  lookup "filters" pd = Some (VDict recorded) ->
  (forall f i o b e p, filters_default_apply E f i o b e p = true) ->
  (forall f i o b e p, filters_arbiter_saturation_apply E f i o b e p = true) ->
  let pd' := recorded_under "filters" name parameters recorded pd in
  (up_to_date force recorded name parameters output_path (fs w) ->
   filter_stage E force configuration job (VDict pd) output_path
     parameters_path begin end_ index w
   = (inr (VDict pd, index),
      {| fs := fs w;
         log := (log w ++ [Info "⏭ " ("skip filter " ++ name)])%list;
         fresh := fresh w |}))
  /\ (~ up_to_date force recorded name parameters output_path (fs w) ->
      exists w',
        filter_stage E force configuration job (VDict pd) output_path
          parameters_path begin end_ index w
        = (inr (VDict pd', index), w')
        /\ log w'
           = (log w
                ++ [Info (Py.str icon) ("apply filter " ++ name);
                    ApplyFilter type source (with_suffix output_path ".part")
                      begin end_ parameters;
                    Rename (with_suffix output_path ".part") output_path;
                    Dump (Path.with_suffix parameters_path ".part") (VDict pd');
                    Rename (Path.with_suffix parameters_path ".part")
                      parameters_path])%list
        /\ file_lookup parameters_path (fs w') = Some (Document (VDict pd'))
        /\ (output_path <> Path.with_suffix parameters_path ".part" ->
            file_lookup output_path (fs w') <> None)
        /\ (forall p,
              p <> with_suffix output_path ".part" ->
              p <> Path.with_suffix parameters_path ".part" ->
              file_lookup p (fs w) <> None -> file_lookup p (fs w') <> None)).
Proof. apply single_filter_spec. Qed.

Lemma single_filter_runs_unless_up_to_date_witness :
  let job := sample_job "rec" ["as-1"] [] in
  let configuration :=
    VDict [("filters", VDict split_filters);
           ("sources", VDict [("rec", VStr "/data/rec.es")])] in
  let recorded := [("as-1", VDict [("threshold", VInt 2)])] in
  let pd := [("source", VStr "/data/rec.es"); ("filters", VDict recorded);
             ("tasks", VDict []); ("attachments", VDict [])] in
  let parameters := VDict [("threshold", VInt 1)] in
  let output_path := "/work/renders/rec-b0-e1-as1/rec-b0-e1-as1.es" in
  let parameters_path := "/work/renders/rec-b0-e1-as1/parameters.toml" in
  let w := world_with [(output_path, Data)] in
  let pd' := recorded_under "filters" "as-1" parameters recorded pd in
  (up_to_date false recorded "as-1" parameters output_path (fs w) ->
   filter_stage sample_environment false configuration job (VDict pd)
     output_path parameters_path 0 1000000 0 w
   = (inr (VDict pd, 0),
      {| fs := fs w;
         log := (log w ++ [Info "⏭ " ("skip filter " ++ "as-1")])%list;
         fresh := fresh w |}))
  /\ (~ up_to_date false recorded "as-1" parameters output_path (fs w) ->
      exists w',
        filter_stage sample_environment false configuration job (VDict pd)
          output_path parameters_path 0 1000000 0 w
        = (inr (VDict pd', 0), w')
        /\ log w'
           = (log w
                ++ [Info (Py.str (VStr "F")) ("apply filter " ++ "as-1");
                    ApplyFilter "arbiter_saturation" "/data/rec.es"
                      (with_suffix output_path ".part") 0 1000000 parameters;
                    Rename (with_suffix output_path ".part") output_path;
                    Dump (Path.with_suffix parameters_path ".part") (VDict pd');
                    Rename (Path.with_suffix parameters_path ".part")
                      parameters_path])%list
        /\ file_lookup parameters_path (fs w') = Some (Document (VDict pd'))
        /\ (output_path <> Path.with_suffix parameters_path ".part" ->
            file_lookup output_path (fs w') <> None)
        /\ (forall p,
              p <> with_suffix output_path ".part" ->
              p <> Path.with_suffix parameters_path ".part" ->
              file_lookup p (fs w) <> None -> file_lookup p (fs w') <> None)).
Proof.
  apply (single_filter_runs_unless_up_to_date sample_environment false _ _
           split_filters [("rec", VStr "/data/rec.es")] _ _ "as-1"
           "arbiter_saturation" (VStr "F") (VStr "as1") _ "rec" "/data/rec.es");
    try reflexivity.
  now right.
Defined.

(** ** The state a job starts with *)

Section InitialState.

Lemma default_field_dict field pd :
  exists pd',
    default_field field (VDict pd) = inr (VDict pd')
    /\ (forall k v, lookup k pd = Some v -> lookup k pd' = Some v)
    /\ lookup field pd' <> None.
Proof.
  unfold default_field. cbn [Py.contains ebind]. rewrite lookup_existsb.
  destruct (lookup field pd) as [x|] eqn:H; cbn [negb].
  - exists pd. repeat split; [auto | congruence].
  - cbn [setitem]. exists (set_item field (VDict []) pd). repeat split.
    + intros k v Hk. destruct (String.eqb k field) eqn:He.
      * apply String.eqb_eq in He. congruence.
      * now rewrite lookup_set_item_other.
    + now rewrite lookup_set_item_same.
Qed.

Lemma initial_parameters_same path source w pd :
  same_source path source (fs w) pd ->
  exists pd',
    initial_parameters path source w = (inr (VDict pd'), w)
    /\ (forall k v, lookup k pd = Some v -> lookup k pd' = Some v)
    /\ lookup "filters" pd' <> None
    /\ lookup "tasks" pd' <> None
    /\ lookup "attachments" pd' <> None.
Proof.
  intros (Hfile & recorded & Hsource & Heq).
  destruct (default_field_dict "filters" pd) as (p1 & D1 & K1 & F1).
  destruct (default_field_dict "tasks" p1) as (p2 & D2 & K2 & F2).
  destruct (default_field_dict "attachments" p2) as (p3 & D3 & K3 & F3).
  exists p3. split; [| repeat split; auto].
  - unfold initial_parameters, load_parameters.
    rewrite bind_bind. unfold bind at 1, get_fs. rewrite Hfile, bind_ret.
    cbn [Py.contains ebind]. rewrite lookup_existsb, Hsource. cbn [negb].
    rewrite get_dict, Hsource. cbn [ebind]. rewrite Heq, bind_lift. cbn [negb].
    rewrite bind_ret, D1, bind_lift, D2, bind_lift, D3. reflexivity.
  - destruct (lookup "filters" p1) as [x|] eqn:H; [| congruence].
    rewrite (K3 _ _ (K2 _ _ H)). discriminate.
  - destruct (lookup "tasks" p2) as [x|] eqn:H; [| congruence].
    rewrite (K3 _ _ H). discriminate.
Qed.

Lemma initial_parameters_other path source w :
  other_source path source (fs w) ->
  exists w',
    initial_parameters path source w = (inr (VDict (fresh_state source)), w')
    /\ log w'
       = (log w ++ [Dump (Path.with_suffix path ".part")
                      (VDict [("source", source)]);
                    Rename (Path.with_suffix path ".part") path])%list
    /\ file_lookup path (fs w') = Some (Document (VDict [("source", source)])).
Proof.
  intros Hother.
  destruct (save_parameters_fs path (VDict [("source", source)]) w)
    as (w' & Hsave & Hlog & Hfile & _).
  exists w'. split; [| split; assumption].
  assert ((do parameters <-
               (do _ <- save_parameters path (VDict [("source", source)]) ;;
                ret (VDict [("source", source)])) ;;
             do parameters <- lift (default_field "filters" parameters) ;;
             do parameters <- lift (default_field "tasks" parameters) ;;
             lift (default_field "attachments" parameters)) w
            = (inr (VDict (fresh_state source)), w')) as Hfresh.
  { rewrite bind_bind. unfold bind at 1. rewrite Hsave.
    rewrite bind_ret. reflexivity. }
  unfold initial_parameters, load_parameters.
  rewrite bind_bind. unfold bind at 1, get_fs.
  destruct Hother as [Hnone | (pd & Hfile' & Hsrc)].
  - rewrite Hnone, bind_ret. cbn [Py.contains ebind keys map existsb negb].
    rewrite bind_lift. now apply Hfresh.
  - rewrite Hfile', bind_ret. cbn [Py.contains ebind]. rewrite lookup_existsb.
    destruct Hsrc as [Hsrc | (recorded & Hsrc & Hne)]; rewrite Hsrc; cbn [negb].
    + rewrite bind_lift. now apply Hfresh.
    + rewrite get_dict, Hsrc. cbn [ebind]. rewrite Hne, bind_lift. cbn [negb].
      now apply Hfresh.
Qed.

End InitialState.

(** X10: the state a job starts with.  When the state document of the job's
    directory records the job's current source, it is the state of the job,
    with empty collections of filters, tasks and attachments added where
    there is none, and nothing is written.  When there is no document, or
    its source is another one or missing, what was recorded is dropped: the
    state is the source with three empty collections, and a document with
    the source alone is saved at once. *)
Theorem state_follows_the_source (path : string) (source : value) (w : world) :
  (forall pd,
     same_source path source (fs w) pd ->
     exists pd',
       initial_parameters path source w = (inr (VDict pd'), w)
       /\ (forall k v, lookup k pd = Some v -> lookup k pd' = Some v)
       /\ lookup "filters" pd' <> None
       /\ lookup "tasks" pd' <> None
       /\ lookup "attachments" pd' <> None)
  /\ (other_source path source (fs w) ->
      exists w',
        initial_parameters path source w = (inr (VDict (fresh_state source)), w')
        /\ log w'
           = (log w ++ [Dump (Path.with_suffix path ".part")
                          (VDict [("source", source)]);
                        Rename (Path.with_suffix path ".part") path])%list
        /\ file_lookup path (fs w')
           = Some (Document (VDict [("source", source)]))).
Proof.
  split.
  - intros pd. apply initial_parameters_same.
  - apply initial_parameters_other.
Qed.

Lemma state_follows_the_source_witness :
  exists w',
    initial_parameters chain_parameters (VStr "/data/other.es") stale_world
    = (inr (VDict (fresh_state (VStr "/data/other.es"))), w')
    /\ log w'
       = (log stale_world
            ++ [Dump (Path.with_suffix chain_parameters ".part")
                  (VDict [("source", VStr "/data/other.es")]);
                Rename (Path.with_suffix chain_parameters ".part")
                  chain_parameters])%list
    /\ file_lookup chain_parameters (fs w')
       = Some (Document (VDict [("source", VStr "/data/other.es")])).
Proof.
  apply (proj2 (state_follows_the_source chain_parameters
                  (VStr "/data/other.es") stale_world)).
  right. exists stale_state. split; [reflexivity |].
  right. exists (VStr "/data/rec.es"). split; reflexivity.
Defined.

(** ** A job without filters *)

Section NoFilters.

Variable E : environment.

Lemma file_lookup_filter_none path keep (f : files) :
  file_lookup path f = None ->
  file_lookup path (filter keep f) = None.
Proof.
  induction f as [|[p c] f IH]; cbn [file_lookup filter]; [reflexivity |].
  destruct (String.eqb path p) eqn:He; [discriminate |].
  intros H. destruct (keep (p, c)); cbn [file_lookup]; rewrite ?He; auto.
Qed.

Lemma rename_missing source target w :
  file_lookup source (fs w) = None ->
  rename source target w = (inl (FileNotFoundError source), w).
Proof. intros H. unfold rename, bind, get_fs. now rewrite H. Qed.

Lemma filter_stage_no_filters force configuration job sources job_name source
    parameters output_path parameters_path begin end_ index w :
  get job "filters" = inr (VList []) ->
  get job "name" = inr (VStr job_name) ->
  get configuration "sources" = inr (VDict sources) ->
  lookup job_name sources = Some (VStr source) ->
  file_lookup (with_suffix output_path ".part") (fs w) = None ->
  (force = false /\ file_lookup output_path (fs w) <> None ->
   filter_stage E force configuration job parameters output_path
     parameters_path begin end_ index w
   = (inr (parameters, index),
      {| fs := fs w;
         log := (log w ++ [Info "⏭ " "skip filters "])%list;
         fresh := fresh w |}))
  /\ (force = true \/ file_lookup output_path (fs w) = None ->
      exists w',
        filter_stage E force configuration job parameters output_path
          parameters_path begin end_ index w
        = (inl (FileNotFoundError (with_suffix output_path ".part")), w')
        /\ log w' = log w).
Proof.
  intros Hjf Hname Hsources Hsource Hpart.
  assert (exists w',
            (do job_name0 <- lift (get job "name") ;;
             do r <-
               with_temporary_directory E job_name0
                 (fun temporary_directory =>
                    do input <-
                      lift (let? sources0 := get configuration "sources" in
                            let? name := get job "name" in
                            let? source0 := Py.getitem sources0 name in
                            as_path source0) ;;
                    do job_filters <- lift (let? l := get job "filters" in Py.iter l) ;;
                    do count <- lift (let? l := get job "filters" in Py.len l) ;;
                    chain_loop E configuration temporary_directory output_path
                      begin end_ count job_filters 0 input parameters index) ;;
             do _ <- rename (with_suffix output_path ".part") output_path ;;
             do _ <- save_parameters parameters_path (fst r) ;;
             ret r) w
            = (inl (FileNotFoundError (with_suffix output_path ".part")), w')
            /\ log w' = log w) as (w' & Hrun & Hlog).
  { rewrite Hname, bind_lift. unfold bind at 1.
    erewrite with_temporary_directory_run.
    2:{ cbv beta. rewrite Hsources. cbn [ebind Py.getitem]. rewrite Hsource.
        cbn [ebind as_path]. rewrite bind_lift, Hjf. cbn [ebind Py.iter Py.len].
        rewrite !bind_lift. cbn [chain_loop]. reflexivity. }
    unfold bind at 1.
    rewrite rename_missing
      by (cbn [fs]; apply file_lookup_filter_none; exact Hpart).
    eexists. split; reflexivity. }
  unfold filter_stage. rewrite Hjf. cbn [ebind Py.len List.length].
  rewrite bind_lift. change (Z.of_nat 0 =? 1) with false. cbv iota.
  unfold filter_chain. split.
  - intros [-> Hfile]. cbn [negb]. rewrite bind_bind, Hjf.
    cbn [ebind Py.iter]. rewrite bind_lift. cbn [all_snapshots_match].
    rewrite bind_bind, bind_lift, bind_is_file.
    destruct (file_lookup output_path (fs w)); [| congruence].
    reflexivity.
  - intros Hnot. exists w'. split; [| exact Hlog].
    destruct force; cbn [negb].
    + rewrite bind_ret. exact Hrun.
    + destruct Hnot as [Hf | Hfile]; [discriminate |].
      rewrite Hjf in Hrun. cbn [ebind Py.iter] in Hrun.
      rewrite bind_bind, Hjf. cbn [ebind Py.iter]. rewrite bind_lift.
      cbn [all_snapshots_match]. rewrite bind_bind, bind_lift, bind_is_file.
      rewrite Hfile. exact Hrun.
Qed.

End NoFilters.

(** X11: a job with an empty list of filters is not rendered.  The stage of
    the filters takes the branch of the chains; unless the run is not forced
    and the output file is there, in which case it reports a skip, it
    invokes no filter and stops on the renaming of the temporary output,
    which nothing has written, with [FileNotFoundError]. *)
Theorem job_without_filters_fails (E : environment) (force : bool)
    (configuration job : value) (sources : items) (job_name source : string)
    (parameters : value) (output_path parameters_path : string)
    (begin end_ index : Z) (w : world) :
  get job "filters" = inr (VList []) ->
  get job "name" = inr (VStr job_name) ->
  get configuration "sources" = inr (VDict sources) ->
  lookup job_name sources = Some (VStr source) ->
  file_lookup (with_suffix output_path ".part") (fs w) = None ->
  (force = false /\ file_lookup output_path (fs w) <> None ->
   filter_stage E force configuration job parameters output_path
     parameters_path begin end_ index w
   = (inr (parameters, index),
      {| fs := fs w;
         log := (log w ++ [Info "⏭ " "skip filters "])%list;
         fresh := fresh w |}))
  /\ (force = true \/ file_lookup output_path (fs w) = None ->
      exists w',
        filter_stage E force configuration job parameters output_path
          parameters_path begin end_ index w
        = (inl (FileNotFoundError (with_suffix output_path ".part")), w')
        /\ log w' = log w).
Proof. apply filter_stage_no_filters. Qed.

Lemma job_without_filters_fails_witness :
  (false = false /\ file_lookup "/work/renders/rec-b0-e1/rec-b0-e1.es" (fs empty_world) <> None ->
   filter_stage sample_environment false
     (sample_configuration [sample_job "rec" [] []] (VDict []))
     (sample_job "rec" [] []) sample_state
     "/work/renders/rec-b0-e1/rec-b0-e1.es"
     "/work/renders/rec-b0-e1/parameters.toml" 0 1000000 0 empty_world
   = (inr (sample_state, 0),
      {| fs := fs empty_world;
         log := (log empty_world ++ [Info "⏭ " "skip filters "])%list;
         fresh := fresh empty_world |}))
  /\ (false = true \/ file_lookup "/work/renders/rec-b0-e1/rec-b0-e1.es" (fs empty_world) = None ->
      exists w',
        filter_stage sample_environment false
          (sample_configuration [sample_job "rec" [] []] (VDict []))
          (sample_job "rec" [] []) sample_state
          "/work/renders/rec-b0-e1/rec-b0-e1.es"
          "/work/renders/rec-b0-e1/parameters.toml" 0 1000000 0 empty_world
        = (inl (FileNotFoundError
                  (with_suffix "/work/renders/rec-b0-e1/rec-b0-e1.es" ".part")), w')
        /\ log w' = log empty_world).
Proof.
  apply (job_without_filters_fails sample_environment false _ _
           [("rec", VStr "/data/rec.es")] "rec" "/data/rec.es");
    reflexivity.
Defined.

(** ** Validation of the attachments *)

Section AttachmentTargets.

Lemma existsb_eq_str t (r : list string) :
  existsb (Py.eq (VStr t)) (map VStr r) = existsb (String.eqb t) r.
Proof.
  induction r as [|x r IH]; cbn [map existsb]; [reflexivity |].
  now rewrite IH.
Qed.

(** [len(targets) != len(set(targets))] on strings: a repeated target. *)
Lemma distinct_strings (targets : list string) :
  exists b, distinct (map VStr targets) = inr b /\ (b = true <-> NoDup targets).
Proof.
  induction targets as [|t r (b & Hb & Hiff)]; cbn [map distinct].
  - exists true. split; [reflexivity |]. split; [constructor | reflexivity].
  - rewrite Hb. cbn [ebind]. eexists. split; [reflexivity |].
    rewrite existsb_eq_str, andb_true_iff, negb_true_iff, NoDup_cons_iff, Hiff.
    assert (existsb (String.eqb t) r = false <-> ~ In t r) as ->; [| tauto].
    rewrite <- existsb_eqb_In. destruct (existsb (String.eqb t) r); split;
      congruence.
Qed.

Lemma validate_attachment_spec name files targets :
  emap (fun file => get file "target") files = inr (map VStr targets) ->
  (NoDup targets -> validate_attachment (name, VList files) = inr tt)
  /\ (~ NoDup targets ->
      validate_attachment (name, VList files)
      = error ("two or more attachments share the same target in "
                 ++ q ++ name ++ q)).
Proof.
  intros Ht. unfold validate_attachment. cbn [Py.iter ebind]. rewrite Ht.
  cbn [ebind]. destruct (distinct_strings targets) as (b & -> & Hiff).
  cbn [ebind]. destruct b; cbn [negb].
  - split; [reflexivity |]. intros H. exfalso. apply H. now apply Hiff.
  - split; [| reflexivity]. intros H. apply Hiff in H. discriminate.
Qed.

End AttachmentTargets.

(** X12: the validation of the attachments of one name, a sequence of
    files whose targets are strings, passes exactly when no two files have
    the same target; otherwise it ends with the error that two or more
    attachments share the same target, which names the entry. *)
Theorem attachment_targets_must_differ (name : string) (files : list value)
    (targets : list string) :
  emap (fun file => get file "target") files = inr (map VStr targets) ->
  (NoDup targets -> validate_attachment (name, VList files) = inr tt)
  /\ (~ NoDup targets ->
      validate_attachment (name, VList files)
      = error ("two or more attachments share the same target in "
                 ++ q ++ name ++ q)).
Proof. apply validate_attachment_spec. Qed.

Lemma attachment_targets_must_differ_witness :
  (NoDup ["rec.txt"; "rec.txt"] ->
   validate_attachment
     ("rec", VList [sample_attachment;
                    VDict [("source", VStr "/data/other.txt");
                           ("target", VStr "rec.txt")]])
   = inr tt)
  /\ (~ NoDup ["rec.txt"; "rec.txt"] ->
      validate_attachment
        ("rec", VList [sample_attachment;
                       VDict [("source", VStr "/data/other.txt");
                              ("target", VStr "rec.txt")]])
      = error ("two or more attachments share the same target in "
                 ++ q ++ "rec" ++ q)).
Proof. apply attachment_targets_must_differ. reflexivity. Defined.

(** ** The configure command *)

Section RecordingRange.

Lemma last_cons (r : list Z) : forall x d, last (x :: r) d = last r x.
Proof.
  induction r as [|y r IH]; intros x d; [reflexivity |].
  change (last (x :: y :: r) d) with (last (y :: r) d).
  now rewrite !IH.
Qed.

Lemma last_app_cons (r l : list Z) y x : last (r ++ y :: l) x = last l y.
Proof.
  induction r as [|z r IH]; cbn [app]; rewrite last_cons; [reflexivity |].
  rewrite <- IH. destruct r; cbn [app]; now rewrite !last_cons.
Qed.

(** The loop over the packets, none of them empty, once [begin] is set. *)
Lemma read_packets_started : forall packets b e,
  Forall (fun t : list Z => t <> []) packets ->
  efold read_packet packets (Some b, e)
  = inr (Some b, match List.concat packets with
                 | [] => e
                 | x :: r => Some (last r x)
                 end).
Proof.
  induction packets as [|t packets IH]; intros b e Hne; [reflexivity |].
  apply Forall_cons_iff in Hne as [Ht Hne].
  destruct t as [|x r]; [congruence |].
  cbn [efold read_packet ebind last_timestamp]. rewrite IH by exact Hne.
  cbn [List.concat app]. do 2 f_equal.
  destruct (List.concat packets) as [|y l].
  - now rewrite app_nil_r.
  - now rewrite last_app_cons.
Qed.

Lemma recording_range_spec packets :
  Forall (fun t : list Z => t <> []) packets ->
  recording_range packets
  = inr (hd 0 (List.concat packets), last (List.concat packets) 0 + 1).
Proof.
  intros Hne. unfold recording_range.
  destruct packets as [|t packets]; [reflexivity |].
  apply Forall_cons_iff in Hne as [Ht Hne].
  destruct t as [|x r]; [congruence |].
  cbn [efold read_packet ebind first_timestamp last_timestamp].
  rewrite read_packets_started by exact Hne. cbn [ebind List.concat app hd].
  rewrite last_cons. destruct (List.concat packets) as [|y l].
  - now rewrite app_nil_r.
  - now rewrite last_app_cons.
Qed.

Lemma sorted_below_last (l : list Z) : forall d,
  StronglySorted Z.le (d :: l) -> Forall (fun t => t <= last l d) (d :: l).
Proof.
  induction l as [|y r IH]; intros d Hs.
  - constructor; [cbn; lia | constructor].
  - apply StronglySorted_inv in Hs as [Hs Hd].
    specialize (IH y Hs). rewrite last_cons.
    pose proof (Forall_inv Hd) as Hdy. pose proof (Forall_inv IH) as Hy.
    cbv beta in Hdy, Hy. constructor; [lia | exact IH].
Qed.

Lemma sorted_within (l : list Z) :
  Sorted Z.le l ->
  Forall (fun t => hd 0 l <= t < last l 0 + 1) l.
Proof.
  intros Hs. apply Sorted_StronglySorted in Hs; [| intros a b c; apply Z.le_trans].
  destruct l as [|x r]; [constructor |].
  pose proof (sorted_below_last r x Hs) as Hlast.
  apply StronglySorted_inv in Hs as [_ Hx].
  rewrite last_cons. cbn [hd].
  assert (Forall (fun t => x <= t) (x :: r)) as Hfirst
    by (constructor; [lia | exact Hx]).
  rewrite Forall_forall in *. intros t Ht.
  specialize (Hfirst t Ht). specialize (Hlast t Ht). cbv beta in *. lia.
Qed.

Lemma configure_job_spec E name packets :
  Forall (fun t : list Z => t <> []) packets ->
  Sorted Z.le (List.concat packets) ->
  Forall (fun t => 0 <= t) (List.concat packets) ->
  exists job b e,
    configure_job name packets = inr job
    /\ b = hd 0 (List.concat packets)
    /\ e = last (List.concat packets) 0 + 1
    /\ (let? v := get job "begin" in timecode E v) = inr b
    /\ (let? v := get job "end" in timecode E v) = inr e
    /\ Forall (fun t => b <= t < e) (List.concat packets).
Proof.
  intros Hne Hsorted Hpos. unfold configure_job.
  rewrite recording_range_spec by exact Hne. cbn [ebind].
  pose proof (sorted_within _ Hsorted) as Hin.
  set (b := hd 0 (List.concat packets)) in *.
  set (e := last (List.concat packets) 0 + 1) in *.
  assert (0 <= b /\ 0 <= e) as [Hb He].
  { unfold b, e. destruct (List.concat packets) as [|x r]; [cbn; lia |].
    pose proof (Forall_inv Hpos) as Hx. pose proof (Forall_inv Hin) as Hx'.
    cbn [hd] in *. cbv beta in *. lia. }
  eexists _, b, e. split; [reflexivity |]. repeat split; try exact Hin.
  - rewrite get_dict. cbn [lookup String.eqb Ascii.eqb Bool.eqb ebind].
    now apply timecode_of_timestamp.
  - rewrite get_dict. cbn [lookup String.eqb Ascii.eqb Bool.eqb ebind].
    now apply timecode_of_timestamp.
Qed.

End RecordingRange.

(** X13: the range that the configure command writes for a recording.  For
    packets that are not empty, with timestamps that are not negative and
    do not decrease along the recording, the job's [begin] and [end] are
    timecodes that [timecode] reads back as the first timestamp and as the
    last timestamp plus one (0 and 1 for a recording without packets), and
    every timestamp of the recording is in the range [begin, end). *)
Theorem configured_range_covers_recording (E : environment) (name : string)
    (packets : list (list Z)) :
  Forall (fun t : list Z => t <> []) packets ->
  Sorted Z.le (List.concat packets) ->
  Forall (fun t => 0 <= t) (List.concat packets) ->
  exists job b e,
    configure_job name packets = inr job
    /\ b = hd 0 (List.concat packets)
    /\ e = last (List.concat packets) 0 + 1
    /\ (let? v := get job "begin" in timecode E v) = inr b
    /\ (let? v := get job "end" in timecode E v) = inr e
    /\ Forall (fun t => b <= t < e) (List.concat packets).
Proof. apply configure_job_spec. Qed.

Lemma configured_range_covers_recording_witness :
  exists job b e,
    configure_job "rec" [[1000; 1500]; [1500; 4000000]] = inr job
    /\ b = hd 0 (List.concat [[1000; 1500]; [1500; 4000000]])
    /\ e = last (List.concat [[1000; 1500]; [1500; 4000000]]) 0 + 1
    /\ (let? v := get job "begin" in timecode sample_environment v) = inr b
    /\ (let? v := get job "end" in timecode sample_environment v) = inr e
    /\ Forall (fun t => b <= t < e) (List.concat [[1000; 1500]; [1500; 4000000]]).
Proof.
  apply configured_range_covers_recording.
  - repeat constructor; discriminate.
  - cbn [List.concat app]. repeat constructor; lia.
  - cbn [List.concat app]. repeat constructor; lia.
Defined.

Section ConfiguredAttachments.

Variable iterdir : string -> list string.

Lemma take_drop i : forall s, PurePath.take i s ++ PyStr.drop i s = s.
Proof.
  induction i as [|i IH]; intros s; [reflexivity |].
  destruct s as [|c s]; [reflexivity |]. cbn. now rewrite IH.
Qed.

(** A name is its stem followed by its suffix. *)
Lemma stem_suffix p : PurePath.stem p ++ PurePath.suffix p = PurePath.name p.
Proof.
  unfold PurePath.stem, PurePath.suffix.
  destruct (PurePath.rfind "." (PurePath.name p)) as [i|];
    [| apply DecimalFacts.append_nil_r].
  destruct ((0 <? i) && (i <? String.length (PurePath.name p) - 1))%nat.
  - apply take_drop.
  - apply DecimalFacts.append_nil_r.
Qed.

Lemma append_cancel_l a : forall b c : string, a ++ b = a ++ c -> b = c.
Proof.
  induction a as [|x a IH]; intros b c H; [exact H |].
  injection H as H. now apply IH.
Qed.

Lemma set_item_same_value k v (d : items) :
  lookup k d = Some v -> set_item k v d = d.
Proof.
  induction d as [|[k' x] d IH]; cbn [lookup set_item]; [discriminate |].
  destruct (String.eqb k k') eqn:He.
  - apply String.eqb_eq in He. subst k'. now intros [= ->].
  - intros H. now rewrite IH.
Qed.

Lemma set_item_twice k v v' (d : items) :
  set_item k v (set_item k v' d) = set_item k v d.
Proof.
  induction d as [|[k' x] d IH]; cbn [set_item].
  - now rewrite String.eqb_refl.
  - destruct (String.eqb k k') eqn:He; cbn [set_item].
    + now rewrite String.eqb_refl.
    + now rewrite He, IH.
Qed.

Lemma lookup_none_existsb k (d : items) :
  lookup k d = None -> existsb (String.eqb k) (keys d) = false.
Proof. intros H. now rewrite lookup_existsb, H. Qed.

Lemma add_sibling_attached name path d files sibling :
  attached path sibling = true ->
  lookup name d = Some (VList files) ->
  add_sibling name path (VDict d) sibling
  = inr (VDict (set_item name (VList (files ++ [attachment_of name sibling])) d)).
Proof.
  intros Ha Hl. unfold add_sibling. fold (attached path sibling). rewrite Ha.
  cbn [Py.contains ebind]. rewrite lookup_existsb, Hl. cbn [negb ebind].
  rewrite get_dict, Hl. reflexivity.
Qed.

Lemma add_sibling_other name path attachments sibling :
  attached path sibling = false ->
  add_sibling name path attachments sibling = inr attachments.
Proof.
  intros Ha. unfold add_sibling. fold (attached path sibling). now rewrite Ha.
Qed.

(** The loop over the siblings, once the name has its list. *)
Lemma add_siblings_present name path : forall siblings d files,
  lookup name d = Some (VList files) ->
  efold (add_sibling name path) siblings (VDict d)
  = inr (VDict (set_item name
                  (VList (files ++ map (attachment_of name)
                                     (filter (attached path) siblings))) d)).
Proof.
  induction siblings as [|s siblings IH]; intros d files Hl.
  - cbn [efold filter map]. rewrite app_nil_r.
    now rewrite set_item_same_value.
  - cbn [efold filter]. destruct (attached path s) eqn:Ha.
    + rewrite (add_sibling_attached _ _ _ _ _ Ha Hl). cbn [ebind].
      rewrite (IH _ (files ++ [attachment_of name s])%list)
        by apply lookup_set_item_same.
      rewrite set_item_twice. cbn [map]. now rewrite <- app_assoc.
    + rewrite (add_sibling_other _ _ _ _ Ha). cbn [ebind]. now apply IH.
Qed.

(** The loop over the siblings for a name that has no list yet. *)
Lemma add_siblings_absent name path : forall siblings d,
  lookup name d = None ->
  efold (add_sibling name path) siblings (VDict d)
  = inr (VDict match filter (attached path) siblings with
               | [] => d
               | l => (d ++ [(name, VList (map (attachment_of name) l))])%list
               end).
Proof.
  induction siblings as [|s siblings IH]; intros d Hl; [reflexivity |].
  cbn [efold filter]. destruct (attached path s) eqn:Ha.
  - unfold add_sibling at 1. fold (attached path s). rewrite Ha.
    cbn [Py.contains ebind]. rewrite (lookup_none_existsb _ _ Hl).
    cbn [negb setitem ebind]. rewrite get_dict, lookup_set_item_same.
    cbn [ebind append app setitem]. rewrite set_item_twice.
    rewrite (add_siblings_present name path siblings _ [attachment_of name s])
      by apply lookup_set_item_same.
    rewrite set_item_twice, (set_item_absent _ _ _ (lookup_none_existsb _ _ Hl)).
    reflexivity.
  - rewrite (add_sibling_other _ _ _ _ Ha). cbn [ebind]. now apply IH.
Qed.

Lemma emap_targets name : forall siblings,
  emap (fun file => get file "target") (map (attachment_of name) siblings)
  = inr (map VStr (map (fun s => name ++ PurePath.suffix s) siblings)).
Proof.
  induction siblings as [|s siblings IH]; [reflexivity |].
  cbn [map emap]. rewrite IH. reflexivity.
Qed.

Lemma NoDup_map_on {A B} (f : A -> B) (l : list A) :
  (forall a b, In a l -> In b l -> f a = f b -> a = b) ->
  NoDup l -> NoDup (map f l).
Proof.
  intros Hinj Hnd. induction Hnd as [|x l Hx Hnd IH]; [constructor |].
  cbn [map]. constructor.
  - intros Hin. apply in_map_iff in Hin as (y & Hy & Hyl).
    apply Hx. rewrite (Hinj x y); [exact Hyl | now left | now right | now symmetry ].
  - apply IH. intros a b Ha Hb. apply Hinj; now right.
Qed.

(** The targets of the attachments of one recording are all different. *)
Lemma attached_targets_differ name path :
  NoDup (iterdir (PurePath.parent path)) ->
  NoDup (map (fun s => name ++ PurePath.suffix s)
           (filter (attached path)
              (map (PurePath.make (PurePath.parent path))
                 (iterdir (PurePath.parent path))))).
Proof.
  intros Hnd. apply NoDup_map_on.
  - intros a b Ha Hb Heq.
    apply filter_In in Ha as [Ha Hma]. apply filter_In in Hb as [Hb Hmb].
    apply in_map_iff in Ha as (na & <- & _).
    apply in_map_iff in Hb as (nb & <- & _).
    apply append_cancel_l in Heq.
    unfold attached in Hma, Hmb.
    apply andb_true_iff in Hma as [_ Hma]. apply andb_true_iff in Hmb as [_ Hmb].
    apply String.eqb_eq in Hma, Hmb.
    pose proof (stem_suffix (PurePath.make (PurePath.parent path) na)) as Sa.
    pose proof (stem_suffix (PurePath.make (PurePath.parent path) nb)) as Sb.
    cbn [PurePath.name] in Sa, Sb. congruence.
  - apply NoDup_filter, NoDup_map_on; [| exact Hnd].
    intros a b _ _ [= ->]. reflexivity.
Qed.

Lemma configure_attachments_valid : forall names paths d processed,
  Forall (fun kv => validate_attachment kv = inr tt) d ->
  (forall k, In k (keys d) -> In k processed) ->
  NoDup (processed ++ names) ->
  (forall directory, NoDup (iterdir directory)) ->
  exists d',
    efold (add_siblings iterdir) (combine names paths) (VDict d) = inr (VDict d')
    /\ Forall (fun kv => validate_attachment kv = inr tt) d'.
Proof.
  induction names as [|name names IH]; intros paths d processed Hvalid Hkeys Hnd Hdir.
  - exists d. split; [reflexivity | exact Hvalid].
  - destruct paths as [|path paths]; [exists d; split; [reflexivity | exact Hvalid] |].
    cbn [combine efold add_siblings].
    assert (lookup name d = None) as Habsent.
    { destruct (lookup name d) eqn:Hl; [| reflexivity]. exfalso.
      assert (In name (keys d)) as Hin.
      { apply existsb_eqb_In. now rewrite lookup_existsb, Hl. }
      apply Hkeys in Hin. apply NoDup_remove_2 in Hnd. apply Hnd.
      apply in_or_app. now left. }
    rewrite (add_siblings_absent name path _ d Habsent). cbn [ebind].
    apply (IH paths _ (processed ++ [name])%list).
    + destruct (filter (attached path) _) as [|s l] eqn:Hf; [exact Hvalid |].
      apply Forall_app. split; [exact Hvalid |]. constructor; [| constructor].
      apply (validate_attachment_spec name _ _ (emap_targets name (s :: l))).
      rewrite <- Hf. apply attached_targets_differ, Hdir.
    + intros k Hk. apply in_or_app.
      destruct (filter (attached path) _); [left; now apply Hkeys |].
      unfold keys in Hk. rewrite map_app in Hk. apply in_app_or in Hk as [Hk | Hk].
      * left. now apply Hkeys.
      * right. exact Hk.
    + now rewrite <- app_assoc.
    + exact Hdir.
Qed.

Lemma efold_validate_attachments (d : items) :
  Forall (fun kv => validate_attachment kv = inr tt) d ->
  efold (fun (_ : unit) na => validate_attachment na) d tt = inr tt.
Proof.
  induction d as [|kv d IH]; intros H; [reflexivity |].
  apply Forall_cons_iff in H as [Hkv H]. cbn [efold]. rewrite Hkv. now apply IH.
Qed.

Lemma configure_attachments_spec names paths :
  NoDup names ->
  (forall directory, NoDup (iterdir directory)) ->
  exists d,
    configure_attachments iterdir names paths = inr (VDict d)
    /\ efold (fun (_ : unit) na => validate_attachment na) d tt = inr tt.
Proof.
  intros Hnd Hdir.
  destruct (configure_attachments_valid names paths [] [] (Forall_nil _)
              (fun k (H : In k []) => match H with end) Hnd Hdir)
    as (d & Hd & Hvalid).
  exists d. split; [exact Hd | now apply efold_validate_attachments].
Qed.

End ConfiguredAttachments.

(** X14: the attachments that the configure command writes pass the
    validation of the run command.  When the generated names are all
    different and a directory does not list a name twice, the files
    attached to a recording, its siblings with the same stem, get targets
    that are all different, since their suffixes are, so the loop of the
    run command over the attachments finds no shared target. *)
Theorem configured_attachments_pass_validation (iterdir : string -> list string)
    (names : list string) (paths : list PurePath.t) :
  NoDup names ->
  (forall directory, NoDup (iterdir directory)) ->
  exists d,
    configure_attachments iterdir names paths = inr (VDict d)
    /\ efold (fun (_ : unit) na => validate_attachment na) d tt = inr tt.
Proof. apply configure_attachments_spec. Qed.

Lemma configured_attachments_pass_validation_witness :
  exists d,
    configure_attachments sample_iterdir ["rec"] [PurePath.make "/data" "rec.es"]
    = inr (VDict d)
    /\ efold (fun (_ : unit) na => validate_attachment na) d tt = inr tt.
Proof.
  apply configured_attachments_pass_validation.
  - repeat constructor. intros [].
  - intros directory. unfold sample_iterdir.
    destruct (String.eqb directory "/data"); repeat constructor;
      cbn [In]; intuition discriminate.
Defined.

(** The attachments of the sample directory: the text file; the archive
    has another stem. *)
Example sample_configured_attachments :
  configure_attachments sample_iterdir ["rec"] [PurePath.make "/data" "rec.es"]
  = inr (VDict [("rec", VList [VDict [("source", VStr "/data/rec.txt");
                                      ("target", VStr "rec.txt")]])]).
Proof. reflexivity. Qed.

(** ** What the run command never does *)

Section ValidatedJobs.

Variable E : environment.

(** The validation of a task pattern never returns: the test of line 615
    sends every pattern to [error]. *)
Lemma validate_task_never configuration job expanded_tasks task x :
  validate_task E configuration job expanded_tasks task <> inr x.
Proof.
  unfold validate_task. intros H.
  destruct task as [| | | pattern | |]; try discriminate.
  destruct (re_valid E pattern); [| discriminate].
  apply ebind_inr in H as (tasks & Htasks & H).
  apply ebind_inr in H as (d & Hd & H).
  destruct tasks as [| | | | |d0]; try discriminate. injection Hd as <-.
  destruct (match_task_names E pattern (keys d0) expanded_tasks false)
    as [expanded found].
  rewrite Htasks in H. cbn [ebind Py.contains negb] in H.
  apply ebind_inr in H as (? & _ & H). discriminate.
Qed.

(** A job that passes the validation has no task the loop of the run
    command could take. *)
Lemma validate_job_tasks configuration job tasks :
  validate_job E configuration job = inr tt ->
  (let? l := get job "tasks" in Py.iter l) = inr tasks ->
  tasks = [].
Proof.
  unfold validate_job. intros H Htasks.
  apply ebind_inr in H as (name & _ & H).
  apply ebind_inr in H as (sources & _ & H).
  apply ebind_inr in H as (listed & _ & H).
  apply ebind_inr in H as ([] & _ & H).
  apply ebind_inr in H as (job_filters & _ & H).
  apply ebind_inr in H as (job_filters' & _ & H).
  apply ebind_inr in H as ([] & _ & H).
  apply ebind_inr in H as (has_tasks & Hhas & H).
  apply ebind_inr in H as (expanded & Hloop & _).
  apply ebind_inr in Htasks as (l & Hl & Hiter).
  destruct has_tasks.
  - rewrite Hl in Hloop. cbn [ebind] in Hloop. rewrite Hiter in Hloop.
    cbn [ebind] in Hloop. destruct tasks as [|task tasks]; [reflexivity |].
    cbn [efold] in Hloop. apply ebind_inr in Hloop as (x & Hx & _).
    now apply validate_task_never in Hx.
  - apply get_inr in Hl as (d & -> & Hl). cbn [Py.contains] in Hhas.
    rewrite lookup_existsb, Hl in Hhas. discriminate.
Qed.

Lemma tasks_stage_validated force configuration job directory name
    output_path parameters_path begin end_ parameters w :
  validate_job E configuration job = inr tt ->
  forall configuration',
    log (snd (tasks_stage E force configuration' job directory name output_path
                parameters_path begin end_ parameters w))
    = log w.
Proof.
  intros Hvalid configuration'. unfold tasks_stage, bind, lift.
  destruct (let? l := get job "tasks" in Py.iter l) as [e | tasks] eqn:Ht;
    [reflexivity |].
  now rewrite (validate_job_tasks configuration job tasks Hvalid Ht).
Qed.

Lemma efold_validated {A} (f : A -> exn + unit) : forall l,
  efold (fun (_ : unit) x => f x) l tt = inr tt ->
  Forall (fun x => f x = inr tt) l.
Proof.
  induction l as [|x l IH]; cbn [efold]; intros H; [constructor |].
  apply ebind_inr in H as ([] & Hx & H). constructor; auto.
Qed.

(** What the checks leave for the jobs: the jobs are the validated ones
    and the attachments are a mapping. *)
Lemma check_configuration_inr configuration checked :
  check_configuration E configuration = inr checked ->
  (forall jobs,
     (let? l := get checked "jobs" in Py.iter l) = inr jobs ->
     Forall (fun job => validate_job E configuration job = inr tt) jobs)
  /\ exists attachments, get checked "attachments" = inr (VDict attachments).
Proof.
  unfold check_configuration. intros H.
  apply ebind_inr in H as (jobs0 & Hjobs0 & H).
  apply ebind_inr in H as (jobs & Hjobs & H).
  apply ebind_inr in H as ([] & Hvalid & H).
  apply ebind_inr in H as (attachments & Hattachments & H).
  apply ebind_inr in H as (d & Hd & H).
  apply ebind_inr in H as ([] & _ & H).
  apply ebind_inr in H as (filters & _ & H).
  apply ebind_inr in H as (filters' & _ & H).
  apply ebind_inr in H as (filters'' & _ & H).
  apply ebind_inr in H as (c1 & Hc1 & H).
  apply ebind_inr in H as (tasks & _ & H).
  apply ebind_inr in H as (tasks' & _ & H).
  apply ebind_inr in H as (tasks'' & _ & H).
  apply get_inr in Hjobs0 as (d0 & -> & Hjobs0).
  cbn [setitem] in Hc1. injection Hc1 as <-.
  cbn [setitem] in H. injection H as <-.
  assert (forall k, String.eqb k "filters" = false -> String.eqb k "tasks" = false ->
            get (VDict (set_item "tasks" (VDict tasks'')
                          (set_item "filters" (VDict filters'') d0))) k
            = get (VDict d0) k) as Hsame.
  { intros k H1 H2. now rewrite !get_dict, !lookup_set_item_other. }
  split.
  - intros jobs' Hj. rewrite Hsame in Hj by reflexivity.
    rewrite get_dict, Hjobs0 in Hj. cbn [ebind] in Hj.
    rewrite Hjobs in Hj. injection Hj as <-.
    now apply efold_validated in Hvalid.
  - rewrite Hsame by reflexivity. rewrite Hattachments.
    destruct attachments; try discriminate. eauto.
Qed.

Lemma attachments_stage_mapping force directory name configuration
    parameters attachments w :
  get configuration "attachments" = inr (VDict attachments) ->
  log (snd (attachments_stage force directory name configuration parameters w))
  = log w.
Proof.
  intros H. destruct attachments as [|[key attachment] rest].
  - unfold attachments_stage, bind, lift. now rewrite H.
  - now rewrite (attachments_stage_type_error _ _ _ _ _ _ _ _ _ H).
Qed.

End ValidatedJobs.

Section Emissions.

Variable P : event -> Prop.

Lemma emits_silent {A} (m : M A) :
  (forall w, log (snd (m w)) = log w) -> emits_only P m.
Proof.
  intros H w. exists []. rewrite app_nil_r. split; [apply H | constructor].
Qed.

Lemma emits_ret {A} (a : A) : emits_only P (ret a).
Proof. now apply emits_silent. Qed.

Lemma emits_lift {A} (r : exn + A) : emits_only P (lift r).
Proof. now apply emits_silent. Qed.

Lemma emits_raise {A} (e : exn) : emits_only P (@raise A e).
Proof. now apply emits_silent. Qed.

Lemma emits_get_fs : emits_only P get_fs.
Proof. now apply emits_silent. Qed.

Lemma emits_set_fs f : emits_only P (set_fs f).
Proof. now apply emits_silent. Qed.

Lemma emits_next_fresh : emits_only P next_fresh.
Proof. now apply emits_silent. Qed.

Lemma emits_bind {A B} (m : M A) (f : A -> M B) :
  emits_only P m -> (forall a, emits_only P (f a)) -> emits_only P (bind m f).
Proof.
  intros Hm Hf w. unfold bind. destruct (Hm w) as (ev1 & H1 & N1).
  destruct (m w) as [[e | a] w1]; simpl in *.
  - exists ev1. auto.
  - destruct (Hf a w1) as (ev2 & H2 & N2). exists (ev1 ++ ev2)%list.
    rewrite H2, H1, app_assoc. split; [reflexivity | now apply Forall_app].
Qed.

(** A step that only computes: what follows knows its result. *)
Lemma emits_bind_lift {A B} (r : exn + A) (f : A -> M B) :
  (forall a, r = inr a -> emits_only P (f a)) -> emits_only P (bind (lift r) f).
Proof.
  intros Hf. destruct r as [e | a].
  - now apply emits_silent.
  - intros w. apply (Hf a eq_refl).
Qed.

Lemma emits_emit e : P e -> emits_only P (emit e).
Proof.
  intros He w. exists [e]. split; [reflexivity | now repeat constructor].
Qed.

Lemma emits_is_file path : emits_only P (is_file path).
Proof. now apply emits_silent. Qed.

Lemma emits_mfold {A S} (f : S -> A -> M S) l :
  (forall s x, emits_only P (f s x)) -> forall s, emits_only P (mfold f l s).
Proof.
  intros Hf. induction l as [|x l IH]; intros s; simpl.
  - apply emits_ret.
  - apply emits_bind; [apply Hf | exact IH].
Qed.

Lemma emits_load_parameters path : emits_only P (load_parameters path).
Proof.
  apply emits_silent. intros w. unfold load_parameters, bind, get_fs.
  destruct (file_lookup path (fs w)) as [[|v]|]; reflexivity.
Qed.

Hypothesis Hinfo : forall icon message, P (Info icon message).
Hypothesis Hstdout : forall text, P (Stdout text).
Hypothesis Hmkdir : forall path, P (Mkdir path).
Hypothesis Hrename : forall source target, P (Rename source target).
Hypothesis Hdump : forall path document, P (Dump path document).
Hypothesis Hfilter :
  forall type input output begin end_ parameters,
    P (ApplyFilter type input output begin end_ parameters).

Lemma emits_info icon message : emits_only P (info icon message).
Proof. apply emits_emit, Hinfo. Qed.

Lemma emits_rename source target : emits_only P (rename source target).
Proof.
  apply emits_bind; [apply emits_get_fs | intros f].
  destruct (file_lookup source f); [| apply emits_raise].
  apply emits_bind; [apply emits_emit, Hrename | intros; apply emits_set_fs].
Qed.

Lemma emits_save_parameters path parameters :
  emits_only P (save_parameters path parameters).
Proof.
  unfold save_parameters.
  apply emits_bind; [apply emits_get_fs | intros f].
  apply emits_bind; [apply emits_emit, Hdump | intros _].
  apply emits_bind; [apply emits_set_fs | intros _]. apply emits_rename.
Qed.

Lemma emits_apply_filter type apply input output begin end_ parameters :
  emits_only P (apply_filter type apply input output begin end_ parameters).
Proof.
  unfold apply_filter.
  apply emits_bind; [apply emits_emit, Hfilter | intros _].
  apply emits_bind; [apply emits_get_fs | intros f].
  destruct (apply f input output begin end_ parameters);
    [apply emits_set_fs | apply emits_raise].
Qed.

Lemma emits_with_temporary_directory E {A} suffix (body : string -> M A) :
  (forall directory, emits_only P (body directory)) ->
  emits_only P (with_temporary_directory E suffix body).
Proof.
  intros Hbody. unfold with_temporary_directory.
  apply emits_bind; [apply emits_lift | intros s].
  apply emits_bind; [apply emits_next_fresh | intros n].
  intros w. destruct (Hbody (mkdtemp E n s) w) as (events & Hlog & HP).
  exists events. destruct (body (mkdtemp E n s) w) as [r w1]. auto.
Qed.

Ltac emits_step :=
  first
    [ apply emits_ret | apply emits_lift | apply emits_raise
    | apply emits_is_file | apply emits_rename | apply emits_info
    | apply emits_save_parameters | apply emits_apply_filter
    | apply emits_next_fresh | apply emits_load_parameters
    | apply emits_emit; solve [auto]
    | apply emits_with_temporary_directory; intros ?
    | apply emits_bind; [| intros ?]
    | match goal with
      | |- emits_only _ (if ?b then _ else _) => destruct b
      | |- emits_only _ (let (_, _) := ?p in _) => destruct p
      end ].

Variable E : environment.

Lemma emits_chain_loop configuration temporary_directory output_path
    begin end_ count : forall job_filters index input parameters last_index,
  emits_only P
    (chain_loop E configuration temporary_directory output_path begin end_
       count job_filters index input parameters last_index).
Proof.
  induction job_filters as [|filter_name rest IH]; intros; cbn [chain_loop].
  - apply emits_ret.
  - repeat emits_step; apply IH.
Qed.

Lemma emits_filter_stage force configuration job parameters output_path
    parameters_path begin end_ index :
  emits_only P
    (filter_stage E force configuration job parameters output_path
       parameters_path begin end_ index).
Proof.
  unfold filter_stage, single_filter, filter_chain.
  repeat first [apply emits_chain_loop | emits_step].
Qed.

Lemma emits_initial_parameters parameters_path source :
  emits_only P (initial_parameters parameters_path source).
Proof. unfold initial_parameters. repeat emits_step. Qed.

(** One job, when its attachments and its tasks add nothing else. *)
Lemma emits_run_job force directory configuration index job :
  (forall directory name parameters,
     emits_only P (attachments_stage force directory name configuration parameters)) ->
  (forall directory name output_path parameters_path begin end_ parameters,
     emits_only P
       (tasks_stage E force configuration job directory name output_path
          parameters_path begin end_ parameters)) ->
  emits_only P (run_job E force directory configuration index job).
Proof.
  intros Hattachments Htasks. unfold run_job.
  repeat first
    [ apply Hattachments | apply Htasks | apply emits_filter_stage
    | apply emits_initial_parameters | emits_step ].
Qed.

Lemma emits_run_jobs force directory configuration : forall jobs index,
  (forall directory name parameters,
     emits_only P (attachments_stage force directory name configuration parameters)) ->
  Forall (fun job =>
            forall directory name output_path parameters_path begin end_
                   parameters,
              emits_only P
                (tasks_stage E force configuration job directory name
                   output_path parameters_path begin end_ parameters)) jobs ->
  emits_only P (run_jobs E force directory configuration index jobs).
Proof.
  induction jobs as [|job jobs IH]; intros index Hattachments Htasks;
    cbn [run_jobs]; [apply emits_ret |].
  apply Forall_cons_iff in Htasks as [Hjob Htasks].
  apply emits_bind; [now apply emits_run_job | intros _]. now apply IH.
Qed.

Lemma emits_run_task type run input output begin end_ parameters :
  (forall type input output begin end_ parameters,
     P (RunTask type input output begin end_ parameters)) ->
  emits_only P (run_task type run input output begin end_ parameters).
Proof.
  intros Htask. unfold run_task.
  apply emits_bind; [apply emits_emit, Htask | intros _].
  apply emits_bind; [apply emits_get_fs | intros f].
  destruct (run f input output begin end_ parameters);
    [apply emits_set_fs | apply emits_raise].
Qed.

Lemma emits_tasks_stage force configuration job directory name output_path
    parameters_path begin end_ parameters :
  (forall type input output begin end_ parameters,
     P (RunTask type input output begin end_ parameters)) ->
  emits_only P
    (tasks_stage E force configuration job directory name output_path
       parameters_path begin end_ parameters).
Proof.
  intros Htask. unfold tasks_stage.
  apply emits_bind; [apply emits_lift | intros tasks].
  apply emits_mfold. intros s x. unfold task_step.
  repeat first [apply emits_run_task; exact Htask | emits_step].
Qed.

Lemma emits_copy2 source target :
  (forall source target, P (Copy source target)) ->
  emits_only P (copy2 source target).
Proof.
  intros Hcopy. apply emits_bind; [apply emits_get_fs | intros f].
  destruct (file_lookup source f); [| apply emits_raise].
  apply emits_bind; [apply emits_emit, Hcopy | intros; apply emits_set_fs].
Qed.

Lemma emits_attachments_stage force directory name configuration parameters :
  (forall source target, P (Copy source target)) ->
  emits_only P (attachments_stage force directory name configuration parameters).
Proof.
  intros Hcopy. unfold attachments_stage.
  apply emits_bind; [apply emits_lift | intros attachments].
  apply emits_bind; [apply emits_lift | intros l].
  apply emits_mfold. intros s x. unfold attachment_step.
  repeat first [apply emits_copy2; exact Hcopy | emits_step].
Qed.

(** The run command, when the attachments of a checked configuration and
    the tasks of a validated job add nothing else. *)
Lemma emits_run force configuration :
  (forall c checked directory name parameters,
     check_configuration E c = inr checked ->
     emits_only P (attachments_stage force directory name checked parameters)) ->
  (forall c checked job directory name output_path parameters_path begin end_
          parameters,
     validate_job E c job = inr tt ->
     emits_only P
       (tasks_stage E force checked job directory name output_path
          parameters_path begin end_ parameters)) ->
  emits_only P (run E force configuration).
Proof.
  intros Hattachments Htasks. unfold run.
  apply emits_bind; [apply emits_lift | intros _].
  apply emits_bind; [apply emits_lift | intros c].
  apply emits_bind; [apply emits_lift | intros _].
  apply emits_bind_lift. intros checked Hchecked.
  apply emits_bind; [apply emits_lift | intros directory].
  apply emits_bind; [apply emits_info | intros _].
  apply emits_bind; [apply emits_emit, Hmkdir | intros _].
  apply emits_bind_lift. intros jobs Hjobs.
  destruct (check_configuration_inr E c checked Hchecked) as [Hvalid _].
  apply emits_run_jobs.
  - intros. now apply (Hattachments c).
  - eapply Forall_impl; [| exact (Hvalid jobs Hjobs)].
    intros job Hjob. intros. now apply (Htasks c).
Qed.

End Emissions.

(** X15: the run command never runs a task.  A job that lists a task does
    not pass the validation, which sends every pattern to [error], and a
    job without the key [tasks] stops the loop over its tasks, so whatever
    the configuration, the files and the collaborators are, no event of a
    run is the call of a task. *)
Theorem run_never_runs_a_task (E : environment) (force : bool)
    (configuration : value) :
  emits_only (fun e => ~ is_task_run e) (run E force configuration).
Proof.
  apply emits_run; try (intros; exact (fun H : False => H)).
  - intros. apply emits_attachments_stage; try (intros; exact (fun H : False => H)).
  - intros c checked job directory name output_path parameters_path begin end_
      parameters Hvalid.
    apply emits_silent. intros w. eapply tasks_stage_validated, Hvalid.
Qed.

(** X16: the run command never copies an attachment.  The attachments of a
    checked configuration are a mapping, the loop of a job goes over its
    keys, and a key has no [target], so whatever the configuration, the
    files and the collaborators are, no event of a run is a copy. *)
Theorem run_never_copies_an_attachment (E : environment) (force : bool)
    (configuration : value) :
  emits_only (fun e => ~ is_copy e) (run E force configuration).
Proof.
  apply emits_run; try (intros; exact (fun H : False => H)).
  - intros c checked directory name parameters Hchecked.
    destruct (check_configuration_inr E c checked Hchecked) as [_ (d & Hd)].
    apply emits_silent. intros w. eapply attachments_stage_mapping, Hd.
  - intros. apply emits_tasks_stage; try (intros; exact (fun H : False => H)).
Qed.

(** ** Strings that are not timecodes *)

Section TimecodeErrors.

Variable E : environment.





End TimecodeErrors.



(** ** Filters and tasks after the checks *)

Section SplitFacts.

Lemma lookup_without excluded k : forall d : items,
  lookup k (without excluded d)
  = if existsb (String.eqb k) excluded then None else lookup k d.
Proof.
  induction d as [|[k' v] d IH]; cbn [without filter lookup fst].
  - now destruct (existsb (String.eqb k) excluded).
  - fold (without excluded d).
    destruct (String.eqb_spec k k') as [<- | Hne].
    + destruct (existsb (String.eqb k) excluded) eqn:Hk; cbn [negb].
      * exact IH.
      * cbn [lookup]. now rewrite String.eqb_refl.
    + destruct (existsb (String.eqb k') excluded); cbn [negb].
      * exact IH.
      * cbn [lookup]. apply String.eqb_neq in Hne. now rewrite Hne, IH.
Qed.

Lemma emap_Forall2 {A B} (f : A -> exn + B) (R : A -> B -> Prop) :
  (forall a b, f a = inr b -> R a b) ->
  forall l l', emap f l = inr l' -> Forall2 R l l'.
Proof.
  intros Hf. induction l as [|a l IH]; cbn [emap]; intros l' H.
  - injection H as <-. constructor.
  - apply ebind_inr in H as (b & Hb & H).
    apply ebind_inr in H as (bs & Hbs & H). injection H as <-.
    constructor; auto.
Qed.

Lemma split_filter_inr original split :
  split_filter original = inr split -> is_split_filter original split.
Proof.
  destruct original as [name filter]. unfold split_filter. intros H.
  apply ebind_inr in H as (type & Htype & H).
  apply ebind_inr in H as (icon & Hicon & H).
  apply ebind_inr in H as (suffix & Hsuffix & H).
  apply ebind_inr in H as (d & Hd & H). injection H as <-.
  destruct filter as [| | | | |d']; try discriminate. injection Hd as <-.
  rewrite get_dict in Htype, Hicon, Hsuffix.
  destruct (lookup "type" d') eqn:Lt; [| discriminate].
  destruct (lookup "icon" d') eqn:Li; [| discriminate].
  destruct (lookup "suffix" d') eqn:Ls; [| discriminate].
  injection Htype as <-. injection Hicon as <-. injection Hsuffix as <-.
  split; [reflexivity |]. exists d'. do 4 eexists.
  repeat split; try eassumption. intros k. apply lookup_without.
Qed.

Lemma split_task_inr original split :
  split_task original = inr split -> is_split_task original split.
Proof.
  destruct original as [name task]. unfold split_task. intros H.
  apply ebind_inr in H as (type & Htype & H).
  apply ebind_inr in H as (icon & Hicon & H).
  apply ebind_inr in H as (d & Hd & H). injection H as <-.
  destruct task as [| | | | |d']; try discriminate. injection Hd as <-.
  rewrite get_dict in Htype, Hicon.
  destruct (lookup "type" d') eqn:Lt; [| discriminate].
  destruct (lookup "icon" d') eqn:Li; [| discriminate].
  injection Htype as <-. injection Hicon as <-.
  split; [reflexivity |]. exists d'. do 3 eexists.
  repeat split; try eassumption. intros k. apply lookup_without.
Qed.

Lemma check_configuration_split E configuration checked :
  check_configuration E configuration = inr checked ->
  exists filters0 tasks0 filters tasks,
    get configuration "filters" = inr (VDict filters0)
    /\ get configuration "tasks" = inr (VDict tasks0)
    /\ get checked "filters" = inr (VDict filters)
    /\ get checked "tasks" = inr (VDict tasks)
    /\ Forall2 is_split_filter filters0 filters
    /\ Forall2 is_split_task tasks0 tasks
    /\ forall k, String.eqb k "filters" = false -> String.eqb k "tasks" = false ->
                 get checked k = get configuration k.
Proof.
  unfold check_configuration. intros H.
  apply ebind_inr in H as (jobs0 & Hjobs0 & H).
  apply ebind_inr in H as (jobs & _ & H).
  apply ebind_inr in H as ([] & _ & H).
  apply ebind_inr in H as (attachments & _ & H).
  apply ebind_inr in H as (d & _ & H).
  apply ebind_inr in H as ([] & _ & H).
  apply ebind_inr in H as (filters0 & Hfilters0 & H).
  apply ebind_inr in H as (filters0' & Hitems & H).
  apply ebind_inr in H as (filters & Hsplit & H).
  apply ebind_inr in H as (c1 & Hc1 & H).
  apply ebind_inr in H as (tasks0 & Htasks0 & H).
  apply ebind_inr in H as (tasks0' & Hitems' & H).
  apply ebind_inr in H as (tasks & Hsplit' & H).
  apply get_inr in Hjobs0 as (d0 & -> & _).
  destruct filters0 as [| | | | |f0]; try discriminate. injection Hitems as <-.
  destruct tasks0 as [| | | | |t0]; try discriminate. injection Hitems' as <-.
  cbn [setitem] in Hc1. injection Hc1 as <-.
  cbn [setitem] in H. injection H as <-.
  rewrite get_dict, lookup_set_item_other in Htasks0 by reflexivity.
  exists f0, t0, filters, tasks. repeat split.
  - exact Hfilters0.
  - now rewrite get_dict.
  - rewrite get_dict, lookup_set_item_other, lookup_set_item_same by reflexivity.
    reflexivity.
  - now rewrite get_dict, lookup_set_item_same.
  - eapply emap_Forall2; [| exact Hsplit]. apply split_filter_inr.
  - eapply emap_Forall2; [| exact Hsplit']. apply split_task_inr.
  - intros k H1 H2. now rewrite !get_dict, !lookup_set_item_other.
Qed.

End SplitFacts.

(** X18: what the checks of the run command leave.  When they pass, the
    filters and the tasks of the configuration are there under the same
    names and in the same order, each filter as its type, icon and suffix
    with its other options under [parameters], each task as its type and
    icon with its other options under [parameters], and every other key of
    the configuration is as it was. *)
Theorem checked_configuration_is_split (E : environment)
    (configuration checked : value) :
  check_configuration E configuration = inr checked ->
  exists filters0 tasks0 filters tasks,
    get configuration "filters" = inr (VDict filters0)
    /\ get configuration "tasks" = inr (VDict tasks0)
    /\ get checked "filters" = inr (VDict filters)
    /\ get checked "tasks" = inr (VDict tasks)
    /\ Forall2 is_split_filter filters0 filters
    /\ Forall2 is_split_task tasks0 tasks
    /\ forall k, String.eqb k "filters" = false -> String.eqb k "tasks" = false ->
                 get checked k = get configuration k.
Proof. apply check_configuration_split. Qed.

Lemma checked_configuration_is_split_witness :
  exists filters0 tasks0 filters tasks,
    get (sample_configuration [sample_job "rec" ["default"] []] (VDict []))
      "filters" = inr (VDict filters0)
    /\ get (sample_configuration [sample_job "rec" ["default"] []] (VDict []))
         "tasks" = inr (VDict tasks0)
    /\ get (VDict [("directory", VStr "renders");
                   ("filters", VDict split_filters);
                   ("tasks", VDict split_tasks);
                   ("jobs", VList [sample_job "rec" ["default"] []]);
                   ("sources", VDict [("rec", VStr "/data/rec.es")]);
                   ("attachments", VDict [])]) "filters" = inr (VDict filters)
    /\ get (VDict [("directory", VStr "renders");
                   ("filters", VDict split_filters);
                   ("tasks", VDict split_tasks);
                   ("jobs", VList [sample_job "rec" ["default"] []]);
                   ("sources", VDict [("rec", VStr "/data/rec.es")]);
                   ("attachments", VDict [])]) "tasks" = inr (VDict tasks)
    /\ Forall2 is_split_filter filters0 filters
    /\ Forall2 is_split_task tasks0 tasks
    /\ forall k, String.eqb k "filters" = false -> String.eqb k "tasks" = false ->
                 get (VDict [("directory", VStr "renders");
                             ("filters", VDict split_filters);
                             ("tasks", VDict split_tasks);
                             ("jobs", VList [sample_job "rec" ["default"] []]);
                             ("sources", VDict [("rec", VStr "/data/rec.es")]);
                             ("attachments", VDict [])]) k
                 = get (sample_configuration [sample_job "rec" ["default"] []]
                          (VDict [])) k.
Proof.
  apply (checked_configuration_is_split sample_environment). reflexivity.
Defined.

(** ** Running again *)

Section SecondRun.

Variable E : environment.

Lemma compare_parameters_refl v : compare_parameters v v = true.
Proof. apply String.eqb_refl. Qed.

Lemma up_to_date_decide force recorded name parameters output_path f :
  up_to_date force recorded name parameters output_path f
  \/ ~ up_to_date force recorded name parameters output_path f.
Proof.
  rewrite up_to_date_test.
  destruct (negb force && _ && _); [now left | right; discriminate].
Qed.

Lemma up_to_date_recorded field name parameters recorded pd output_path f :
  file_lookup output_path f <> None ->
  lookup field (recorded_under field name parameters recorded pd)
  = Some (VDict (set_item name parameters recorded))
  /\ up_to_date false (set_item name parameters recorded) name parameters
       output_path f.
Proof.
  intros Hf. split; [apply lookup_set_item_same |].
  split; [reflexivity | split; [| exact Hf]].
  exists parameters. split; [apply lookup_set_item_same |].
  apply compare_parameters_refl.
Qed.

Lemma single_filter_again force configuration job filters sources pd recorded
    name type icon suffix parameters job_name source output_path
    parameters_path begin end_ index w state index' w' :
  get configuration "filters" = inr (VDict filters) ->
  lookup name filters
  = Some (VDict [("type", VStr type); ("icon", icon); ("suffix", suffix);
                 ("parameters", parameters)]) ->
  type = "default" \/ type = "arbiter_saturation" ->
  get configuration "sources" = inr (VDict sources) ->
  lookup job_name sources = Some (VStr source) ->
  get job "name" = inr (VStr job_name) ->
  get job "filters" = inr (VList [VStr name]) ->
  lookup "filters" pd = Some (VDict recorded) ->
  (forall f i o b e p, filters_default_apply E f i o b e p = true) ->
  (forall f i o b e p, filters_arbiter_saturation_apply E f i o b e p = true) ->
  output_path <> Path.with_suffix parameters_path ".part" ->
  filter_stage E force configuration job (VDict pd) output_path
    parameters_path begin end_ index w = (inr (state, index'), w') ->
  filter_stage E false configuration job state output_path parameters_path
    begin end_ index' w'
  = (inr (state, index'),
     {| fs := fs w';
        log := (log w' ++ [Info "⏭ " ("skip filter " ++ name)])%list;
        fresh := fresh w' |}).
Proof.
  intros Hfilters Hname Htype Hsources Hsource Hjob Hjf Hrec Hd Ha Hpath Hrun.
  destruct (single_filter_spec E force configuration job filters sources pd
              recorded name type icon suffix parameters job_name source
              output_path parameters_path begin end_ index w
              Hfilters Hname Htype Hsources Hsource Hjob Hjf Hrec Hd Ha)
    as [Hskip Hrerun].
  destruct (up_to_date_decide force recorded name parameters output_path (fs w))
    as [Hup | Hnot].
  - rewrite (Hskip Hup) in Hrun. injection Hrun as <- <- <-.
    destruct Hup as (_ & Hsnapshot & Hfile).
    apply (single_filter_spec E false configuration job filters sources pd
             recorded name type icon suffix parameters job_name source
             output_path parameters_path begin end_ index _
             Hfilters Hname Htype Hsources Hsource Hjob Hjf Hrec Hd Ha).
    split; [reflexivity | split; assumption].
  - destruct (Hrerun Hnot) as (w1 & Hrun1 & _ & _ & Houtput & _).
    rewrite Hrun1 in Hrun. injection Hrun as <- <- <-.
    destruct (up_to_date_recorded "filters" name parameters recorded pd
                output_path (fs w1) (Houtput Hpath)) as [Hrec1 Hup1].
    now apply (single_filter_spec E false configuration job filters sources _
                 _ name type icon suffix parameters job_name source
                 output_path parameters_path begin end_ index w1
                 Hfilters Hname Htype Hsources Hsource Hjob Hjf Hrec1 Hd Ha).
Qed.

Lemma task_step_again force configuration tasks pd recorded name type icon
    parameters directory directory_name output_path parameters_path
    begin end_ w state w' :
  get configuration "tasks" = inr (VDict tasks) ->
  task_configured tasks name type icon parameters ->
  lookup "tasks" pd = Some (VDict recorded) ->
  (forall f i o b e p, tasks_colourtime_run E f i o b e p = true) ->
  (forall f i o b e p, tasks_event_rate_run E f i o b e p = true) ->
  (forall f i o b e p, tasks_video_run E f i o b e p = true) ->
  file_lookup output_path (fs w) <> None ->
  output_path
  <> with_suffix (Path.div (Path.div directory directory_name)
                    (directory_name ++ "-" ++ name ++ task_extension E type))
       ".part" ->
  output_path <> Path.with_suffix parameters_path ".part" ->
  task_step E force configuration directory directory_name output_path
    parameters_path begin end_ (VDict pd) (VStr name) w = (inr state, w') ->
  task_step E false configuration directory directory_name output_path
    parameters_path begin end_ state (VStr name) w'
  = (inr state,
     {| fs := fs w';
        log := (log w' ++ [Info "⏭ " ("skip task " ++ name)])%list;
        fresh := fresh w' |}).
Proof.
  intros Htasks Hconfigured Hrec H1 H2 H3 Hfile Hp1 Hp2 Hrun.
  destruct (task_step_spec E force configuration tasks pd recorded name type
              icon parameters directory directory_name output_path
              parameters_path begin end_ w Htasks Hconfigured Hrec H1 H2 H3)
    as [Hskip Hrerun].
  destruct (up_to_date_decide force recorded name parameters output_path (fs w))
    as [Hup | Hnot].
  - rewrite (Hskip Hup) in Hrun. injection Hrun as <- <-.
    destruct Hup as (_ & Hsnapshot & _).
    apply (task_step_spec E false configuration tasks pd recorded name type
             icon parameters directory directory_name output_path
             parameters_path begin end_ _ Htasks Hconfigured Hrec H1 H2 H3).
    split; [reflexivity | split; assumption].
  - destruct (Hrerun Hnot) as (w1 & Hrun1 & _ & _ & _ & Hkept).
    rewrite Hrun1 in Hrun. injection Hrun as <- <-.
    destruct (up_to_date_recorded "tasks" name parameters recorded pd
                output_path (fs w1) (Hkept output_path Hp1 Hp2 Hfile))
      as [Hrec1 Hup1].
    now apply (task_step_spec E false configuration tasks _ _ name type
                 icon parameters directory directory_name output_path
                 parameters_path begin end_ w1 Htasks Hconfigured Hrec1
                 H1 H2 H3).
Qed.

End SecondRun.

(** X19: running the filter of a job again does nothing.  When the stage of
    a job with one filter has returned, forced or not, the same stage run
    without force on the state and the files it left reports a skip and
    applies no filter: the snapshot it recorded is the one it compares, and
    the output it renamed is there. *)
Theorem single_filter_second_run_skips (E : environment) (force : bool)
    (configuration job : value) (filters sources pd recorded : items)
    (name type : string) (icon suffix parameters : value)
    (job_name source output_path parameters_path : string)
    (begin end_ index : Z) (w : world)
    (state : value) (index' : Z) (w' : world) :
  get configuration "filters" = inr (VDict filters) ->
  lookup name filters
  = Some (VDict [("type", VStr type); ("icon", icon); ("suffix", suffix);
                 ("parameters", parameters)]) ->
  type = "default" \/ type = "arbiter_saturation" ->
  get configuration "sources" = inr (VDict sources) ->
  lookup job_name sources = Some (VStr source) ->
  get job "name" = inr (VStr job_name) ->
  get job "filters" = inr (VList [VStr name]) ->
  lookup "filters" pd = Some (VDict recorded) ->
  (forall f i o b e p, filters_default_apply E f i o b e p = true) ->
  (forall f i o b e p, filters_arbiter_saturation_apply E f i o b e p = true) ->
  output_path <> Path.with_suffix parameters_path ".part" ->
  filter_stage E force configuration job (VDict pd) output_path
    parameters_path begin end_ index w = (inr (state, index'), w') ->
  filter_stage E false configuration job state output_path parameters_path
    begin end_ index' w'
  = (inr (state, index'),
     {| fs := fs w';
        log := (log w' ++ [Info "⏭ " ("skip filter " ++ name)])%list;
        fresh := fresh w' |}).
Proof. apply single_filter_again. Qed.

Lemma single_filter_second_run_skips_witness :
  let job := sample_job "rec" ["as-1"] [] in
  let configuration :=
    VDict [("filters", VDict split_filters);
           ("sources", VDict [("rec", VStr "/data/rec.es")])] in
  let output_path := "/work/renders/rec-b0-e1-as1/rec-b0-e1-as1.es" in
  let parameters_path := "/work/renders/rec-b0-e1-as1/parameters.toml" in
  let state :=
    VDict (recorded_under "filters" "as-1" (VDict [("threshold", VInt 1)]) []
             (fresh_state (VStr "/data/rec.es"))) in
  let w' :=
    snd (filter_stage sample_environment true configuration job
           (VDict (fresh_state (VStr "/data/rec.es"))) output_path
           parameters_path 0 1000000 0 empty_world) in
  filter_stage sample_environment false configuration job state output_path
    parameters_path 0 1000000 0 w'
  = (inr (state, 0),
     {| fs := fs w';
        log := (log w' ++ [Info "⏭ " ("skip filter " ++ "as-1")])%list;
        fresh := fresh w' |}).
Proof.
  apply (single_filter_second_run_skips sample_environment true _ _
           split_filters [("rec", VStr "/data/rec.es")]
           (fresh_state (VStr "/data/rec.es")) [] "as-1"
           "arbiter_saturation" (VStr "F") (VStr "as1")
           (VDict [("threshold", VInt 1)]) "rec" "/data/rec.es"
           _ _ 0 1000000 0 empty_world);
    try reflexivity.
  - now right.
  - discriminate.
Defined.

(** X20: running a task again does nothing.  When a task of a job has
    returned, forced or not, with the output of the filters in place, the
    same task run without force on the state and the files it left is
    skipped: the snapshot it recorded is the one it compares, and the
    output of the filters is still there. *)
Theorem task_second_run_skips (E : environment) (force : bool)
    (configuration : value) (tasks pd recorded : items)
    (name type : string) (icon parameters : value)
    (directory directory_name output_path parameters_path : string)
    (begin end_ : Z) (w : world) (state : value) (w' : world) :
  get configuration "tasks" = inr (VDict tasks) ->
  task_configured tasks name type icon parameters ->
  lookup "tasks" pd = Some (VDict recorded) ->
  (forall f i o b e p, tasks_colourtime_run E f i o b e p = true) ->
  (forall f i o b e p, tasks_event_rate_run E f i o b e p = true) ->
  (forall f i o b e p, tasks_video_run E f i o b e p = true) ->
  file_lookup output_path (fs w) <> None ->
  output_path
  <> with_suffix (Path.div (Path.div directory directory_name)
                    (directory_name ++ "-" ++ name ++ task_extension E type))
       ".part" ->
  output_path <> Path.with_suffix parameters_path ".part" ->
  task_step E force configuration directory directory_name output_path
    parameters_path begin end_ (VDict pd) (VStr name) w = (inr state, w') ->
  task_step E false configuration directory directory_name output_path
    parameters_path begin end_ state (VStr name) w'
  = (inr state,
     {| fs := fs w';
        log := (log w' ++ [Info "⏭ " ("skip task " ++ name)])%list;
        fresh := fresh w' |}).
Proof. apply task_step_again. Qed.

Lemma task_second_run_skips_witness :
  let configuration := VDict [("tasks", VDict split_tasks)] in
  let output_path := "/work/renders/rec-b0-e1/rec-b0-e1.es" in
  let parameters_path := "/work/renders/rec-b0-e1/parameters.toml" in
  let w := world_with [(output_path, Data)] in
  let state :=
    VDict (recorded_under "tasks" "video-real-time"
             (VDict [("frametime", VStr "00:00:00.020000")]) []
             (fresh_state (VStr "/data/rec.es"))) in
  let w' :=
    snd (task_step sample_environment false configuration "/work/renders"
           "rec-b0-e1" output_path parameters_path 0 1000000
           (VDict (fresh_state (VStr "/data/rec.es")))
           (VStr "video-real-time") w) in
  task_step sample_environment false configuration "/work/renders" "rec-b0-e1"
    output_path parameters_path 0 1000000 state (VStr "video-real-time") w'
  = (inr state,
     {| fs := fs w';
        log := (log w' ++ [Info "⏭ " ("skip task " ++ "video-real-time")])%list;
        fresh := fresh w' |}).
Proof.
  apply (task_second_run_skips sample_environment false _ split_tasks
           (fresh_state (VStr "/data/rec.es")) [] "video-real-time" "video"
           (VStr "T") (VDict [("frametime", VStr "00:00:00.020000")])
           "/work/renders" "rec-b0-e1" _ _ 0 1000000
           (world_with [("/work/renders/rec-b0-e1/rec-b0-e1.es", Data)]));
    try reflexivity; try discriminate.
  split; [reflexivity | simpl; auto].
Defined.
